(** * Practice_RAGModel: chunk identifiers, incremental indexing, prompt assembly

    A shallow embedding of [populate_db.py] (chunk id assignment and the
    dedup-then-add step), [get_embedding_func.py] (the start-up self check)
    and [query_db.py] (context and prompt assembly), with the properties of
    the written specification stated over it.

    Python exceptions are the [Raise] results of an error monad. Chunks are
    values: the text splitter builds a fresh [Document] with its own
    metadata dict for every chunk, and [calculate_chunk_ids], which writes
    the ids in place and returns the list it was given, is a function from
    the list before to the list after; a later call on the same list is a
    call on that result. Texts are byte strings (UTF-8); the separators the
    code uses are ASCII. The embedding model, the language model and the
    search of the vector store are parameters of the pipeline. *)

From Stdlib Require Import Ascii.
From stdpp Require Import base option list numbers strings pretty gmap.

Open Scope Z_scope.

(** ** Python values, exceptions and results *)

(** The metadata values the code touches: [None], integers (page numbers)
    and text (the document path, the chunk id). *)
Inductive pyval : Type :=
  | PyNone
  | PyInt (z : Z)
  | PyStr (s : string).

Global Instance pyval_eq_dec : EqDecision pyval.
Proof. solve_decision. Defined.

(** The exceptions that can leave the modelled functions. *)
Inductive py_error : Type :=
  | AttributeError
  | IndexError
  | KeyError (key : string)
  | ValueError (msg : string)
  | ConnectionError
  | RuntimeError (msg : string)
  | OtherError (msg : string).

Inductive result (A : Type) : Type :=
  | Ok (a : A)
  | Raise (e : py_error).
Arguments Ok {A} a.
Arguments Raise {A} e.

Global Instance result_ret : MRet result := @Ok.
Global Instance result_bind : MBind result := fun A B f m =>
  match m with
  | Ok a => f a
  | Raise e => Raise e
  end.

Global Instance result_fmap : FMap result := fun A B f m =>
  match m with
  | Ok a => Ok (f a)
  | Raise e => Raise e
  end.

Definition succeeds {A} (m : result A) : Prop := exists a, m = Ok a.

(** ** Text *)

Definition backslash : ascii := ascii_of_nat 92.
Definition colon : ascii := ascii_of_nat 58.
Definition newline : string := String (ascii_of_nat 10) "".
Definition esc : string := String (ascii_of_nat 27) "".

(** [str(v)], the rendering an f-string uses for [{v}]. *)
Definition py_str (v : pyval) : string :=
  match v with
  | PyNone => "None"
  | PyInt z => pretty z
  | PyStr s => s
  end.

(** [s.split(sep)] for a separator of one character: the pieces between the
    separators, empty pieces included, so a text with [n] separators has
    [n + 1] pieces. *)
Fixpoint str_split (sep : ascii) (s : string) : list string :=
  match s with
  | EmptyString => [EmptyString]
  | String a s' =>
      if decide (a = sep) then EmptyString :: str_split sep s'
      else match str_split sep s' with
           | piece :: pieces => String a piece :: pieces
           | [] => [String a EmptyString]
           end
  end.

(** [sep.join(parts)]. *)
Fixpoint str_join (sep : string) (parts : list string) : string :=
  match parts with
  | [] => EmptyString
  | [p] => p
  | p :: rest => p +:+ sep +:+ str_join sep rest
  end.


(** A character does not occur in a text. *)
Fixpoint str_free (c : ascii) (s : string) : Prop :=
  match s with
  | EmptyString => True
  | String a s' => a <> c /\ str_free c s'
  end.

(** ** Documents *)

(** A LangChain [Document]: the text and the metadata dict. *)
Record Document : Type := mkDocument {
  page_content : string;
  metadata : gmap string pyval
}.

(** [d.get(k)]: [None] when the key is absent. *)
Definition dict_get (d : gmap string pyval) (k : string) : pyval :=
  default PyNone (d !! k).

(** [chunk.metadata['id'] = chunk_id]. *)
Definition set_id (chunk : Document) (chunk_id : string) : Document :=
  {| page_content := page_content chunk;
     metadata := <["id" := PyStr chunk_id]> (metadata chunk) |}.

(** ** populate_db.calculate_chunk_ids *)

(** The two loop variables. *)
Record loop_state : Type := mkState {
  last_page_id : option string;
  current_chunk_index : nat
}.

Definition initial_state : loop_state :=
  {| last_page_id := None; current_chunk_index := 0 |}.

(** [chunk.metadata.get("source").split("\\")[6]]: a missing source is
    [None], which has no [split]; a path of fewer than seven pieces has no
    index 6. *)
Definition id_source (chunk : Document) : result string :=
  match dict_get (metadata chunk) "source" with
  | PyStr src =>
      let parsedSource := str_split backslash src in
      match parsedSource !! 6%nat with
      | Some idSource => Ok idSource
      | None => Raise IndexError
      end
  | _ => Raise AttributeError
  end.

(** [page = chunk.metadata.get("page")]. *)
Definition page_of (chunk : Document) : pyval :=
  dict_get (metadata chunk) "page".

(** [f"{source}:{page}"]. *)
Definition format_page_id (source : string) (page : pyval) : string :=
  source +:+ ":" +:+ py_str page.

(** [f"{current_page_id}:{current_chunk_index}"]. *)
Definition format_chunk_id (current_page_id : string) (index : nat) : string :=
  current_page_id +:+ ":" +:+ pretty index.

Definition page_id (chunk : Document) : result string :=
  source ← id_source chunk;
  mret (format_page_id source (page_of chunk)).

(** The index given to a chunk whose page id is [current_page_id]. *)
Definition next_index (st : loop_state) (current_page_id : string) : nat :=
  if decide (Some current_page_id = last_page_id st)
  then S (current_chunk_index st)
  else 0%nat.

(** One iteration of the loop. *)
Definition loop_body (st : loop_state) (chunk : Document)
  : result (loop_state * Document) :=
  current_page_id ← page_id chunk;
  let index := next_index st current_page_id in
  let chunk_id := format_chunk_id current_page_id index in
  mret ({| last_page_id := Some current_page_id;
           current_chunk_index := index |},
        set_id chunk chunk_id).

Fixpoint assign_from (st : loop_state) (chunks : list Document)
  : result (list Document) :=
  match chunks with
  | [] => mret []
  | chunk :: rest =>
      '(st', chunk') ← loop_body st chunk;
      rest' ← assign_from st' rest;
      mret (chunk' :: rest')
  end.

Definition calculate_chunk_ids (chunks : list Document) : result (list Document) :=
  assign_from initial_state chunks.

(** The value of [current_chunk_index] at the end of each iteration. *)
Fixpoint indices_from (st : loop_state) (chunks : list Document)
  : result (list nat) :=
  match chunks with
  | [] => mret []
  | chunk :: rest =>
      '(st', _) ← loop_body st chunk;
      rest' ← indices_from st' rest;
      mret (current_chunk_index st' :: rest')
  end.

Definition sequence_indices (chunks : list Document) : result (list nat) :=
  indices_from initial_state chunks.

(** The id a chunk carries, [None] when it has none. *)
Definition chunk_id_of (chunk : Document) : pyval :=
  dict_get (metadata chunk) "id".

(** ** Console output *)

(** A line given to [print]: text, or text around the [repr] of a list. *)
Inductive printed : Type :=
  | PrintText (s : string)
  | PrintList (before : string) (items : list pyval) (after : string).

(** ["\033[92m" + s + "\033[0m"]. *)
Definition green (s : string) : string :=
  esc +:+ "[92m" +:+ s +:+ esc +:+ "[0m".

(** ** Prompt templates *)

(** A template is literal characters and replacement fields. *)
Inductive piece : Type :=
  | Lit (c : ascii)
  | Field (name : string).

(** The scan of a format string: [{name}] is a field, [{{] and [}}] are
    literal braces. [field] is the name being read, if any. *)
Fixpoint parse_template (field : option string) (s : string) : result (list piece) :=
  match s with
  | EmptyString =>
      match field with
      | None => Ok []
      | Some _ => Raise (ValueError "expected '}' before end of string")
      end
  | String a s' =>
      match field with
      | Some name =>
          if decide (a = "}"%char)
          then rest ← parse_template None s'; mret (Field name :: rest)
          else parse_template (Some (name +:+ String a EmptyString)) s'
      | None =>
          if decide (a = "{"%char) then
            match s' with
            | String b s'' =>
                if decide (b = "{"%char)
                then rest ← parse_template None s''; mret (Lit "{"%char :: rest)
                else parse_template (Some EmptyString) s'
            | EmptyString => parse_template (Some EmptyString) s'
            end
          else if decide (a = "}"%char) then
            match s' with
            | String b s'' =>
                if decide (b = "}"%char)
                then rest ← parse_template None s''; mret (Lit "}"%char :: rest)
                else Raise (ValueError "Single '}' encountered in format string")
            | EmptyString => Raise (ValueError "Single '}' encountered in format string")
            end
          else rest ← parse_template None s'; mret (Lit a :: rest)
      end
  end.

(** Keyword arguments, in call order. *)
Fixpoint kwarg (kwargs : list (string * string)) (name : string) : result string :=
  match kwargs with
  | [] => Raise (KeyError name)
  | (k, v) :: rest => if decide (k = name) then Ok v else kwarg rest name
  end.

Fixpoint render (pieces : list piece) (kwargs : list (string * string)) : result string :=
  match pieces with
  | [] => Ok EmptyString
  | Lit c :: rest => text ← render rest kwargs; mret (String c text)
  | Field name :: rest =>
      v ← kwarg kwargs name;
      text ← render rest kwargs;
      mret (v +:+ text)
  end.

(** [ChatPromptTemplate.from_template(t).format(context=c, question=q)]: the template is
    one human message, and the rendering of a chat prompt as text puts the
    role before the message. *)
Definition chat_prompt_format (template : string) (kwargs : list (string * string))
  : result string :=
  pieces ← parse_template None template;
  text ← render pieces kwargs;
  mret ("Human: " +:+ text).

Definition dquote : string := String (ascii_of_nat 34) "".

Definition prompt_head : string :=
  newline +:+
  "You are a chatbot named Aero Space The users of this are Systems engineers that are using this for researching Systems Engineering " +:+
  newline +:+
  "principles and best practices if no answer is found respond with " +:+ dquote +:+
  "I was not able to find the answer based on the provided context provided" +:+ dquote +:+
  ".:" +:+ newline +:+ newline.

Definition prompt_middle : string :=
  newline +:+ newline +:+ "---" +:+ newline +:+ newline +:+
  "Answer the questions as systems engineer would based on the above context: ".

Definition prompt_tail : string := newline.

Definition PROMPT_TEMPLATE : string :=
  prompt_head +:+ "{context}" +:+ prompt_middle +:+ "{question}" +:+ prompt_tail.

(** ["\n\n---\n\n"], the separator between retrieved texts. *)
Definition context_separator : string :=
  newline +:+ newline +:+ "---" +:+ newline +:+ newline.

(** ** The services around the pipeline *)

Section Pipeline.

(** Embedding components and relevance scores are floating-point numbers the
    pipeline only passes along. *)
Variable Float : Type.
Variable Score : Type.

(** [os.getenv('LLM_EMBEDDING_MODEL')]. *)
Variable LLM_EMBEDDING_MODEL : option string.
(** [OllamaEmbeddings(model=m).embed_query(text)]. *)
Variable ollama_embed : string -> string -> result (list Float).
(** [int(os.getenv('CHUNKS_TO_RETURN'))]. *)
Variable CHUNKS_TO_RETURN : Z.
(** [OllamaLLM(model=LLM_QUERY_MODEL, temperature=LLM_TEMPERATURE).invoke(prompt)]. *)
Variable ollama_invoke : string -> result string.

(** An entry of the collection. *)
Record Entry : Type := mkEntry {
  entry_id : string;
  entry_embedding : list Float;
  entry_text : string;
  entry_metadata : gmap string pyval
}.

(** Modelled from the spec: the Vector Index is the Chroma collection, a
    library that is not part of the repository. It is the entries in
    insertion order, with the three operations the spec gives it: the
    existing ids, upsert of one entry, and a ranked search. *)
Definition VectorIndex : Type := list Entry.

Definition store_ids (db : VectorIndex) : list string := map entry_id db.

(** Modelled from the spec: [upsert(id, vector, text, metadata)] replaces the
    entry of that id, or adds one at the end. *)
Fixpoint upsert (e : Entry) (db : VectorIndex) : VectorIndex :=
  match db with
  | [] => [e]
  | e' :: rest =>
      if decide (entry_id e' = entry_id e) then e :: rest
      else e' :: upsert e rest
  end.

(** [db.similarity_search_with_score(query_text, k)]: the search itself is
    the store's; the pipeline sees the ranked list it returns. *)
Variable similarity_search_with_score :
  VectorIndex -> string -> Z -> result (list (Document * Score)).

(** ** get_embedding_func.get_embedding_func *)

(** The embeddings object, known by its model name. *)
Record Embeddings : Type := mkEmbeddings { model : string }.

Definition embed_query (emb : Embeddings) (text : string) : result (list Float) :=
  ollama_embed (model emb) text.

(** [embed_documents(texts)]. *)
Fixpoint embed_documents (emb : Embeddings) (texts : list string)
  : result (list (list Float)) :=
  match texts with
  | [] => mret []
  | t :: rest =>
      v ← embed_query emb t;
      vs ← embed_documents emb rest;
      mret (v :: vs)
  end.

(** [str(e)] where the handlers use it. *)
Definition error_text (e : py_error) : string :=
  match e with
  | AttributeError => "'NoneType' object has no attribute 'split'"
  | IndexError => "list index out of range"
  | KeyError key => "'" +:+ key +:+ "'"
  | ValueError msg => msg
  | ConnectionError => ""
  | RuntimeError msg => msg
  | OtherError msg => msg
  end.

(** The three [except] clauses, in order. *)
Definition embedding_handlers {A} (e : py_error) : result A :=
  match e with
  | ConnectionError =>
      Raise (RuntimeError "Failed to connect to Ollama. Is the Ollama service running?")
  | ValueError _ =>
      Raise (RuntimeError ("Invalid model configuration: " +:+ error_text e))
  | _ =>
      Raise (RuntimeError ("Failed to initialize embedding function: " +:+ error_text e))
  end.

(** The body of the [try]. *)
Definition embedding_try : result Embeddings :=
  match LLM_EMBEDDING_MODEL with
  | None | Some EmptyString =>
      Raise (ValueError "LLM_EMBEDDING_MODEL not set in configuration.env")
  | Some name =>
      let embeddings := {| model := name |} in
      test_embedding ← embed_query embeddings "test";
      match test_embedding with
      | [] => Raise (RuntimeError "Embedding function returned empty embedding")
      | _ :: _ => mret embeddings
      end
  end.

Definition get_embedding_func : result Embeddings :=
  match embedding_try with
  | Ok embeddings => Ok embeddings
  | Raise e => embedding_handlers e
  end.

(** ** populate_db.add_to_chroma *)

(** [set(existing_items['ids'])]. *)
Definition existing_id_set (db : VectorIndex) : gset string :=
  list_to_set (store_ids db).

(** [v in existing_ids], for a set of texts. *)
Definition in_ids (v : pyval) (ids : gset string) : bool :=
  match v with
  | PyStr s => bool_decide (s ∈ ids)
  | _ => false
  end.

(** [d[k]]. *)
Definition dict_item (d : gmap string pyval) (k : string) : result pyval :=
  match d !! k with
  | Some v => Ok v
  | None => Raise (KeyError k)
  end.

(** The loop that collects [new_chunks]. *)
Fixpoint select_new (existing_ids : gset string) (chunks_with_ids : list Document)
  : result (list Document) :=
  match chunks_with_ids with
  | [] => mret []
  | chunk :: rest =>
      id ← dict_item (metadata chunk) "id";
      new_chunks ← select_new existing_ids rest;
      mret (if in_ids id existing_ids then new_chunks else chunk :: new_chunks)
  end.

(** [[chunk.metadata['id'] for chunk in new_chunks]]. *)
Fixpoint chunk_ids (new_chunks : list Document) : result (list pyval) :=
  match new_chunks with
  | [] => mret []
  | chunk :: rest =>
      id ← dict_item (metadata chunk) "id";
      ids ← chunk_ids rest;
      mret (id :: ids)
  end.

(** The entries a batch writes: one per document, with the id given for it.
    The store takes only text ids. *)
Fixpoint batch_entries (docs : list Document) (ids : list pyval)
    (vectors : list (list Float)) : result (list Entry) :=
  match docs, ids, vectors with
  | [], [], [] => mret []
  | doc :: docs', PyStr id :: ids', v :: vectors' =>
      rest ← batch_entries docs' ids' vectors';
      mret ({| entry_id := id; entry_embedding := v;
               entry_text := page_content doc;
               entry_metadata := metadata doc |} :: rest)
  | _, _, _ => Raise (ValueError "ids must be one text for each document")
  end.

(** A batch of upserts, in order. *)
Definition upsert_all (db : VectorIndex) (entries : list Entry) : VectorIndex :=
  foldl (fun store e => upsert e store) db entries.

(** [db.add_documents(docs, ids=ids)]: embed the texts, then upsert each
    entry in order. *)
Definition add_documents (emb : Embeddings) (db : VectorIndex)
    (docs : list Document) (ids : list pyval) : result VectorIndex :=
  vectors ← embed_documents emb (map page_content docs);
  entries ← batch_entries docs ids vectors;
  mret (upsert_all db entries).

(** What a call leaves behind: the collection, the printed lines and the
    returned value. *)
Record outcome : Type := mkOutcome {
  store_after : VectorIndex;
  stdout : list printed;
  returned : pyval
}.

Definition add_to_chroma (chunks : list Document) (db : VectorIndex) : result outcome :=
  emb ← get_embedding_func;
  chunks_with_ids ← calculate_chunk_ids chunks;
  let existing_ids := existing_id_set db in
  let line1 := PrintText (green ("Number of existing documents in DB: "
                                 +:+ pretty (size existing_ids))) in
  new_chunks ← select_new existing_ids chunks_with_ids;
  if decide (length new_chunks ≠ 0%nat) then
    let line2 := PrintText (green ("adding new documents: "
                                   +:+ pretty (length new_chunks))) in
    new_chunk_ids ← chunk_ids new_chunks;
    db' ← add_documents emb db new_chunks new_chunk_ids;
    mret {| store_after := db'; stdout := [line1; line2]; returned := PyNone |}
  else
    mret {| store_after := db;
            stdout := [line1; PrintText (green "There are no new documents to add")];
            returned := PyNone |}.

(** ** query_db.query_rag *)

(** [[doc.page_content for doc, _score in results]]. *)
Definition result_texts (results : list (Document * Score)) : list string :=
  map (fun r => page_content (fst r)) results.

(** [[doc.metadata.get("id", None) for doc, _score in results]]. *)
Definition result_sources (results : list (Document * Score)) : list pyval :=
  map (fun r => dict_get (metadata (fst r)) "id") results.

Definition context_of (results : list (Document * Score)) : string :=
  str_join context_separator (result_texts results).

Definition prompt_of (context_text query_text : string) : result string :=
  chat_prompt_format PROMPT_TEMPLATE
    [("context", context_text); ("question", query_text)].

Definition query_rag (db : VectorIndex) (query_text : string) : result outcome :=
  embedding_function ← get_embedding_func;
  results ← similarity_search_with_score db query_text CHUNKS_TO_RETURN;
  let context_text := context_of results in
  prompt ← prompt_of context_text query_text;
  response_text ← ollama_invoke prompt;
  let sources := result_sources results in
  mret {| store_after := db;
          stdout := [ PrintText (newline +:+ esc +:+ "[92mResponse: " +:+ response_text
                                 +:+ esc +:+ "[0m");
                      PrintList (newline +:+ esc +:+ "[93mSources: ") sources
                                (esc +:+ "[0m") ];
          returned := PyStr response_text |}.

End Pipeline.

Arguments mkEntry {Float}.
Arguments entry_id {Float}.
Arguments entry_embedding {Float}.
Arguments entry_text {Float}.
Arguments entry_metadata {Float}.
Arguments store_ids {Float}.
Arguments upsert {Float}.
Arguments upsert_all {Float}.
Arguments existing_id_set {Float}.
Arguments mkOutcome {Float}.
Arguments store_after {Float}.
Arguments stdout {Float}.
Arguments returned {Float}.
Arguments get_embedding_func {Float}.
Arguments embed_query {Float}.
Arguments embed_documents {Float}.
Arguments batch_entries {Float}.
Arguments add_documents {Float}.
Arguments add_to_chroma {Float}.
Arguments result_texts {Score}.
Arguments result_sources {Score}.
Arguments context_of {Score}.
Arguments query_rag {Float Score}.

(** ** Reading the collection *)

(** The entry stored under an id. *)
Fixpoint find_entry {Float : Type} (id : string) (db : VectorIndex Float)
  : option (Entry Float) :=
  match db with
  | [] => None
  | e :: rest => if decide (entry_id e = id) then Some e else find_entry id rest
  end.

(** The entry written for a document: its id, the vector of its text, the
    text and the metadata. *)
Definition entry_for {Float : Type} (embed : string -> result (list Float))
    (doc : Document) (e : Entry Float) : Prop :=
  chunk_id_of doc = PyStr (entry_id e) /\
  embed (page_content doc) = Ok (entry_embedding e) /\
  entry_text e = page_content doc /\
  entry_metadata e = metadata doc.

(** A chunk that carries a text as its id. *)
Definition has_text_id (chunk : Document) : Prop :=
  exists s : string, metadata chunk !! "id" = Some (PyStr s).

(** A chunk whose id the collection does not have yet. *)
Definition is_new (existing_ids : gset string) (chunk : Document) : Prop :=
  in_ids (chunk_id_of chunk) existing_ids = false.

Global Instance is_new_dec (existing_ids : gset string) (chunk : Document) :
  Decision (is_new existing_ids chunk).
Proof. unfold is_new. apply _. Defined.

(** The first two lines [add_to_chroma] prints. *)
Definition existing_line (n : nat) : printed :=
  PrintText (green ("Number of existing documents in DB: " +:+ pretty n)).

Definition adding_line (n : nat) : printed :=
  PrintText (green ("adding new documents: " +:+ pretty n)).

Definition nothing_new_line : printed :=
  PrintText (green "There are no new documents to add").

(** ** Texts in a row *)

(** Each text with the separator after it. *)
Fixpoint followed_by (sep : string) (parts : list string) : string :=
  match parts with
  | [] => EmptyString
  | p :: rest => p +:+ sep +:+ followed_by sep rest
  end.

(** The literal pieces of a text. *)
Fixpoint lits (s : string) : list piece :=
  match s with
  | EmptyString => []
  | String c s' => Lit c :: lits s'
  end.

(** ** The parts of a query *)

(** The prompt the generator gets for a list of results. *)
Definition prompt_text {Score : Type} (results : list (Document * Score))
    (query_text : string) : string :=
  "Human: " +:+ prompt_head +:+ context_of results +:+ prompt_middle
  +:+ query_text +:+ prompt_tail.

(** The outcome of a query with these results and this answer. *)
Definition query_outcome {Float Score : Type} (db : VectorIndex Float)
    (results : list (Document * Score)) (response_text : string) : outcome Float :=
  {| store_after := db;
     stdout := [ PrintText (newline +:+ esc +:+ "[92mResponse: " +:+ response_text
                            +:+ esc +:+ "[0m");
                 PrintList (newline +:+ esc +:+ "[93mSources: ")
                           (result_sources results) (esc +:+ "[0m") ];
     returned := PyStr response_text |}.

(** ** Services for the examples *)

Definition demo_model : option string := Some "llama3.1:latest".

Definition demo_embed (model_name text : string) : result (list Z) :=
  Ok [Z.of_nat (String.length text)].

Definition demo_invoke (prompt : string) : result string := Ok "answer".

(** The first [k] entries of the collection, as documents. *)
Definition demo_search (db : VectorIndex Z) (query_text : string) (k : Z)
  : result (list (Document * Z)) :=
  Ok (map (fun e => ({| page_content := entry_text e;
                        metadata := entry_metadata e |}, 0))
          (take (Z.to_nat k) db)).

Definition demo_add_to_chroma (chunks : list Document) (db : VectorIndex Z)
  : result (outcome Z) :=
  add_to_chroma demo_model demo_embed chunks db.

Definition demo_query_rag (db : VectorIndex Z) (query_text : string)
  : result (outcome Z) :=
  query_rag demo_model demo_embed 5 demo_invoke demo_search db query_text.

(** ** Sample data *)

(** A Windows path from its pieces. *)
Definition win_path (pieces : list string) : string :=
  str_join (String backslash "") pieces.

Definition pdf_path (name : string) : string :=
  win_path ["C:"; "Users"; "me"; "Documents"; "RAG"; "data"; name].

Definition sample_chunk (name : string) (page : Z) (text : string) : Document :=
  {| page_content := text;
     metadata := <["page" := PyInt page]> (<["source" := PyStr (pdf_path name)]> ∅) |}.

Definition sample_run : list Document :=
  [ sample_chunk "docA" 1 "alpha"; sample_chunk "docA" 1 "beta";
    sample_chunk "docB" 1 "gamma"; sample_chunk "docA" 1 "delta" ].

(** The ids a run assigns, in order. *)
Definition assigned_ids (chunks : list Document) : result (list pyval) :=
  out ← calculate_chunk_ids chunks; mret (map chunk_id_of out).

(** The run after the loop has written the ids. *)
Definition sample_out : list Document :=
  [ set_id (sample_chunk "docA" 1 "alpha") "docA:1:0";
    set_id (sample_chunk "docA" 1 "beta") "docA:1:1";
    set_id (sample_chunk "docB" 1 "gamma") "docB:1:0";
    set_id (sample_chunk "docA" 1 "delta") "docA:1:0" ].

(** A run in which the chunks of each page stand together. *)
Definition adjacent_run : list Document :=
  [ sample_chunk "docA" 1 "alpha"; sample_chunk "docA" 1 "beta";
    sample_chunk "docB" 1 "gamma"; sample_chunk "docB" 2 "delta" ].

Definition adjacent_out : list Document :=
  [ set_id (sample_chunk "docA" 1 "alpha") "docA:1:0";
    set_id (sample_chunk "docA" 1 "beta") "docA:1:1";
    set_id (sample_chunk "docB" 1 "gamma") "docB:1:0";
    set_id (sample_chunk "docB" 2 "delta") "docB:2:0" ].

(** Two chunks whose pages are texts: file [a:1] at page 2, and file [a] at
    a page called [1:2]. *)
Definition text_page_run : list Document :=
  [ {| page_content := "alpha";
       metadata := <["page" := PyInt 2]> (<["source" := PyStr (pdf_path "a:1")]> ∅) |};
    {| page_content := "beta";
       metadata := <["page" := PyStr "1:2"]> (<["source" := PyStr (pdf_path "a")]> ∅) |} ].

(** The same two chunks with a chunk of another file between them. *)
Definition text_page_gap_run : list Document :=
  [ {| page_content := "alpha";
       metadata := <["page" := PyInt 2]> (<["source" := PyStr (pdf_path "a:1")]> ∅) |};
    sample_chunk "docB" 1 "gamma";
    {| page_content := "beta";
       metadata := <["page" := PyStr "1:2"]> (<["source" := PyStr (pdf_path "a")]> ∅) |} ].

(** A chunk with a source and no page. *)
Definition pageless_chunk : Document :=
  {| page_content := "alpha";
     metadata := <["source" := PyStr (pdf_path "docA")]> ∅ |}.

(** A chunk whose path is too short, and one without a source. *)
Definition short_path_chunk : Document :=
  {| page_content := "alpha";
     metadata := <["page" := PyInt 1]>
                   (<["source" := PyStr (win_path ["data"; "docA"])]> ∅) |}.

Definition sourceless_chunk : Document :=
  {| page_content := "alpha"; metadata := <["page" := PyInt 1]> ∅ |}.

(** Two collections of one entry each, with the same text under different
    ids. *)
Definition demo_db_a : VectorIndex Z :=
  [ {| entry_id := "docA:1:0"; entry_embedding := [5]; entry_text := "alpha";
       entry_metadata := metadata (set_id (sample_chunk "docA" 1 "alpha") "docA:1:0") |} ].

Definition demo_db_b : VectorIndex Z :=
  [ {| entry_id := "docB:1:0"; entry_embedding := [5]; entry_text := "alpha";
       entry_metadata := metadata (set_id (sample_chunk "docB" 1 "alpha") "docB:1:0") |} ].

(** A page that is a number, or no page at all. *)
Definition plain_page (v : pyval) : Prop :=
  match v with
  | PyStr _ => False
  | _ => True
  end.

(** Decimal numerals contain nothing but digits. *)
Definition not_a_digit (c : ascii) : Prop := forall x : N, pretty_N_char x <> c.

(** The (label, page) pair of a chunk: the label the loop takes from the
    source path, its piece at index 6, and the page. Two sources with the
    same piece at index 6 have one label. *)
Definition label_page (chunk : Document) : result (string * pyval) :=
  source ← id_source chunk;
  mret (source, page_of chunk).

(** The two metadata values the loop reads. *)
Definition key_fields (chunk : Document) : pyval * pyval :=
  (dict_get (metadata chunk) "source", dict_get (metadata chunk) "page").

(** The chunks of one page id stand next to each other in the list. *)
Definition pages_adjacent (chunks : list Document) : Prop :=
  forall (i j k : nat) (ci cj ck : Document),
    (i < j < k)%nat ->
    chunks !! i = Some ci -> chunks !! j = Some cj -> chunks !! k = Some ck ->
    page_id ci = page_id ck -> page_id cj = page_id ci.

(** The chunk without its page. *)
Definition without_page (chunk : Document) : Document :=
  {| page_content := page_content chunk;
     metadata := delete "page" (metadata chunk) |}.

(** A source the loop can take a label from: a text of at least seven
    pieces. *)
Definition source_has_label (chunk : Document) : Prop :=
  exists src : string,
    dict_get (metadata chunk) "source" = PyStr src /\
    (7 <= length (str_split backslash src))%nat.

(** ** The loop variables at the end *)

(** [last_page_id] and [current_chunk_index] when the loop is left. *)
Fixpoint state_after (st : loop_state) (chunks : list Document) : result loop_state :=
  match chunks with
  | [] => mret st
  | chunk :: rest =>
      '(st', _) ← loop_body st chunk;
      state_after st' rest
  end.

(** A chunk whose source is the path made of the given pieces. *)
Definition chunk_at (pieces : list string) (page : Z) (text : string) : Document :=
  {| page_content := text;
     metadata := <["page" := PyInt page]> (<["source" := PyStr (win_path pieces)]> ∅) |}.

(** An embedding service that is down for one text. *)
Definition picky_embed (model_name text : string) : result (list Z) :=
  if decide (text = "changed") then Raise (OtherError "no embedding for this text")
  else demo_embed model_name text.

(** An embedding service that cannot be reached, and one that answers with
    an empty vector. *)
Definition unreachable_embed (model_name text : string) : result (list Z) :=
  Raise ConnectionError.

Definition empty_embed (model_name text : string) : result (list Z) := Ok [].

(** The chunk of [demo_db_a] with another text, and a chunk of another file. *)
Definition changed_run : list Document :=
  [ sample_chunk "docA" 1 "changed"; sample_chunk "docB" 1 "gamma" ].

(** A chunk that already carries an id, a title, and a page. *)
Definition titled_chunk : Document :=
  {| page_content := "alpha";
     metadata := <["id" := PyStr "old"]>
                   (<["title" := PyStr "Handbook"]>
                      (<["page" := PyInt 3]>
                         (<["source" := PyStr (pdf_path "docA")]> ∅))) |}.

(** Two files of one folder, both at page 0: the piece at index 6 of either
    path is the folder. *)
Definition folder_path (name : string) : string :=
  win_path ["C:"; "Users"; "me"; "Documents"; "RAG"; "data"; "pdfs"; name].

Definition folder_run : list Document :=
  [ chunk_at ["C:"; "Users"; "me"; "Documents"; "RAG"; "data"; "pdfs"; "a.pdf"] 0 "alpha";
    chunk_at ["C:"; "Users"; "me"; "Documents"; "RAG"; "data"; "pdfs"; "b.pdf"] 0 "beta" ].

(** A collection of three entries, and a generator that answers with the
    prompt it was given. *)
Definition demo_db_abc : VectorIndex Z :=
  [ {| entry_id := "docA:1:0"; entry_embedding := [5]; entry_text := "alpha";
       entry_metadata := metadata (set_id (sample_chunk "docA" 1 "alpha") "docA:1:0") |};
    {| entry_id := "docA:1:1"; entry_embedding := [4]; entry_text := "beta";
       entry_metadata := metadata (set_id (sample_chunk "docA" 1 "beta") "docA:1:1") |};
    {| entry_id := "docB:1:0"; entry_embedding := [5]; entry_text := "gamma";
       entry_metadata := metadata (set_id (sample_chunk "docB" 1 "gamma") "docB:1:0") |} ].

Definition echo_invoke (prompt : string) : result string := Ok prompt.

(** ** populate_db.main *)

Section Ingestion.

Variable Float : Type.
Variable LLM_EMBEDDING_MODEL : option string.
Variable ollama_embed : string -> string -> result (list Float).
(** [PyPDFDirectoryLoader(PDF_PATH).load()]. *)
Variable load_pdfs : result (list Document).
(** [RecursiveCharacterTextSplitter(...).split_documents(documents)]. *)
Variable split_text : list Document -> result (list Document).

Definition load_documents : result (list Document) := load_pdfs.

Definition split_documents (documents : list Document) : result (list Document) :=
  split_text documents.

(** [clear_database]: [if os.path.exists(COLLECTION_PATH):
    shutil.rmtree(COLLECTION_PATH)]. The directory is [Some] collection when
    it exists and [None] when it does not; after the call it does not exist,
    and a directory that was not there is left alone. *)
Definition clear_database (disk : option (VectorIndex Float))
  : option (VectorIndex Float) :=
  match disk with
  | Some _ => None
  | None => None
  end.

(** Modelled from the spec: the directory at [COLLECTION_PATH] holds the
    persisted entries of the collection, and opening the collection of a
    directory that is not there gives an empty collection. *)
Definition open_collection (disk : option (VectorIndex Float)) : VectorIndex Float :=
  default [] disk.

(** [main], with the [--reset] flag as its argument. *)
Definition main (reset : bool) (disk : option (VectorIndex Float))
  : result (outcome Float) :=
  let disk1 := if reset then clear_database disk else disk in
  let cleared := if reset then [PrintText (green "Clearing DB...")] else [] in
  documents ← load_documents;
  chunks ← split_documents documents;
  o ← add_to_chroma LLM_EMBEDDING_MODEL ollama_embed chunks (open_collection disk1);
  mret {| store_after := store_after o;
          stdout := cleared ++ [PrintText (green "Populating DB...")] ++ stdout o
                    ++ [PrintText (green "DB finished populating.")];
          returned := PyNone |}.

End Ingestion.

Arguments clear_database {Float}.
Arguments open_collection {Float}.
Arguments main {Float}.

(** ** app.py: one turn of the chat *)

(** An entry of [st.session_state.messages]. *)
Record message : Type := mkMessage {
  role : string;
  content : pyval
}.

(** What [st.error] and [st.info] show. *)
Inductive box : Type :=
  | ErrorBox (text : string)
  | InfoBox (text : string).

(** The page after the input has been handled: the history, the boxes shown,
    and whether the script asked for a rerun. *)
Record turn : Type := mkTurn {
  history : list message;
  boxes : list box;
  rerun : bool
}.

(** [s.lower()] on the ASCII letters; the other bytes of a UTF-8 text stay,
    and no other character becomes one of the letters of [model]. *)
Definition ascii_lower (a : ascii) : ascii :=
  let n := nat_of_ascii a in
  if (65 <=? n)%nat && (n <=? 90)%nat then ascii_of_nat (n + 32) else a.

Fixpoint str_lower (s : string) : string :=
  match s with
  | EmptyString => EmptyString
  | String a s' => String (ascii_lower a) (str_lower s')
  end.

Fixpoint str_starts (prefix s : string) : bool :=
  match prefix, s with
  | EmptyString, _ => true
  | String _ _, EmptyString => false
  | String a p', String b s' => bool_decide (a = b) && str_starts p' s'
  end.

(** [needle in s]. *)
Fixpoint str_contains (needle s : string) : bool :=
  str_starts needle s ||
  match s with
  | EmptyString => false
  | String _ s' => str_contains needle s'
  end.

(** The light bulb, U+1F4A1, in UTF-8. *)
Definition bulb : string :=
  String (ascii_of_nat 240) (String (ascii_of_nat 159)
    (String (ascii_of_nat 146) (String (ascii_of_nat 161) EmptyString))).

Definition ollama_tip : string :=
  bulb +:+ " Tip: Make sure your Ollama service is running!".

Definition user_message (text : string) : message :=
  {| role := "user"; content := PyStr text |}.

Definition assistant_message (response : pyval) : message :=
  {| role := "assistant"; content := response |}.

Section Chat.

Variables Float Score : Type.
Variable LLM_EMBEDDING_MODEL : option string.
Variable ollama_embed : string -> string -> result (list Float).
Variable CHUNKS_TO_RETURN : Z.
Variable ollama_invoke : string -> result string.
Variable similarity_search_with_score :
  VectorIndex Float -> string -> Z -> result (list (Document * Score)).
Variable db : VectorIndex Float.

(** The block under [st.chat_input]: [prompt] is what the input returned,
    [None] when nothing was sent. *)
Definition chat_turn (messages : list message) (prompt : option string) : turn :=
  match prompt with
  | None | Some EmptyString =>
      {| history := messages; boxes := []; rerun := false |}
  | Some text =>
      let messages1 := messages ++ [user_message text] in
      match query_rag LLM_EMBEDDING_MODEL ollama_embed CHUNKS_TO_RETURN ollama_invoke
                      similarity_search_with_score db text with
      | Ok o =>
          {| history := messages1 ++ [assistant_message (returned o)];
             boxes := [];
             rerun := true |}
      | Raise e =>
          {| history := messages1;
             boxes := ErrorBox ("An error occurred: " +:+ error_text e)
                      :: (if str_contains "model" (str_lower (error_text e))
                          then [InfoBox ollama_tip] else []);
             rerun := false |}
      end
  end.

(** The history after a row of inputs, from an empty one. *)
Definition chat_session (prompts : list (option string)) : list message :=
  foldl (fun messages prompt => history (chat_turn messages prompt)) [] prompts.

End Chat.

Arguments chat_turn {Float Score}.
Arguments chat_session {Float Score}.

(** In a history every answer comes directly after a question. *)
Definition answers_follow_questions (messages : list message) : Prop :=
  forall (i : nat) (m : message),
    messages !! i = Some m -> role m = "assistant" ->
    exists (j : nat) (q : message),
      i = S j /\ messages !! j = Some q /\ role q = "user".

(** * Properties *)

(** ** Results *)

Lemma bind_Ok {A B} (m : result A) (f : A -> result B) (b : B) :
  m ≫= f = Ok b <-> exists a, m = Ok a /\ f a = Ok b.
Proof.
  destruct m as [a|e]; simpl.
  - split; [eauto | intros (a' & [= <-] & H); exact H].
  - split; [discriminate | intros (a' & [=] & _)].
Qed.

Lemma bind_Ok_eq {A B} (a : A) (f : A -> result B) : Ok a ≫= f = f a.
Proof. reflexivity. Qed.

(** ** Text *)

Lemma app_String_l (c : ascii) (s t : string) :
  String c s +:+ t = String c (s +:+ t).
Proof. reflexivity. Qed.

Lemma app_empty_l (t : string) : EmptyString +:+ t = t.
Proof. reflexivity. Qed.

Lemma app_assoc_str (s t u : string) : (s +:+ t) +:+ u = s +:+ (t +:+ u).
Proof. induction s as [|a s IH]; [reflexivity|]. rewrite !app_String_l, IH. reflexivity. Qed.

Lemma str_free_app (c : ascii) (s t : string) :
  str_free c (s +:+ t) <-> str_free c s /\ str_free c t.
Proof.
  induction s as [|a s IH].
  - rewrite app_empty_l. simpl. tauto.
  - rewrite app_String_l. simpl. tauto.
Qed.

Lemma str_free_cut (c : ascii) (s t : string) : ~ str_free c (s +:+ String c t).
Proof. rewrite str_free_app. simpl. tauto. Qed.

(** A text is cut in one way only at its last occurrence of a character. *)
Lemma last_cut_unique (c : ascii) (s s' t t' : string) :
  str_free c t -> str_free c t' ->
  s +:+ String c t = s' +:+ String c t' -> s = s' /\ t = t'.
Proof.
  intros Ht Ht'. revert s'.
  induction s as [|a s IH]; intros [|a' s'] E;
    rewrite ?app_empty_l, ?app_String_l in E.
  - injection E as E. auto.
  - injection E as _ E. subst t. destruct (str_free_cut _ _ _ Ht).
  - injection E as _ E. subst t'. destruct (str_free_cut _ _ _ Ht').
  - injection E as -> E. destruct (IH _ E) as [-> ->]. auto.
Qed.

Lemma colon_not_a_digit : not_a_digit colon.
Proof. intros x. unfold pretty_N_char. repeat case_match; discriminate. Qed.

Lemma pretty_N_go_free (c : ascii) (x : N) (s : string) :
  not_a_digit c -> str_free c s -> str_free c (pretty_N_go x s).
Proof.
  intros Hc. revert s. induction (N.lt_wf_0 x) as [x _ IH]; intros s Hs.
  destruct (decide (x = 0%N)) as [->|Hx].
  - rewrite pretty_N_go_0. exact Hs.
  - rewrite pretty_N_go_step by lia. apply IH.
    + apply N.div_lt; lia.
    + simpl. split; [apply Hc | exact Hs].
Qed.

Lemma pretty_N_free (c : ascii) (x : N) : not_a_digit c -> str_free c (pretty x).
Proof.
  intros Hc. unfold pretty, pretty_N. case_decide.
  - simpl. split; [|exact I]. apply (Hc 0%N).
  - apply pretty_N_go_free; [exact Hc | exact I].
Qed.

Lemma pretty_nat_free (c : ascii) (n : nat) : not_a_digit c -> str_free c (pretty n).
Proof. intros Hc. apply (pretty_N_free c (N.of_nat n) Hc). Qed.

Lemma pretty_Z_free (c : ascii) (z : Z) :
  not_a_digit c -> c <> "-"%char -> str_free c (pretty z).
Proof.
  intros Hc Hm. destruct z as [|p|p]; unfold pretty, pretty_Z.
  - simpl. split; [|exact I]. apply (Hc 0%N).
  - apply (pretty_N_free c (Npos p) Hc).
  - change ("-" +:+ pretty p) with (String "-"%char (pretty p)). simpl.
    split; [congruence | apply (pretty_N_free c (Npos p) Hc)].
Qed.

(** ** Pages *)

Lemma py_str_plain_free (v : pyval) : plain_page v -> str_free colon (py_str v).
Proof.
  destruct v as [|z|s]; simpl; intros Hv.
  - unfold colon. repeat split; discriminate.
  - apply pretty_Z_free; [apply colon_not_a_digit | discriminate].
  - destruct Hv.
Qed.

Lemma py_str_plain_inj (v w : pyval) :
  plain_page v -> plain_page w -> py_str v = py_str w -> v = w.
Proof.
  assert (HN : not_a_digit "N"%char).
  { intros x. unfold pretty_N_char. repeat case_match; discriminate. }
  assert (Hfree : forall z : Z, pretty z <> "None").
  { intros z E. pose proof (pretty_Z_free "N"%char z HN ltac:(discriminate)) as F.
    rewrite E in F. simpl in F. tauto. }
  destruct v as [|z|s], w as [|z'|s']; simpl; intros Hv Hw E; try tauto.
  - symmetry in E. destruct (Hfree _ E).
  - destruct (Hfree _ E).
  - f_equal. apply (inj pretty). exact E.
Qed.


(** ** The id loop *)

Lemma set_id_source (chunk : Document) (x : string) :
  id_source (set_id chunk x) = id_source chunk.
Proof. unfold id_source, set_id, dict_get. simpl. by rewrite lookup_insert_ne. Qed.

Lemma set_id_page (chunk : Document) (x : string) :
  page_of (set_id chunk x) = page_of chunk.
Proof. unfold page_of, set_id, dict_get. simpl. by rewrite lookup_insert_ne. Qed.

Lemma set_id_page_id (chunk : Document) (x : string) :
  page_id (set_id chunk x) = page_id chunk.
Proof. unfold page_id. by rewrite set_id_source, set_id_page. Qed.

Lemma chunk_id_of_set_id (chunk : Document) (x : string) :
  chunk_id_of (set_id chunk x) = PyStr x.
Proof. unfold chunk_id_of, set_id, dict_get. simpl. by rewrite lookup_insert_eq. Qed.

Lemma set_id_twice (chunk : Document) (x y : string) :
  set_id (set_id chunk x) y = set_id chunk y.
Proof. unfold set_id. simpl. by rewrite insert_insert_eq. Qed.

Lemma loop_body_Ok (st st' : loop_state) (chunk chunk' : Document) :
  loop_body st chunk = Ok (st', chunk') <->
  exists pid, page_id chunk = Ok pid /\
    st' = {| last_page_id := Some pid; current_chunk_index := next_index st pid |} /\
    chunk' = set_id chunk (format_chunk_id pid (next_index st pid)).
Proof.
  unfold loop_body. destruct (page_id chunk) as [pid|e]; simpl.
  - split.
    + intros [= <- <-]. eauto.
    + intros (pid' & [= <-] & -> & ->). reflexivity.
  - split; [discriminate | intros (pid' & [=] & _)].
Qed.

Lemma indices_from_cons (st : loop_state) (c : Document) (rest : list Document)
    (idxs : list nat) :
  indices_from st (c :: rest) = Ok idxs <->
  exists pid rest',
    page_id c = Ok pid /\
    indices_from {| last_page_id := Some pid;
                    current_chunk_index := next_index st pid |} rest = Ok rest' /\
    idxs = next_index st pid :: rest'.
Proof.
  simpl. split.
  - intros H. apply bind_Ok in H as ([st' c'] & Hb & H).
    apply loop_body_Ok in Hb as (pid & Hp & -> & _).
    apply bind_Ok in H as (rest' & Hr & [= <-]). eauto.
  - intros (pid & rest' & Hp & Hr & ->).
    unfold loop_body. rewrite Hp. simpl. rewrite Hr. reflexivity.
Qed.

Lemma assign_from_cons (st : loop_state) (c : Document) (rest out : list Document) :
  assign_from st (c :: rest) = Ok out <->
  exists pid rest',
    page_id c = Ok pid /\
    assign_from {| last_page_id := Some pid;
                   current_chunk_index := next_index st pid |} rest = Ok rest' /\
    out = set_id c (format_chunk_id pid (next_index st pid)) :: rest'.
Proof.
  simpl. split.
  - intros H. apply bind_Ok in H as ([st' c'] & Hb & H).
    apply loop_body_Ok in Hb as (pid & Hp & -> & ->).
    apply bind_Ok in H as (rest' & Hr & [= <-]). eauto.
  - intros (pid & rest' & Hp & Hr & ->).
    unfold loop_body. rewrite Hp. simpl. rewrite Hr. reflexivity.
Qed.

(** The loop ends normally exactly when every chunk has a page id. *)
Lemma assign_from_succeeds (st : loop_state) (chunks : list Document) :
  succeeds (assign_from st chunks) <-> Forall (fun c => succeeds (page_id c)) chunks.
Proof.
  revert st. induction chunks as [|c rest IH]; intros st.
  - split; [constructor | intros _; by exists []].
  - rewrite Forall_cons. split.
    + intros [out H]. apply assign_from_cons in H as (pid & rest' & Hp & Hr & _).
      split; [by exists pid | eapply IH; by exists rest'].
    + intros [[pid Hp] Hrest].
      apply (IH {| last_page_id := Some pid;
                   current_chunk_index := next_index st pid |}) in Hrest as [rest' Hr].
      eexists. apply assign_from_cons. eauto.
Qed.

(** The ids follow the indices of the loop. *)
Lemma assign_from_indices (st : loop_state) (chunks out : list Document) :
  assign_from st chunks = Ok out ->
  exists idxs, indices_from st chunks = Ok idxs /\
    Forall3 (fun c n c' => exists pid,
               page_id c = Ok pid /\ c' = set_id c (format_chunk_id pid n))
            chunks idxs out.
Proof.
  revert st out. induction chunks as [|c rest IH]; intros st out H.
  - injection H as <-. exists []. split; [reflexivity | constructor].
  - apply assign_from_cons in H as (pid & rest' & Hp & Hr & ->).
    destruct (IH _ _ Hr) as (idxs & Hi & HF).
    exists (next_index st pid :: idxs). split.
    + apply indices_from_cons. eauto.
    + constructor; eauto.
Qed.

Lemma indices_from_length (st : loop_state) (chunks : list Document) (idxs : list nat) :
  indices_from st chunks = Ok idxs -> length idxs = length chunks.
Proof.
  revert st idxs. induction chunks as [|c rest IH]; intros st idxs H.
  - by injection H as <-.
  - apply indices_from_cons in H as (pid & rest' & _ & Hr & ->).
    simpl. f_equal. eauto.
Qed.

Lemma indices_from_head (st : loop_state) (chunks : list Document) (idxs : list nat)
    (c : Document) (n : nat) :
  indices_from st chunks = Ok idxs ->
  chunks !! 0%nat = Some c -> idxs !! 0%nat = Some n ->
  exists pid, page_id c = Ok pid /\ n = next_index st pid.
Proof.
  destruct chunks as [|c0 rest]; [discriminate|].
  intros H [= <-] Hn.
  apply indices_from_cons in H as (pid & rest' & Hp & _ & ->).
  injection Hn as <-. eauto.
Qed.

(** From one chunk to the next: one more on the same page id, zero on
    another. *)
Lemma indices_from_step (st : loop_state) (chunks : list Document) (idxs : list nat)
    (i : nat) (c c' : Document) (n n' : nat) :
  indices_from st chunks = Ok idxs ->
  chunks !! i = Some c -> chunks !! S i = Some c' ->
  idxs !! i = Some n -> idxs !! S i = Some n' ->
  exists pid pid', page_id c = Ok pid /\ page_id c' = Ok pid' /\
    n' = if decide (pid' = pid) then S n else 0%nat.
Proof.
  revert st idxs i. induction chunks as [|c0 rest IH]; intros st idxs i H Hc Hc' Hn Hn';
    [discriminate|].
  apply indices_from_cons in H as (pid & rest' & Hp & Hr & ->).
  destruct i as [|i].
  - injection Hc as <-. injection Hn as <-. simpl in Hc', Hn'.
    destruct (indices_from_head _ _ _ _ _ Hr Hc' Hn') as (pid' & Hp' & ->).
    exists pid, pid'. repeat split; [done..|].
    unfold next_index at 1. simpl. repeat case_decide; congruence.
  - simpl in *. eauto.
Qed.

(** ** The text of an id *)

Lemma format_chunk_id_inj (pid pid' : string) (n n' : nat) :
  format_chunk_id pid n = format_chunk_id pid' n' -> pid = pid' /\ n = n'.
Proof.
  unfold format_chunk_id.
  change (":" +:+ pretty n) with (String colon (pretty n)).
  change (":" +:+ pretty n') with (String colon (pretty n')).
  intros E. apply last_cut_unique in E as [-> E];
    try (apply pretty_nat_free, colon_not_a_digit).
  split; [reflexivity | by apply (inj pretty)].
Qed.

Lemma format_page_id_inj (source source' : string) (v w : pyval) :
  plain_page v -> plain_page w ->
  format_page_id source v = format_page_id source' w -> source = source' /\ v = w.
Proof.
  unfold format_page_id. intros Hv Hw.
  change (":" +:+ py_str v) with (String colon (py_str v)).
  change (":" +:+ py_str w) with (String colon (py_str w)).
  intros E. apply last_cut_unique in E as [-> E]; try by apply py_str_plain_free.
  split; [reflexivity | by apply py_str_plain_inj].
Qed.

Lemma format_chunk_id_flat (source : string) (page : pyval) (n : nat) :
  format_chunk_id (format_page_id source page) n
  = source +:+ ":" +:+ py_str page +:+ ":" +:+ pretty n.
Proof.
  unfold format_chunk_id, format_page_id. rewrite app_assoc_str. reflexivity.
Qed.

Lemma page_id_Ok (c : Document) (pid : string) :
  page_id c = Ok pid <->
  exists source, id_source c = Ok source /\ pid = format_page_id source (page_of c).
Proof.
  unfold page_id. destruct (id_source c) as [source|e]; simpl.
  - split; [intros [= <-]; eauto | intros (s & [= <-] & ->); reflexivity].
  - split; [discriminate | intros (s & [=] & _)].
Qed.

(** For plain pages, equal page ids are equal (label, page) pairs. *)
Lemma page_id_label_page (c c' : Document) :
  plain_page (page_of c) -> plain_page (page_of c') ->
  succeeds (page_id c) ->
  (page_id c' = page_id c <-> label_page c' = label_page c).
Proof.
  intros Hc Hc' [pid Hp]. unfold page_id, label_page in *.
  destruct (id_source c) as [s|e]; [|discriminate]. simpl in *.
  destruct (id_source c') as [s'|e']; simpl; [|done].
  split.
  - intros [= E]. apply format_page_id_inj in E as [-> ->]; done.
  - intros [= -> ->]. reflexivity.
Qed.

(** ** Runs of one page id *)

Lemma indices_from_run (st : loop_state) (chunks : list Document) (idxs : list nat)
    (pid : string) (d i n : nat) :
  indices_from st chunks = Ok idxs ->
  (forall k, (i <= k <= i + d)%nat ->
     exists ck, chunks !! k = Some ck /\ page_id ck = Ok pid) ->
  idxs !! i = Some n ->
  idxs !! (i + d)%nat = Some (n + d)%nat.
Proof.
  intros H. induction d as [|d IH]; intros Hrun Hn.
  - by rewrite !Nat.add_0_r.
  - assert (Hd : idxs !! (i + d)%nat = Some (n + d)%nat).
    { apply IH; [|done]. intros k Hk. apply Hrun. lia. }
    destruct (Hrun (i + d)%nat ltac:(lia)) as (c & Hc & Hp).
    destruct (Hrun (S (i + d)) ltac:(lia)) as (c' & Hc' & Hp').
    assert (is_Some (idxs !! S (i + d))) as [n' Hn'].
    { apply lookup_lt_is_Some. rewrite (indices_from_length _ _ _ H).
      by eapply lookup_lt_Some. }
    destruct (indices_from_step _ _ _ _ _ _ _ _ H Hc Hc' Hd Hn')
      as (p & p' & Hq & Hq' & ->).
    rewrite Hp in Hq. rewrite Hp' in Hq'. injection Hq as <-. injection Hq' as <-.
    rewrite decide_True in Hn' by done.
    replace (i + S d)%nat with (S (i + d)) by lia.
    replace (n + S d)%nat with (S (n + d)) by lia. done.
Qed.

Lemma adjacent_pages_distinct (st : loop_state) (chunks out : list Document)
    (idxs : list nat) (i j : nat) (oi oj : Document) :
  indices_from st chunks = Ok idxs ->
  Forall3 (fun c n c' => exists pid,
             page_id c = Ok pid /\ c' = set_id c (format_chunk_id pid n))
          chunks idxs out ->
  pages_adjacent chunks ->
  (i < j)%nat -> out !! i = Some oi -> out !! j = Some oj ->
  chunk_id_of oi <> chunk_id_of oj.
Proof.
  intros H HF Hadj Hij Hoi Hoj E.
  destruct (Forall3_lookup_r _ _ _ _ _ _ HF Hoi) as (ci & ni & Hci & Hni & pi & Hpi & ->).
  destruct (Forall3_lookup_r _ _ _ _ _ _ HF Hoj) as (cj & nj & Hcj & Hnj & pj & Hpj & ->).
  rewrite !chunk_id_of_set_id in E. injection E as E.
  apply format_chunk_id_inj in E as [<- <-].
  assert (Hrun : idxs !! (i + (j - i))%nat = Some (ni + (j - i))%nat).
  { apply (indices_from_run st chunks idxs pi); [done| |done].
    intros k Hk.
    destruct (decide (k = i)) as [->|Hki]; [eauto|].
    destruct (decide (k = j)) as [->|Hkj]; [eauto|].
    assert (is_Some (chunks !! k)) as [ck Hck].
    { apply lookup_lt_is_Some. apply lookup_lt_Some in Hcj. lia. }
    exists ck. split; [done|].
    rewrite <- Hpi. apply (Hadj i k j ci ck cj); [lia|done..|congruence]. }
  replace (i + (j - i))%nat with j in Hrun by lia.
  rewrite Hnj in Hrun. injection Hrun as Hrun. lia.
Qed.

(** What a successful run gives each chunk. *)
Lemma calculate_chunk_ids_lookup (chunks out : list Document) :
  calculate_chunk_ids chunks = Ok out ->
  exists idxs : list nat,
    sequence_indices chunks = Ok idxs /\
    length out = length chunks /\
    Forall3 (fun c n c' => exists pid,
               page_id c = Ok pid /\ c' = set_id c (format_chunk_id pid n))
            chunks idxs out.
Proof.
  intros H. destruct (assign_from_indices _ _ _ H) as (idxs & Hi & HF).
  exists idxs. split; [exact Hi|]. split; [|exact HF].
  symmetry. exact (Forall3_length_lr _ _ _ _ HF).
Qed.

Lemma chunk_ids_lookup_page (chunks out : list Document) (i : nat) (c c' : Document) :
  calculate_chunk_ids chunks = Ok out ->
  chunks !! i = Some c -> out !! i = Some c' ->
  exists (source : string) (n : nat),
    id_source c = Ok source /\
    chunk_id_of c' = PyStr (source +:+ ":" +:+ py_str (page_of c) +:+ ":" +:+ pretty n).
Proof.
  intros H Hc Hc'.
  destruct (calculate_chunk_ids_lookup _ _ H) as (idxs & _ & _ & HF).
  destruct (Forall3_lookup_l _ _ _ _ _ _ HF Hc) as (n & c2 & _ & Hc2 & pid & Hp & ->).
  rewrite Hc2 in Hc'. injection Hc' as <-.
  apply page_id_Ok in Hp as (source & Hs & ->).
  exists source, n. split; [exact Hs|].
  by rewrite chunk_id_of_set_id, format_chunk_id_flat.
Qed.

(** ** Where the counter is 0 *)

Lemma indices_from_is_Some (st : loop_state) (chunks : list Document) (idxs : list nat)
    (i : nat) (c : Document) :
  indices_from st chunks = Ok idxs -> chunks !! i = Some c -> is_Some (idxs !! i).
Proof.
  intros H Hc. apply lookup_lt_is_Some. rewrite (indices_from_length _ _ _ H).
  by eapply lookup_lt_Some.
Qed.

(** After a chunk of another page id the counter is 0. *)
Lemma index_after_other_page (chunks : list Document) (idxs : list nat)
    (i : nat) (c c' : Document) :
  sequence_indices chunks = Ok idxs ->
  chunks !! i = Some c -> chunks !! S i = Some c' ->
  page_id c' <> page_id c -> idxs !! S i = Some 0%nat.
Proof.
  intros H Hc Hc' Hne.
  destruct (indices_from_is_Some _ _ _ _ _ H Hc) as [n Hn].
  destruct (indices_from_is_Some _ _ _ _ _ H Hc') as [n' Hn'].
  destruct (indices_from_step _ _ _ _ _ _ _ _ H Hc Hc' Hn Hn')
    as (pid & pid' & Hp & Hp' & ->).
  rewrite decide_False in Hn'; [exact Hn' | congruence].
Qed.

(** Before every chunk there is a chunk of its page id at which the counter
    is 0: the first of its run. *)
Lemma run_start (chunks : list Document) (idxs : list nat) (pid : string)
    (i : nat) (c : Document) :
  sequence_indices chunks = Ok idxs ->
  chunks !! i = Some c -> page_id c = Ok pid ->
  exists (i0 : nat) (c0 : Document),
    (i0 <= i)%nat /\ chunks !! i0 = Some c0 /\ page_id c0 = Ok pid /\
    idxs !! i0 = Some 0%nat.
Proof.
  intros H. revert c. induction i as [|i IH]; intros c Hc Hp.
  - exists 0%nat, c. repeat split; [lia|done..|].
    destruct (indices_from_is_Some _ _ _ _ _ H Hc) as [n Hn].
    destruct (indices_from_head _ _ _ _ _ H Hc Hn) as (pid' & _ & ->).
    exact Hn.
  - assert (is_Some (chunks !! i)) as [cp Hcp].
    { apply lookup_lt_is_Some. apply lookup_lt_Some in Hc. lia. }
    destruct (indices_from_is_Some _ _ _ _ _ H Hcp) as [n Hn].
    destruct (indices_from_is_Some _ _ _ _ _ H Hc) as [n' Hn'].
    destruct (indices_from_step _ _ _ _ _ _ _ _ H Hcp Hc Hn Hn')
      as (p & p' & Hq & Hq' & ->).
    rewrite Hp in Hq'. injection Hq' as <-.
    destruct (decide (pid = p)) as [<-|Hne].
    + destruct (IH cp Hcp Hq) as (i0 & c0 & Hle & Hc0 & Hp0 & H0).
      exists i0, c0. repeat split; [lia|done..].
    + exists (S i), c. repeat split; [lia|done..].
Qed.

(** Between a chunk of another page id and a later chunk of page id [pid]
    there is a chunk of page id [pid] at which the counter is 0. *)
Lemma restart_after (chunks : list Document) (idxs : list nat) (pid : string)
    (d j : nat) (cj ck : Document) :
  sequence_indices chunks = Ok idxs ->
  chunks !! j = Some cj -> page_id cj <> Ok pid ->
  chunks !! (j + S d)%nat = Some ck -> page_id ck = Ok pid ->
  exists (m : nat) (cm : Document),
    (j < m <= j + S d)%nat /\ chunks !! m = Some cm /\ page_id cm = Ok pid /\
    idxs !! m = Some 0%nat.
Proof.
  intros H Hcj Hne. revert ck. induction d as [|d IH]; intros ck Hck Hp.
  - replace (j + 1)%nat with (S j) in * by lia.
    exists (S j), ck. repeat split; [lia|lia|done..|].
    apply (index_after_other_page chunks idxs j cj ck); [done..|congruence].
  - replace (j + S (S d))%nat with (S (j + S d)) in * by lia.
    assert (is_Some (chunks !! (j + S d)%nat)) as [cp Hcp].
    { apply lookup_lt_is_Some. apply lookup_lt_Some in Hck. lia. }
    destruct (indices_from_is_Some _ _ _ _ _ H Hcp) as [n Hn].
    destruct (indices_from_is_Some _ _ _ _ _ H Hck) as [n' Hn'].
    destruct (indices_from_step _ _ _ _ _ _ _ _ H Hcp Hck Hn Hn')
      as (p & p' & Hq & Hq' & ->).
    rewrite Hp in Hq'. injection Hq' as <-.
    destruct (decide (pid = p)) as [<-|Hpp].
    + destruct (IH cp Hcp Hq) as (m & cm & Hm & Hcm & Hpm & H0).
      exists m, cm. repeat split; [lia|lia|done..].
    + exists (S (j + S d)), ck. repeat split; [lia|lia|done..].
Qed.

(** Chunks of one page id with a chunk of another between them: the counter
    is 0 at the start of both runs, and the two starts get one id. *)
Lemma separated_pages_collide (chunks out : list Document) (idxs : list nat)
    (i j k : nat) (ci cj ck : Document) :
  sequence_indices chunks = Ok idxs ->
  Forall3 (fun c n c' => exists pid,
             page_id c = Ok pid /\ c' = set_id c (format_chunk_id pid n))
          chunks idxs out ->
  (i < j < k)%nat ->
  chunks !! i = Some ci -> chunks !! j = Some cj -> chunks !! k = Some ck ->
  page_id ci = page_id ck -> page_id cj <> page_id ci ->
  exists (a b : nat) (oa ob : Document),
    (a < b)%nat /\ idxs !! a = Some 0%nat /\ idxs !! b = Some 0%nat /\
    out !! a = Some oa /\ out !! b = Some ob /\ chunk_id_of oa = chunk_id_of ob.
Proof.
  intros H HF Hlt Hci Hcj Hck E Hne.
  destruct (Forall3_lookup_l _ _ _ _ _ _ HF Hci) as (ni & oi & _ & _ & pid & Hpi & _).
  rewrite Hpi in E, Hne. symmetry in E.
  destruct (run_start chunks idxs pid i ci H Hci Hpi) as (a & ca & Ha & Hca & Hpa & Hna).
  replace k with (j + S (k - j - 1))%nat in Hck by lia.
  destruct (restart_after chunks idxs pid _ j cj ck H Hcj Hne Hck E)
    as (b & cb & Hb & Hcb & Hpb & Hnb).
  destruct (Forall3_lookup_l _ _ _ _ _ _ HF Hca) as (na & oa & Hna' & Hoa & pa & Hpa' & ->).
  destruct (Forall3_lookup_l _ _ _ _ _ _ HF Hcb) as (nb & ob & Hnb' & Hob & pb & Hpb' & ->).
  rewrite Hpa in Hpa'. injection Hpa' as <-.
  rewrite Hpb in Hpb'. injection Hpb' as <-.
  rewrite Hna in Hna'. injection Hna' as <-.
  rewrite Hnb in Hnb'. injection Hnb' as <-.
  exists a, b, (set_id ca (format_chunk_id pid 0)), (set_id cb (format_chunk_id pid 0)).
  split; [lia|]. split; [exact Hna|]. split; [exact Hnb|].
  split; [exact Hoa|]. split; [exact Hob|].
  by rewrite !chunk_id_of_set_id.
Qed.

(** ** Chunk ids: format and collisions *)

(** C1, as the code has it. In a run that ends normally every chunk gets the
    id [source:page:index], where [source] is the label taken from its path
    and [index] the value of the loop's counter. For chunks whose page is a
    number or absent, two ids are equal exactly when label, page and index
    are. When the chunks of each page id stand next to each other in the
    list, no two positions get the same id. When two chunks of one page id
    have a chunk of another page id between them, the counter is 0 again at
    a later position and two positions get the same id. *)
Theorem chunk_ids_format_and_collisions (chunks out : list Document) :
  calculate_chunk_ids chunks = Ok out ->
  exists idxs : list nat,
    sequence_indices chunks = Ok idxs /\
    length out = length chunks /\
    (forall (i : nat) (c : Document), chunks !! i = Some c ->
       exists (source : string) (n : nat),
         id_source c = Ok source /\ idxs !! i = Some n /\
         out !! i = Some (set_id c (source +:+ ":" +:+ py_str (page_of c)
                                           +:+ ":" +:+ pretty n))) /\
    (forall (i j : nat) (ci cj oi oj : Document) (ni nj : nat),
       chunks !! i = Some ci -> chunks !! j = Some cj ->
       idxs !! i = Some ni -> idxs !! j = Some nj ->
       out !! i = Some oi -> out !! j = Some oj ->
       plain_page (page_of ci) -> plain_page (page_of cj) ->
       (chunk_id_of oi = chunk_id_of oj <->
        id_source ci = id_source cj /\ page_of ci = page_of cj /\ ni = nj)) /\
    (pages_adjacent chunks ->
     forall (i j : nat) (oi oj : Document),
       i <> j -> out !! i = Some oi -> out !! j = Some oj ->
       chunk_id_of oi <> chunk_id_of oj) /\
    (forall (i j k : nat) (ci cj ck : Document),
       (i < j < k)%nat ->
       chunks !! i = Some ci -> chunks !! j = Some cj -> chunks !! k = Some ck ->
       page_id ci = page_id ck -> page_id cj <> page_id ci ->
       exists (a b : nat) (oa ob : Document),
         (a < b)%nat /\ idxs !! a = Some 0%nat /\ idxs !! b = Some 0%nat /\
         out !! a = Some oa /\ out !! b = Some ob /\
         chunk_id_of oa = chunk_id_of ob).
Proof.
  intros H. destruct (calculate_chunk_ids_lookup _ _ H) as (idxs & Hi & Hlen & HF).
  assert (Hat : forall i c, chunks !! i = Some c ->
            exists source n, id_source c = Ok source /\ idxs !! i = Some n /\
              out !! i = Some (set_id c (format_chunk_id
                                           (format_page_id source (page_of c)) n))).
  { intros i c Hc.
    destruct (Forall3_lookup_l _ _ _ _ _ _ HF Hc) as (n & c' & Hn & Hc' & pid & Hp & ->).
    apply page_id_Ok in Hp as (source & Hs & ->). eauto. }
  exists idxs. split; [exact Hi|]. split; [exact Hlen|]. split; [|split; [|split]].
  - intros i c Hc. destruct (Hat i c Hc) as (source & n & Hs & Hn & Ho).
    exists source, n. by rewrite <- format_chunk_id_flat.
  - intros i j ci cj oi oj ni nj Hci Hcj Hni Hnj Hoi Hoj Hpi Hpj.
    destruct (Hat _ _ Hci) as (si & ni' & Hsi & Hni' & Hoi').
    destruct (Hat _ _ Hcj) as (sj & nj' & Hsj & Hnj' & Hoj').
    simplify_eq. rewrite !chunk_id_of_set_id, Hsi, Hsj. split.
    + intros [= E]. apply format_chunk_id_inj in E as [E ->].
      apply format_page_id_inj in E as [-> ->]; done.
    + intros ([= ->] & -> & ->). reflexivity.
  - intros Hadj i j oi oj Hij Hoi Hoj.
    destruct (decide (i < j)%nat) as [Hlt|Hge].
    + exact (adjacent_pages_distinct _ _ _ _ _ _ _ _ Hi HF Hadj Hlt Hoi Hoj).
    + intros E. symmetry in E. revert E.
      apply (adjacent_pages_distinct _ _ _ _ j i oj oi Hi HF Hadj); [lia|done..].
  - intros i j k ci cj ck Hlt Hci Hcj Hck E Hne.
    exact (separated_pages_collide _ _ _ _ _ _ _ _ _ Hi HF Hlt Hci Hcj Hck E Hne).
Qed.

Lemma adjacent_run_pages_adjacent : pages_adjacent adjacent_run.
Proof.
  intros i j k ci cj ck Hlt Hi Hj Hk E.
  destruct i as [|[|[|[|i]]]]; try discriminate Hi;
  destruct j as [|[|[|[|j]]]]; try discriminate Hj; try (exfalso; lia);
  destruct k as [|[|[|[|k]]]]; try discriminate Hk; try (exfalso; lia);
  injection Hi as <-; injection Hj as <-; injection Hk as <-;
  solve [ reflexivity | vm_compute in E; discriminate E ].
Defined.

Lemma chunk_ids_format_and_collisions_witness :
  (calculate_chunk_ids adjacent_run = Ok adjacent_out /\
   exists idxs : list nat,
     sequence_indices adjacent_run = Ok idxs /\
     length adjacent_out = length adjacent_run /\
     forall (i j : nat) (oi oj : Document),
       i <> j -> adjacent_out !! i = Some oi -> adjacent_out !! j = Some oj ->
       chunk_id_of oi <> chunk_id_of oj) /\
  (calculate_chunk_ids sample_run = Ok sample_out /\
   exists (a b : nat) (oa ob : Document),
     (a < b)%nat /\ sample_out !! a = Some oa /\ sample_out !! b = Some ob /\
     chunk_id_of oa = chunk_id_of ob).
Proof.
  split.
  - assert (H : calculate_chunk_ids adjacent_run = Ok adjacent_out)
      by (vm_compute; reflexivity).
    split; [exact H|].
    destruct (chunk_ids_format_and_collisions adjacent_run adjacent_out H)
      as (idxs & Hi & Hlen & _ & _ & Hdistinct & _).
    exists idxs. split; [exact Hi|]. split; [exact Hlen|].
    exact (Hdistinct adjacent_run_pages_adjacent).
  - assert (H : calculate_chunk_ids sample_run = Ok sample_out)
      by (vm_compute; reflexivity).
    split; [exact H|].
    destruct (chunk_ids_format_and_collisions sample_run sample_out H)
      as (idxs & _ & _ & _ & _ & _ & Hcollide).
    destruct (Hcollide 0%nat 2%nat 3%nat
                (sample_chunk "docA" 1 "alpha") (sample_chunk "docB" 1 "gamma")
                (sample_chunk "docA" 1 "delta"))
      as (a & b & oa & ob & Hab & _ & _ & Hoa & Hob & E);
      [lia|reflexivity..|vm_compute; discriminate|].
    exists a, b, oa, ob. repeat split; assumption.
Defined.

(** C1 as written does not hold. In the sample run the first and the last
    chunk, two chunks of [docA] page 1 with a chunk of [docB] between them,
    both get the id [docA:1:0]. And with a page that is a text, chunks of
    different source and page get one id. *)
Lemma sample_run_repeats_an_id :
  (calculate_chunk_ids sample_run = Ok sample_out /\
   exists oi oj : Document,
     sample_out !! 0%nat = Some oi /\ sample_out !! 3%nat = Some oj /\
     chunk_id_of oi = PyStr "docA:1:0" /\ chunk_id_of oj = PyStr "docA:1:0") /\
  (assigned_ids text_page_gap_run
     = Ok [PyStr "a:1:2:0"; PyStr "docB:1:0"; PyStr "a:1:2:0"] /\
   sequence_indices text_page_gap_run = Ok [0; 0; 0]%nat /\
   (label_page <$> text_page_gap_run)
     = [Ok ("a:1", PyInt 2); Ok ("docB", PyInt 1); Ok ("a", PyStr "1:2")]).
Proof.
  split.
  - split; [vm_compute; reflexivity|].
    eexists _, _. repeat split; vm_compute; reflexivity.
  - repeat split; vm_compute; reflexivity.
Qed.

(** ** The sequence index *)

(** C3, as the code has it. The index of the first chunk is 0; after that it
    is one more than the index before when the page id [label:page] is that
    of the chunk before, and 0 when it is not. The label is the piece at
    index 6 of the source path, not the source: a chunk with the source and
    page of the chunk before goes on counting, and for pages that are
    numbers or absent the page ids are equal exactly when the (label, page)
    pairs are, so that another source with the same label and page goes on
    counting too. The sample run gets [docA:1:0], [docA:1:1], [docB:1:0],
    [docA:1:0]. *)
Theorem sequence_index_rule :
  (forall chunks out : list Document,
     calculate_chunk_ids chunks = Ok out ->
     exists idxs : list nat,
       sequence_indices chunks = Ok idxs /\
       (forall (i : nat) (c c' : Document), chunks !! i = Some c -> out !! i = Some c' ->
          exists (pid : string) (n : nat),
            page_id c = Ok pid /\ idxs !! i = Some n /\
            chunk_id_of c' = PyStr (pid +:+ ":" +:+ pretty n)) /\
       (forall n : nat, idxs !! 0%nat = Some n -> n = 0%nat) /\
       (forall (i : nat) (c c' : Document) (n n' : nat),
          chunks !! i = Some c -> chunks !! S i = Some c' ->
          idxs !! i = Some n -> idxs !! S i = Some n' ->
          (page_id c' = page_id c -> n' = S n) /\
          (page_id c' <> page_id c -> n' = 0%nat) /\
          (key_fields c' = key_fields c -> n' = S n) /\
          (plain_page (page_of c) -> plain_page (page_of c') ->
           (page_id c' = page_id c <-> label_page c' = label_page c)) /\
          (plain_page (page_of c) -> plain_page (page_of c') ->
           (n' = S n <-> label_page c' = label_page c)))) /\
  assigned_ids sample_run
    = Ok [PyStr "docA:1:0"; PyStr "docA:1:1"; PyStr "docB:1:0"; PyStr "docA:1:0"].
Proof.
  split; [|vm_compute; reflexivity].
  intros chunks out H.
  destruct (calculate_chunk_ids_lookup _ _ H) as (idxs & Hi & Hlen & HF).
  exists idxs. split; [exact Hi|]. split; [|split].
  - intros i c c' Hc Hc'.
    destruct (Forall3_lookup_l _ _ _ _ _ _ HF Hc) as (n & c2 & Hn & Hc2 & pid & Hp & ->).
    rewrite Hc2 in Hc'. injection Hc' as <-.
    exists pid, n. by rewrite chunk_id_of_set_id.
  - intros n Hn. destruct chunks as [|c rest].
    + injection Hi as <-. discriminate Hn.
    + destruct (indices_from_head _ _ _ c n Hi eq_refl Hn) as (pid & _ & ->).
      reflexivity.
  - intros i c c' n n' Hc Hc' Hn Hn'.
    destruct (indices_from_step _ _ _ _ _ _ _ _ Hi Hc Hc' Hn Hn')
      as (pid & pid' & Hp & Hp' & ->).
    assert (Hlp : plain_page (page_of c) -> plain_page (page_of c') ->
              (page_id c' = page_id c <-> label_page c' = label_page c)).
    { intros Hpl Hpl'. apply page_id_label_page; [done..|by exists pid]. }
    rewrite Hp, Hp' in *. split; [|split; [|split; [|split]]].
    + intros [= ->]. by rewrite decide_True.
    + intros Hne. rewrite decide_False; [done | congruence].
    + intros Hk.
      assert (E : page_id c' = page_id c).
      { unfold key_fields in Hk. unfold page_id, id_source, page_of.
        by injection Hk as -> ->. }
      rewrite Hp, Hp' in E. injection E as ->. by rewrite decide_True.
    + exact Hlp.
    + intros Hpl Hpl'. rewrite <- (Hlp Hpl Hpl'). split.
      * case_decide; [congruence | discriminate].
      * intros [= ->]. by rewrite decide_True.
Qed.

Lemma sequence_index_rule_witness :
  calculate_chunk_ids sample_run = Ok sample_out /\
  sequence_indices sample_run = Ok [0; 1; 0; 0]%nat /\
  exists idxs : list nat,
    sequence_indices sample_run = Ok idxs /\
    forall n : nat, idxs !! 0%nat = Some n -> n = 0%nat.
Proof.
  assert (H : calculate_chunk_ids sample_run = Ok sample_out)
    by (vm_compute; reflexivity).
  split; [exact H|]. split; [vm_compute; reflexivity|].
  destruct (proj1 sequence_index_rule sample_run sample_out H)
    as (idxs & Hi & _ & H0 & _).
  exists idxs. split; [exact Hi | exact H0].
Defined.

(** C3 as written does not hold: the last chunk of the sample run gets
    [docA:1:0], not [docA:1:2], because the chunk before it is of another
    page. And the index does not start again whenever the (source, page)
    pair changes: two files of one folder have different sources and one
    label, and at the same page the second goes on counting after the
    first; with a page that is a text the index goes on even though label
    and page both change. *)
Lemma sample_run_last_id_restarts :
  (assigned_ids sample_run
     = Ok [PyStr "docA:1:0"; PyStr "docA:1:1"; PyStr "docB:1:0"; PyStr "docA:1:0"] /\
   assigned_ids sample_run
     <> Ok [PyStr "docA:1:0"; PyStr "docA:1:1"; PyStr "docB:1:0"; PyStr "docA:1:2"]) /\
  (key_fields <$> folder_run
     = [(PyStr (folder_path "a.pdf"), PyInt 0); (PyStr (folder_path "b.pdf"), PyInt 0)] /\
   folder_path "a.pdf" <> folder_path "b.pdf" /\
   sequence_indices folder_run = Ok [0; 1]%nat /\
   assigned_ids folder_run = Ok [PyStr "pdfs:0:0"; PyStr "pdfs:0:1"]) /\
  (sequence_indices text_page_run = Ok [0; 1]%nat /\
   (label_page <$> text_page_run) = [Ok ("a:1", PyInt 2); Ok ("a", PyStr "1:2")]).
Proof.
  split; [split|split; [repeat split|split]]; try (vm_compute; reflexivity).
  - vm_compute. discriminate.
  - vm_compute. discriminate.
Qed.

(** ** Sources the loop accepts *)


Lemma id_source_succeeds (c : Document) :
  succeeds (id_source c) <-> source_has_label c.
Proof.
  unfold id_source, source_has_label, succeeds.
  destruct (dict_get (metadata c) "source") as [|z|src].
  - split; [intros [? [=]] | intros (? & [=] & _)].
  - split; [intros [? [=]] | intros (? & [=] & _)].
  - destruct (str_split backslash src !! 6%nat) as [label|] eqn:E.
    + split; [|by eauto]. intros _. exists src. split; [done|].
      by apply lookup_lt_Some in E.
    + apply lookup_ge_None in E.
      split; [intros [? [=]] | intros (? & [= <-] & ?); lia].
Qed.

Lemma page_id_succeeds (c : Document) :
  succeeds (page_id c) <-> source_has_label c.
Proof.
  rewrite <- id_source_succeeds. unfold page_id, succeeds.
  destruct (id_source c); simpl; split; intros [? ?]; eauto; discriminate.
Qed.





Example short_path_raises :
  calculate_chunk_ids [short_path_chunk] = Raise IndexError.
Proof. vm_compute. reflexivity. Qed.

Example missing_source_raises :
  calculate_chunk_ids [sourceless_chunk] = Raise AttributeError.
Proof. vm_compute. reflexivity. Qed.

(** ** Chunks without a page *)

Lemma without_page_has_label (c : Document) :
  source_has_label (without_page c) <-> source_has_label c.
Proof.
  unfold source_has_label, without_page, dict_get. simpl.
  by rewrite lookup_delete_ne.
Qed.

(** C6, as the code has it. A missing page never makes the run fail: taking
    the pages away from the chunks of a run leaves it ending normally or not
    as before, and in a run that ends normally a chunk without a page gets
    the id [source:None:index]. *)
Theorem absent_page_does_not_fail (chunks : list Document) :
  (succeeds (calculate_chunk_ids (without_page <$> chunks))
   <-> succeeds (calculate_chunk_ids chunks)) /\
  (forall (out : list Document) (i : nat) (c c' : Document),
     calculate_chunk_ids chunks = Ok out ->
     chunks !! i = Some c -> out !! i = Some c' ->
     metadata c !! "page" = None ->
     exists (source : string) (n : nat),
       id_source c = Ok source /\
       chunk_id_of c' = PyStr (source +:+ ":None:" +:+ pretty n)).
Proof.
  split.
  - unfold calculate_chunk_ids. rewrite !assign_from_succeeds, Forall_fmap.
    apply Forall_iff. intros c. simpl.
    by rewrite !page_id_succeeds, without_page_has_label.
  - intros out i c c' H Hc Hc' Hpage.
    destruct (chunk_ids_lookup_page chunks out i c c' H Hc Hc')
      as (source & n & Hs & ->).
    exists source, n. split; [exact Hs|].
    unfold page_of, dict_get. rewrite Hpage. reflexivity.
Qed.

Lemma absent_page_does_not_fail_witness :
  calculate_chunk_ids [pageless_chunk] = Ok [set_id pageless_chunk "docA:None:0"] /\
  metadata pageless_chunk !! "page" = None /\
  exists (source : string) (n : nat),
    id_source pageless_chunk = Ok source /\
    chunk_id_of (set_id pageless_chunk "docA:None:0")
      = PyStr (source +:+ ":None:" +:+ pretty n).
Proof.
  assert (H : calculate_chunk_ids [pageless_chunk]
              = Ok [set_id pageless_chunk "docA:None:0"]) by (vm_compute; reflexivity).
  assert (Hp : metadata pageless_chunk !! "page" = None) by (vm_compute; reflexivity).
  split; [exact H|]. split; [exact Hp|].
  exact (proj2 (absent_page_does_not_fail [pageless_chunk]) _ 0%nat _ _ H
           eq_refl eq_refl Hp).
Defined.

(** C6 as written does not hold: a chunk with a source and no page goes
    through the loop and gets the id [docA:None:0]. *)
Lemma pageless_chunk_gets_an_id :
  metadata pageless_chunk !! "page" = None /\
  calculate_chunk_ids [pageless_chunk] = Ok [set_id pageless_chunk "docA:None:0"] /\
  assigned_ids [pageless_chunk] = Ok [PyStr "docA:None:0"].
Proof. repeat split; vm_compute; reflexivity. Qed.

(** ** Running the loop again *)

Lemma assign_from_rerun (st : loop_state) (chunks out : list Document) :
  assign_from st chunks = Ok out -> assign_from st out = Ok out.
Proof.
  revert st out. induction chunks as [|c rest IH]; intros st out H.
  - by injection H as <-.
  - apply assign_from_cons in H as (pid & rest' & Hp & Hr & ->).
    apply assign_from_cons. exists pid, rest'.
    rewrite set_id_page_id, set_id_twice. eauto.
Qed.

Lemma page_id_key_fields (c c' : Document) :
  key_fields c = key_fields c' -> page_id c = page_id c'.
Proof.
  unfold key_fields, page_id, id_source, page_of. by intros [= -> ->].
Qed.

Lemma assign_from_ids_congr (st : loop_state) (chunks chunks' : list Document) :
  key_fields <$> chunks = key_fields <$> chunks' ->
  (out ← assign_from st chunks; mret (map chunk_id_of out))
  = (out ← assign_from st chunks'; mret (map chunk_id_of out)).
Proof.
  revert st chunks'. induction chunks as [|c rest IH]; intros st [|c' rest'] E;
    try discriminate E; [reflexivity|].
  rewrite !fmap_cons in E.
  assert (Ec : key_fields c = key_fields c') by congruence.
  assert (Er : key_fields <$> rest = key_fields <$> rest') by congruence.
  simpl. unfold loop_body.
  rewrite (page_id_key_fields _ _ Ec).
  destruct (page_id c') as [pid|e]; simpl; [|reflexivity].
  specialize (IH {| last_page_id := Some pid;
                    current_chunk_index := next_index st pid |} rest' Er).
  destruct (assign_from _ rest) as [o|e], (assign_from _ rest') as [o'|e'];
    simpl in *; unfold mret, result_ret in *; try discriminate IH.
  - injection IH as IH. by rewrite !chunk_id_of_set_id, IH.
  - exact IH.
Qed.

(** C9. Running the id assignment on its own output gives the output again,
    and the ids of a run depend on nothing but the sources and pages of the
    chunks in their order: two lists that agree on them get the same ids, or
    fail alike. *)
Theorem calculate_chunk_ids_deterministic :
  (forall chunks out : list Document,
     calculate_chunk_ids chunks = Ok out -> calculate_chunk_ids out = Ok out) /\
  (forall chunks chunks' : list Document,
     key_fields <$> chunks = key_fields <$> chunks' ->
     assigned_ids chunks = assigned_ids chunks').
Proof.
  split.
  - intros chunks out. apply assign_from_rerun.
  - intros chunks chunks'. apply assign_from_ids_congr.
Qed.

Lemma calculate_chunk_ids_deterministic_witness :
  calculate_chunk_ids sample_run = Ok sample_out /\
  calculate_chunk_ids sample_out = Ok sample_out /\
  key_fields <$> sample_run = key_fields <$> sample_out /\
  assigned_ids sample_run = assigned_ids sample_out.
Proof.
  assert (H : calculate_chunk_ids sample_run = Ok sample_out)
    by (vm_compute; reflexivity).
  assert (E : key_fields <$> sample_run = key_fields <$> sample_out)
    by (vm_compute; reflexivity).
  split; [exact H|].
  split; [exact (proj1 calculate_chunk_ids_deterministic _ _ H)|].
  split; [exact E|].
  exact (proj2 calculate_chunk_ids_deterministic _ _ E).
Defined.

(** ** The collection *)

Section Collection.

Context {Float : Type}.
Implicit Types (db : VectorIndex Float) (e : Entry Float) (id : string).

Lemma find_entry_upsert_eq e db : find_entry (entry_id e) (upsert e db) = Some e.
Proof.
  induction db as [|e' rest IH]; simpl.
  - by rewrite decide_True.
  - destruct (decide (entry_id e' = entry_id e)) as [E|E]; simpl.
    + by rewrite decide_True.
    + by rewrite decide_False.
Qed.

Lemma find_entry_upsert_ne id e db :
  id <> entry_id e -> find_entry id (upsert e db) = find_entry id db.
Proof.
  intros Hne. induction db as [|e' rest IH]; simpl.
  - by rewrite decide_False.
  - destruct (decide (entry_id e' = entry_id e)) as [E|E]; simpl.
    + rewrite !decide_False by congruence. reflexivity.
    + by rewrite IH.
Qed.

Lemma find_entry_None id db : find_entry id db = None <-> id ∉ store_ids db.
Proof.
  induction db as [|e' rest IH]; simpl.
  - split; [intros _; apply not_elem_of_nil | done].
  - rewrite not_elem_of_cons. case_decide as E.
    + split; [done | intros [H _]; congruence].
    + rewrite IH. split; [intros H; split; [congruence | done] | tauto].
Qed.

Lemma elem_of_store_ids_upsert id e db :
  id ∈ store_ids (upsert e db) <-> id = entry_id e \/ id ∈ store_ids db.
Proof.
  unfold store_ids. induction db as [|e' rest IH]; simpl.
  - rewrite list_elem_of_singleton. split; [auto|].
    intros [?|H]; [done | by apply elem_of_nil in H].
  - case_decide as E; simpl; rewrite !elem_of_cons.
    + rewrite E. tauto.
    + rewrite IH. tauto.
Qed.

Lemma existing_id_set_upsert e db :
  existing_id_set (upsert e db) = {[entry_id e]} ∪ existing_id_set db.
Proof.
  apply set_eq. intros id. unfold existing_id_set.
  rewrite elem_of_union, elem_of_singleton, !elem_of_list_to_set.
  apply elem_of_store_ids_upsert.
Qed.

Lemma upsert_NoDup e db : NoDup (store_ids db) -> NoDup (store_ids (upsert e db)).
Proof.
  induction db as [|e' rest IH]; simpl; intros Hnd.
  - apply NoDup_singleton.
  - apply NoDup_cons in Hnd as [Hnot Hnd].
    case_decide as E; simpl; apply NoDup_cons.
    + split; [|done]. by rewrite <- E.
    + split; [|by apply IH].
      fold (store_ids (upsert e rest)). rewrite elem_of_store_ids_upsert.
      intros [?|?]; [congruence | done].
Qed.

Lemma upsert_length e db :
  length (upsert e db)
  = if decide (entry_id e ∈ store_ids db) then length db else S (length db).
Proof.
  induction db as [|e' rest IH]; cbn [upsert].
  - destruct (decide (entry_id e ∈ store_ids [])) as [H|_]; [|done].
    by apply elem_of_nil in H.
  - assert (Hcons : entry_id e ∈ store_ids (e' :: rest)
                    <-> entry_id e = entry_id e' \/ entry_id e ∈ store_ids rest)
      by apply elem_of_cons.
    destruct (decide (entry_id e' = entry_id e)) as [E|E]; cbn [length].
    + destruct (decide (entry_id e ∈ store_ids (e' :: rest))) as [_|H]; [done|].
      destruct H. apply Hcons. auto.
    + rewrite IH.
      destruct (decide (entry_id e ∈ store_ids rest)) as [Hin|Hin],
               (decide (entry_id e ∈ store_ids (e' :: rest))) as [Hin'|Hin'];
        try done.
      * destruct Hin'. apply Hcons. auto.
      * apply Hcons in Hin' as [?|?]; [congruence | done].
Qed.

Lemma existing_id_set_upsert_all entries db :
  existing_id_set (upsert_all db entries)
  = existing_id_set db ∪ list_to_set (map entry_id entries).
Proof.
  revert db. induction entries as [|e rest IH]; intros db; simpl.
  - by rewrite union_empty_r_L.
  - unfold upsert_all in *. simpl. rewrite IH, existing_id_set_upsert.
    apply set_eq. intros x. rewrite !elem_of_union. tauto.
Qed.

Lemma upsert_all_NoDup entries db :
  NoDup (store_ids db) -> NoDup (store_ids (upsert_all db entries)).
Proof.
  revert db. induction entries as [|e rest IH]; intros db Hnd; [done|].
  unfold upsert_all in *. simpl. by apply IH, upsert_NoDup.
Qed.

Lemma find_entry_upsert_all_other id entries db :
  id ∉ map entry_id entries ->
  find_entry id (upsert_all db entries) = find_entry id db.
Proof.
  revert db. induction entries as [|e rest IH]; intros db Hid; [done|].
  simpl in Hid. apply not_elem_of_cons in Hid as [Hne Hid].
  unfold upsert_all in *. simpl. rewrite IH by done. by apply find_entry_upsert_ne.
Qed.

Lemma find_entry_upsert_all_in id entries db :
  id ∈ map entry_id entries ->
  exists e, e ∈ entries /\ entry_id e = id /\
    find_entry id (upsert_all db entries) = Some e.
Proof.
  revert db. induction entries as [|e rest IH]; intros db Hid.
  - by apply elem_of_nil in Hid.
  - destruct (decide (id ∈ map entry_id rest)) as [Hin|Hout].
    + destruct (IH (upsert e db) Hin) as (e' & He' & Hid' & Hf).
      exists e'. split; [by right|]. split; [done|]. exact Hf.
    + simpl in Hid. apply elem_of_cons in Hid as [->|Hid]; [|done].
      exists e. split; [left|]. split; [done|].
      unfold upsert_all. simpl.
      change (foldl _ (upsert e db) rest) with (upsert_all (upsert e db) rest).
      rewrite find_entry_upsert_all_other by done. apply find_entry_upsert_eq.
Qed.

Lemma upsert_all_length_fresh entries db :
  NoDup (map entry_id entries) ->
  (forall id, id ∈ map entry_id entries -> id ∉ store_ids db) ->
  length (upsert_all db entries) = (length db + length entries)%nat.
Proof.
  revert db. induction entries as [|e rest IH]; intros db Hnd Hfresh.
  - simpl. lia.
  - simpl in Hnd. apply NoDup_cons in Hnd as [Hnot Hnd].
    unfold upsert_all in *. simpl. rewrite IH; [|done|].
    + rewrite upsert_length, decide_False; [simpl; lia|]. apply Hfresh. left.
    + intros id Hid. rewrite elem_of_store_ids_upsert. intros [->|Hin]; [done|].
      revert Hin. apply Hfresh. by right.
Qed.

End Collection.

(** ** Indexing *)

Lemma filter_none {A : Type} (P : A -> Prop) `{!forall x, Decision (P x)} (l : list A) :
  Forall (fun x => ~ P x) l -> filter P l = [].
Proof.
  induction 1 as [|x l Hx _ IH]; [reflexivity|].
  rewrite filter_cons, decide_False by done. exact IH.
Qed.

Lemma calculate_has_ids (chunks out : list Document) :
  calculate_chunk_ids chunks = Ok out -> Forall has_text_id out.
Proof.
  intros H. destruct (calculate_chunk_ids_lookup _ _ H) as (idxs & _ & _ & HF).
  apply Forall_lookup. intros i c' Hc'.
  destruct (Forall3_lookup_r _ _ _ _ _ _ HF Hc') as (c & n & _ & _ & pid & _ & ->).
  eexists. unfold set_id. simpl. apply lookup_insert_eq.
Qed.

Lemma has_text_id_item (c : Document) :
  has_text_id c ->
  exists s, dict_item (metadata c) "id" = Ok (PyStr s) /\ chunk_id_of c = PyStr s.
Proof.
  intros [s Hs]. exists s. unfold dict_item, chunk_id_of, dict_get. by rewrite Hs.
Qed.

Lemma select_new_filter (existing_ids : gset string) (l : list Document) :
  Forall has_text_id l ->
  select_new existing_ids l = Ok (filter (is_new existing_ids) l).
Proof.
  induction 1 as [|c l Hc _ IH]; [reflexivity|].
  destruct (has_text_id_item c Hc) as (s & Hitem & Hid).
  simpl. rewrite Hitem. simpl. rewrite IH. simpl.
  rewrite filter_cons.
  destruct (in_ids (PyStr s) existing_ids) eqn:E.
  - assert (Hold : ~ is_new existing_ids c).
    { unfold is_new. rewrite Hid, E. discriminate. }
    simpl in E. rewrite E. by rewrite decide_False.
  - assert (Hnew : is_new existing_ids c).
    { unfold is_new. by rewrite Hid, E. }
    simpl in E. rewrite E. by rewrite decide_True.
Qed.

Lemma chunk_ids_map (l : list Document) :
  Forall has_text_id l -> chunk_ids l = Ok (map chunk_id_of l).
Proof.
  induction 1 as [|c l Hc _ IH]; [reflexivity|].
  destruct (has_text_id_item c Hc) as (s & Hitem & Hid).
  simpl. rewrite Hitem. simpl. rewrite IH. simpl. by rewrite Hid.
Qed.

Section Indexing.

Context {Float : Type}.
Variable LLM_EMBEDDING_MODEL : option string.
Variable ollama_embed : string -> string -> result (list Float).

Lemma embed_documents_Ok (emb : Embeddings) (texts : list string)
    (vectors : list (list Float)) :
  embed_documents ollama_embed emb texts = Ok vectors ->
  Forall2 (fun t v => embed_query ollama_embed emb t = Ok v) texts vectors.
Proof.
  revert vectors. induction texts as [|t rest IH]; intros vectors H.
  - injection H as <-. constructor.
  - simpl in H. apply bind_Ok in H as (v & Hv & H).
    apply bind_Ok in H as (vs & Hvs & [= <-]). constructor; eauto.
Qed.

Lemma batch_entries_Ok (emb : Embeddings) (docs : list Document)
    (vectors : list (list Float)) (entries : list (Entry Float)) :
  Forall2 (fun d v => embed_query ollama_embed emb (page_content d) = Ok v) docs vectors ->
  batch_entries docs (map chunk_id_of docs) vectors = Ok entries ->
  Forall2 (entry_for (embed_query ollama_embed emb)) docs entries.
Proof.
  intros HF. revert entries. induction HF as [|d v docs vectors Hv _ IH]; intros entries H.
  - injection H as <-. constructor.
  - simpl in H. destruct (chunk_id_of d) as [| |id] eqn:Hid; try discriminate H.
    apply bind_Ok in H as (rest & Hrest & [= <-]).
    constructor; [|by apply IH]. by repeat split.
Qed.

Lemma add_documents_Ok (emb : Embeddings) (db db' : VectorIndex Float)
    (docs : list Document) :
  add_documents ollama_embed emb db docs (map chunk_id_of docs) = Ok db' ->
  exists entries : list (Entry Float),
    db' = upsert_all db entries /\
    Forall2 (entry_for (embed_query ollama_embed emb)) docs entries.
Proof.
  unfold add_documents. intros H.
  apply bind_Ok in H as (vectors & Hv & H).
  apply bind_Ok in H as (entries & He & [= <-]).
  exists entries. split; [reflexivity|].
  apply embed_documents_Ok in Hv. apply Forall2_fmap_l in Hv.
  by eapply batch_entries_Ok.
Qed.

(** The two ways [add_to_chroma] ends normally. *)
Lemma add_to_chroma_Ok (chunks : list Document) (db : VectorIndex Float)
    (o : outcome Float) :
  add_to_chroma LLM_EMBEDDING_MODEL ollama_embed chunks db = Ok o <->
  exists (emb : Embeddings) (out : list Document),
    get_embedding_func LLM_EMBEDDING_MODEL ollama_embed = Ok emb /\
    calculate_chunk_ids chunks = Ok out /\
    let new_chunks := filter (is_new (existing_id_set db)) out in
    (new_chunks = [] /\
     o = {| store_after := db;
            stdout := [existing_line (size (existing_id_set db)); nothing_new_line];
            returned := PyNone |}) \/
    (new_chunks <> [] /\
     exists db' : VectorIndex Float,
       add_documents ollama_embed emb db new_chunks (map chunk_id_of new_chunks) = Ok db' /\
       o = {| store_after := db';
              stdout := [existing_line (size (existing_id_set db));
                         adding_line (length new_chunks)];
              returned := PyNone |}).
Proof.
  unfold add_to_chroma.
  destruct (get_embedding_func _ _) as [emb|e]; simpl;
    [|split; [discriminate | intros (? & ? & [=] & _)]].
  destruct (calculate_chunk_ids chunks) as [out|e] eqn:Hout; simpl;
    [|split; [discriminate | intros (? & ? & _ & [=] & _)]].
  pose proof (calculate_has_ids _ _ Hout) as Hids.
  rewrite (select_new_filter _ _ Hids). simpl. cbv zeta.
  assert (Hnew : Forall has_text_id (filter (is_new (existing_id_set db)) out)).
  { apply Forall_forall. intros c Hc. apply list_elem_of_filter in Hc as [_ Hc].
    rewrite Forall_forall in Hids. by apply Hids. }
  remember (filter (is_new (existing_id_set db)) out) as new_chunks eqn:Enew.
  rewrite (chunk_ids_map _ Hnew). simpl.
  destruct new_chunks as [|c rest]; simpl.
  - split.
    + intros [= <-]. exists emb, out. split; [done|]. split; [done|].
      rewrite <- Enew. left. split; reflexivity.
    + intros (emb' & out' & [= <-] & [= <-] & H). rewrite <- Enew in H.
      destruct H as [[_ ->]|[Hne _]]; [reflexivity | done].
  - split.
    + intros H. apply bind_Ok in H as (db' & Hdb & [= <-]).
      exists emb, out. split; [done|]. split; [done|].
      rewrite <- Enew. right. split; [done|]. by exists db'.
    + intros (emb' & out' & [= <-] & [= <-] & H). rewrite <- Enew in H.
      destruct H as [[[=] _]|[_ (db' & Hdb & ->)]].
      simpl in Hdb. by rewrite Hdb.
Qed.

Lemma add_to_chroma_store (chunks : list Document) (db : VectorIndex Float)
    (o : outcome Float) :
  add_to_chroma LLM_EMBEDDING_MODEL ollama_embed chunks db = Ok o ->
  exists (emb : Embeddings) (out : list Document) (entries : list (Entry Float)),
    get_embedding_func LLM_EMBEDDING_MODEL ollama_embed = Ok emb /\
    calculate_chunk_ids chunks = Ok out /\
    store_after o = upsert_all db entries /\
    Forall2 (entry_for (embed_query ollama_embed emb))
            (filter (is_new (existing_id_set db)) out) entries /\
    returned o = PyNone /\
    stdout o = [existing_line (size (existing_id_set db));
                if decide (filter (is_new (existing_id_set db)) out = [])
                then nothing_new_line
                else adding_line (length (filter (is_new (existing_id_set db)) out))].
Proof.
  intros H. apply add_to_chroma_Ok in H as (emb & out & Hemb & Hout & H).
  cbv zeta in H. exists emb, out.
  destruct H as [[Hnil ->]|[Hne (db' & Hadd & ->)]].
  - exists []. rewrite Hnil. simpl. repeat split; try done.
  - apply add_documents_Ok in Hadd as (entries & -> & HF).
    exists entries. simpl. rewrite decide_False by done. by repeat split.
Qed.

Lemma entry_ids_of_new (f : string -> result (list Float)) (new_chunks : list Document)
    (entries : list (Entry Float)) (id : string) :
  Forall2 (entry_for f) new_chunks entries ->
  id ∈ map entry_id entries <->
  exists c, c ∈ new_chunks /\ chunk_id_of c = PyStr id.
Proof.
  intros HF. split.
  - intros Hin. apply list_elem_of_fmap in Hin as (e & -> & He).
    apply list_elem_of_lookup in He as (i & He).
    destruct (Forall2_lookup_r _ _ _ _ _ HF He) as (c & Hc & Hid & _).
    exists c. split; [|done]. by eapply list_elem_of_lookup_2.
  - intros (c & Hc & Hid). apply list_elem_of_lookup in Hc as (i & Hc).
    destruct (Forall2_lookup_l _ _ _ _ _ HF Hc) as (e & He & Hid' & _).
    rewrite Hid in Hid'. injection Hid' as ->.
    apply list_elem_of_fmap. exists e. split; [done|]. by eapply list_elem_of_lookup_2.
Qed.

Lemma entry_ids_map (f : string -> result (list Float)) (new_chunks : list Document)
    (entries : list (Entry Float)) :
  Forall2 (entry_for f) new_chunks entries ->
  map chunk_id_of new_chunks = PyStr <$> map entry_id entries.
Proof.
  induction 1 as [|c e cs es [Hid _] _ IH]; [reflexivity|].
  simpl. by rewrite Hid, IH.
Qed.

Lemma is_new_text (existing_ids : gset string) (c : Document) (id : string) :
  chunk_id_of c = PyStr id -> (is_new existing_ids c <-> id ∉ existing_ids).
Proof.
  intros Hid. unfold is_new. rewrite Hid. simpl.
  rewrite bool_decide_eq_false. reflexivity.
Qed.

(** What a call that ended normally has left in the collection and on the
    screen. *)
Lemma add_to_chroma_effects (chunks : list Document) (db : VectorIndex Float)
    (o : outcome Float) :
  add_to_chroma LLM_EMBEDDING_MODEL ollama_embed chunks db = Ok o ->
  exists (emb : Embeddings) (out : list Document),
    get_embedding_func LLM_EMBEDDING_MODEL ollama_embed = Ok emb /\
    calculate_chunk_ids chunks = Ok out /\
    let existing_ids := existing_id_set db in
    let new_chunks := filter (is_new existing_ids) out in
    (forall c : Document, c ∈ out ->
       exists id : string, chunk_id_of c = PyStr id /\
         (c ∈ new_chunks <-> id ∉ existing_ids)) /\
    (forall id : string, id ∈ existing_ids ->
       find_entry id (store_after o) = find_entry id db) /\
    (forall c : Document, c ∈ new_chunks ->
       exists (c2 : Document) (e : Entry Float),
         c2 ∈ new_chunks /\ chunk_id_of c2 = chunk_id_of c /\
         entry_for (embed_query ollama_embed emb) c2 e /\
         find_entry (entry_id e) (store_after o) = Some e) /\
    (forall id : string,
       id ∈ existing_id_set (store_after o) <->
       id ∈ existing_ids \/ exists c : Document, c ∈ new_chunks /\ chunk_id_of c = PyStr id) /\
    (NoDup (map chunk_id_of new_chunks) ->
     length (store_after o) = (length db + length new_chunks)%nat) /\
    stdout o = [existing_line (size existing_ids);
                if decide (new_chunks = []) then nothing_new_line
                else adding_line (length new_chunks)] /\
    returned o = PyNone.
Proof.
  intros H.
  destruct (add_to_chroma_store _ _ _ H)
    as (emb & out & entries & Hemb & Hout & Hstore & HF & Hret & Hprint).
  exists emb, out. split; [exact Hemb|]. split; [exact Hout|]. cbv zeta.
  pose proof (calculate_has_ids _ _ Hout) as Hids. rewrite Forall_forall in Hids.
  split; [|split; [|split; [|split; [|split; [|split]]]]]; try done.
  - intros c Hc. destruct (has_text_id_item c (Hids c Hc)) as (id & _ & Hid).
    exists id. split; [done|].
    rewrite list_elem_of_filter, (is_new_text _ _ _ Hid). tauto.
  - intros id Hid. rewrite Hstore. apply find_entry_upsert_all_other.
    rewrite (entry_ids_of_new _ _ _ _ HF). intros (c & Hc & Hcid).
    apply list_elem_of_filter in Hc as [Hnew _].
    by apply (is_new_text _ _ _ Hcid) in Hnew.
  - intros c Hc.
    assert (Hc' := Hc). apply list_elem_of_filter in Hc' as [_ Hcout].
    destruct (has_text_id_item c (Hids c Hcout)) as (id & _ & Hid).
    assert (Hin : id ∈ map entry_id entries).
    { apply (entry_ids_of_new _ _ _ _ HF). eauto. }
    destruct (find_entry_upsert_all_in id entries db Hin) as (e & He & Heid & Hfind).
    apply list_elem_of_lookup in He as (i & He).
    destruct (Forall2_lookup_r _ _ _ _ _ HF He) as (c2 & Hc2 & Hfor).
    exists c2, e. split; [by eapply list_elem_of_lookup_2|].
    split; [|split; [done|]].
    + destruct Hfor as [-> _]. by rewrite Heid, Hid.
    + rewrite Hstore, Heid. exact Hfind.
  - intros id. rewrite Hstore, existing_id_set_upsert_all, elem_of_union.
    rewrite elem_of_list_to_set, (entry_ids_of_new _ _ _ _ HF). reflexivity.
  - intros Hnd. rewrite Hstore, (Forall2_length _ _ _ HF).
    apply upsert_all_length_fresh.
    + rewrite (entry_ids_map _ _ _ HF) in Hnd. by apply NoDup_fmap_1 in Hnd.
    + intros id Hid. apply (entry_ids_of_new _ _ _ _ HF) in Hid as (c & Hc & Hcid).
      apply list_elem_of_filter in Hc as [Hnew _].
      apply (is_new_text _ _ _ Hcid) in Hnew.
      unfold existing_id_set in Hnew. by rewrite elem_of_list_to_set in Hnew.
Qed.

(** C2. Once a call has ended normally, a second call with the same chunks,
    or with the list that the first call has written the ids into, finds no
    new chunk: it leaves the collection as it is and says so. A collection
    with one entry for each id keeps that. *)
Theorem add_to_chroma_idempotent (chunks : list Document) (db : VectorIndex Float)
    (o : outcome Float) :
  add_to_chroma LLM_EMBEDDING_MODEL ollama_embed chunks db = Ok o ->
  let second :=
    {| store_after := store_after o;
       stdout := [existing_line (size (existing_id_set (store_after o)));
                  nothing_new_line];
       returned := PyNone |} in
  add_to_chroma LLM_EMBEDDING_MODEL ollama_embed chunks (store_after o) = Ok second /\
  (forall out : list Document,
     calculate_chunk_ids chunks = Ok out ->
     add_to_chroma LLM_EMBEDDING_MODEL ollama_embed out (store_after o) = Ok second) /\
  (NoDup (store_ids db) -> NoDup (store_ids (store_after o))).
Proof.
  intros H second.
  destruct (add_to_chroma_store _ _ _ H)
    as (emb & out & entries & Hemb & Hout & Hstore & HF & _ & _).
  pose proof (calculate_has_ids _ _ Hout) as Hids. rewrite Forall_forall in Hids.
  assert (Hnone : filter (is_new (existing_id_set (store_after o))) out = []).
  { apply filter_none. apply Forall_forall. intros c Hc Hnew.
    destruct (has_text_id_item c (Hids c Hc)) as (id & _ & Hid).
    apply (is_new_text _ _ _ Hid) in Hnew. apply Hnew.
    rewrite Hstore, existing_id_set_upsert_all, elem_of_union, elem_of_list_to_set.
    destruct (decide (id ∈ existing_id_set db)) as [Hold|Hold]; [by left|right].
    apply (entry_ids_of_new _ _ _ _ HF). exists c. split; [|done].
    apply list_elem_of_filter. split; [|done]. by apply (is_new_text _ _ _ Hid). }
  assert (Hsecond : forall chunks' : list Document,
            calculate_chunk_ids chunks' = Ok out ->
            add_to_chroma LLM_EMBEDDING_MODEL ollama_embed chunks' (store_after o)
            = Ok second).
  { intros chunks' Hout'. apply add_to_chroma_Ok. exists emb, out.
    split; [exact Hemb|]. split; [exact Hout'|]. left. by split. }
  split; [by apply Hsecond|]. split.
  - intros out' Hout'. rewrite Hout in Hout'. injection Hout' as <-.
    apply Hsecond. by apply assign_from_rerun in Hout.
  - intros Hnd. rewrite Hstore. by apply upsert_all_NoDup.
Qed.

End Indexing.

(** C4 as written does not hold in its last point: the call that adds one
    entry to an empty collection returns [None], not the number 1; the
    number is printed. *)
Lemma add_to_chroma_returns_none :
  exists o : outcome Z,
    demo_add_to_chroma [sample_chunk "docA" 1 "alpha"] [] = Ok o /\
    store_ids (store_after o) = ["docA:1:0"] /\
    returned o = PyNone /\
    returned o <> PyInt 1 /\
    stdout o = [existing_line 0; adding_line 1].
Proof.
  eexists. split; [vm_compute; reflexivity|].
  repeat split; try (vm_compute; reflexivity). discriminate.
Qed.

Lemma add_to_chroma_idempotent_witness :
  exists o : outcome Z,
    demo_add_to_chroma sample_run [] = Ok o /\
    demo_add_to_chroma sample_run (store_after o)
    = Ok {| store_after := store_after o;
            stdout := [existing_line (size (existing_id_set (store_after o)));
                       nothing_new_line];
            returned := PyNone |} /\
    NoDup (store_ids (store_after o)).
Proof.
  assert (H : exists o, demo_add_to_chroma sample_run [] = Ok o)
    by (eexists; vm_compute; reflexivity).
  destruct H as [o H]. exists o. split; [exact H|].
  destruct (add_to_chroma_idempotent demo_model demo_embed sample_run [] o H)
    as (Hsecond & _ & Hnd).
  split; [exact Hsecond|]. apply Hnd. apply NoDup_nil_2.
Defined.

(** ** The prompt *)

Lemma app_empty_r (s : string) : s +:+ EmptyString = s.
Proof. induction s as [|a s IH]; [reflexivity|]. by rewrite app_String_l, IH. Qed.

Lemma str_join_cons (sep p : string) (rest : list string) :
  rest <> [] -> str_join sep (p :: rest) = p +:+ sep +:+ str_join sep rest.
Proof. destruct rest; [done | reflexivity]. Qed.

Lemma str_join_middle (sep p : string) (l1 l2 : list string) :
  str_join sep (l1 ++ p :: l2)
  = followed_by sep l1 +:+ p +:+
    match l2 with
    | [] => EmptyString
    | _ :: _ => sep +:+ str_join sep l2
    end.
Proof.
  induction l1 as [|a l1 IH].
  - simpl app. rewrite app_empty_l. destruct l2 as [|q l2].
    + simpl. by rewrite app_empty_r.
    + reflexivity.
  - rewrite <- app_comm_cons, str_join_cons by (by destruct l1).
    rewrite IH. simpl followed_by. by rewrite !app_assoc_str.
Qed.

Lemma render_lits_app (s : string) (rest : list piece) (kwargs : list (string * string)) :
  render (lits s ++ rest) kwargs
  = text ← render rest kwargs; mret (s +:+ text).
Proof.
  induction s as [|a s IH]; simpl.
  - by destruct (render rest kwargs).
  - rewrite IH. by destruct (render rest kwargs).
Qed.

Lemma parse_PROMPT_TEMPLATE :
  parse_template None PROMPT_TEMPLATE
  = Ok (lits prompt_head ++ Field "context"
          :: lits prompt_middle ++ Field "question" :: lits prompt_tail ++ []).
Proof. vm_compute. reflexivity. Qed.

(** The template renders for every context and question. *)
Lemma prompt_of_Ok (context_text query_text : string) :
  prompt_of context_text query_text
  = Ok ("Human: " +:+ prompt_head +:+ context_text +:+ prompt_middle
        +:+ query_text +:+ prompt_tail).
Proof.
  unfold prompt_of, chat_prompt_format. rewrite parse_PROMPT_TEMPLATE.
  change (Ok ?x ≫= ?f) with (f x). cbv beta.
  rewrite render_lits_app. cbn [render].
  change (kwarg _ "context") with (Ok (A:=string) context_text).
  change (Ok ?x ≫= ?f) with (f x). cbv beta.
  rewrite render_lits_app. cbn [render].
  change (kwarg _ "question") with (Ok (A:=string) query_text).
  change (Ok ?x ≫= ?f) with (f x). cbv beta.
  rewrite render_lits_app. cbn [render].
  reflexivity.
Qed.

(** ** Queries *)

Section Query.

Context {Float Score : Type}.
Variable LLM_EMBEDDING_MODEL : option string.
Variable ollama_embed : string -> string -> result (list Float).
Variable CHUNKS_TO_RETURN : Z.
Variable ollama_invoke : string -> result string.
Variable similarity_search_with_score :
  VectorIndex Float -> string -> Z -> result (list (Document * Score)).

Lemma query_rag_Ok (db : VectorIndex Float) (query_text : string) (o : outcome Float) :
  query_rag LLM_EMBEDDING_MODEL ollama_embed CHUNKS_TO_RETURN ollama_invoke
            similarity_search_with_score db query_text = Ok o <->
  exists (emb : Embeddings) (results : list (Document * Score)) (response_text : string),
    get_embedding_func LLM_EMBEDDING_MODEL ollama_embed = Ok emb /\
    similarity_search_with_score db query_text CHUNKS_TO_RETURN = Ok results /\
    ollama_invoke (prompt_text results query_text) = Ok response_text /\
    o = query_outcome db results response_text.
Proof.
  unfold query_rag.
  destruct (get_embedding_func _ _) as [emb|e];
    [rewrite bind_Ok_eq | split; [discriminate | intros (? & ? & ? & [=] & _)]].
  destruct (similarity_search_with_score db query_text CHUNKS_TO_RETURN)
    as [results|e];
    [rewrite bind_Ok_eq | split; [discriminate | intros (? & ? & ? & _ & [=] & _)]].
  rewrite prompt_of_Ok, bind_Ok_eq. fold (prompt_text results query_text).
  destruct (ollama_invoke (prompt_text results query_text)) as [response|e] eqn:Hinv.
  - rewrite bind_Ok_eq. split.
    + intros [= <-]. exists emb, results, response. by repeat split.
    + intros (? & ? & response' & [= <-] & [= <-] & Hr & ->).
      rewrite Hinv in Hr. by injection Hr as <-.
  - split; [discriminate|].
    intros (? & ? & ? & _ & [= <-] & Hr & _). rewrite Hinv in Hr. discriminate Hr.
Qed.

Lemma str_join_middle_more (sep p : string) (l1 l2 : list string) :
  l2 <> [] ->
  str_join sep (l1 ++ p :: l2)
  = followed_by sep l1 +:+ p +:+ sep +:+ str_join sep l2.
Proof. intros Hne. rewrite str_join_middle. by destruct l2. Qed.

(** C5. The context is the texts of the results joined with the separator
    in the order of the list: the text of a result stands before the text of
    every later result, with the texts of the results between them in
    between; for three results it is the first text, the second and the
    third. The prompt of a query is built around the context of the results
    as the search returned them. *)
Theorem context_keeps_retrieval_order :
  (forall (before between after : list (Document * Score)) (a b : Document * Score),
     context_of (before ++ a :: between ++ b :: after)
     = followed_by context_separator (result_texts before)
       +:+ page_content (fst a) +:+ context_separator
       +:+ followed_by context_separator (result_texts between)
       +:+ page_content (fst b)
       +:+ match after with
           | [] => EmptyString
           | _ :: _ => context_separator +:+ context_of after
           end) /\
  (forall a b c : Document * Score,
     context_of [a; b; c]
     = page_content (fst a) +:+ context_separator
       +:+ page_content (fst b) +:+ context_separator
       +:+ page_content (fst c)) /\
  (forall (db : VectorIndex Float) (query_text : string) (o : outcome Float),
     query_rag LLM_EMBEDDING_MODEL ollama_embed CHUNKS_TO_RETURN ollama_invoke
               similarity_search_with_score db query_text = Ok o ->
     exists (results : list (Document * Score)) (response_text : string),
       similarity_search_with_score db query_text CHUNKS_TO_RETURN = Ok results /\
       ollama_invoke ("Human: " +:+ prompt_head +:+ context_of results +:+ prompt_middle
                      +:+ query_text +:+ prompt_tail) = Ok response_text /\
       returned o = PyStr response_text).
Proof.
  split; [|split].
  - intros before between after a b. unfold context_of, result_texts.
    rewrite map_app, map_cons, map_app, map_cons.
    rewrite str_join_middle_more by (by destruct (map _ between)).
    rewrite str_join_middle. by destruct after.
  - intros a b c. reflexivity.
  - intros db query_text o H.
    apply query_rag_Ok in H as (emb & results & response & _ & Hs & Hinv & ->).
    exists results, response. by repeat split.
Qed.

(** C7, as the code has it. A query that ends normally returns the text of
    the generator and nothing else. The ids of the sources, one for each
    result in the order of the results and of the context, [None] for a
    result without an id, are printed after the answer. *)
Theorem query_rag_returns_text_and_prints_sources (db : VectorIndex Float)
    (query_text : string) (o : outcome Float) :
  query_rag LLM_EMBEDDING_MODEL ollama_embed CHUNKS_TO_RETURN ollama_invoke
            similarity_search_with_score db query_text = Ok o ->
  exists (results : list (Document * Score)) (response_text : string),
    similarity_search_with_score db query_text CHUNKS_TO_RETURN = Ok results /\
    ollama_invoke (prompt_text results query_text) = Ok response_text /\
    returned o = PyStr response_text /\
    stdout o = [ PrintText (newline +:+ esc +:+ "[92mResponse: " +:+ response_text
                            +:+ esc +:+ "[0m");
                 PrintList (newline +:+ esc +:+ "[93mSources: ")
                           (result_sources results) (esc +:+ "[0m") ] /\
    store_after o = db /\
    length (result_sources results) = length results /\
    (forall (i : nat) (r : Document * Score), results !! i = Some r ->
       result_sources results !! i = Some (dict_get (metadata (fst r)) "id") /\
       result_texts results !! i = Some (page_content (fst r))).
Proof.
  intros H. apply query_rag_Ok in H as (emb & results & response & _ & Hs & Hinv & ->).
  exists results, response. repeat split; try done.
  - unfold result_sources. by rewrite length_map.
  - unfold result_sources. by rewrite list_lookup_fmap, H.
  - unfold result_texts. by rewrite list_lookup_fmap, H.
Qed.

(** C8. When the search returns no result, the context is the empty text,
    the template renders with it, and the query ends normally with the
    answer of the generator, on the same path as any other query. *)
Theorem query_rag_empty_results (db : VectorIndex Float) (query_text : string)
    (emb : Embeddings) (response_text : string) :
  get_embedding_func LLM_EMBEDDING_MODEL ollama_embed = Ok emb ->
  similarity_search_with_score db query_text CHUNKS_TO_RETURN = Ok [] ->
  ollama_invoke ("Human: " +:+ prompt_head +:+ prompt_middle
                 +:+ query_text +:+ prompt_tail) = Ok response_text ->
  context_of ([] : list (Document * Score)) = EmptyString /\
  prompt_of EmptyString query_text
  = Ok ("Human: " +:+ prompt_head +:+ prompt_middle +:+ query_text +:+ prompt_tail) /\
  query_rag LLM_EMBEDDING_MODEL ollama_embed CHUNKS_TO_RETURN ollama_invoke
            similarity_search_with_score db query_text
  = Ok {| store_after := db;
          stdout := [ PrintText (newline +:+ esc +:+ "[92mResponse: " +:+ response_text
                                 +:+ esc +:+ "[0m");
                      PrintList (newline +:+ esc +:+ "[93mSources: ") []
                                (esc +:+ "[0m") ];
          returned := PyStr response_text |}.
Proof.
  intros Hemb Hs Hinv. split; [reflexivity|]. split.
  - rewrite prompt_of_Ok. reflexivity.
  - apply query_rag_Ok. exists emb, [], response_text. by repeat split.
Qed.

End Query.

Lemma context_keeps_retrieval_order_witness :
  exists o : outcome Z,
    query_rag demo_model demo_embed 5 echo_invoke demo_search demo_db_abc
              "What is a chunk?" = Ok o /\
    exists results : list (Document * Z),
      demo_search demo_db_abc "What is a chunk?" 5 = Ok results /\
      result_texts results = ["alpha"; "beta"; "gamma"] /\
      context_of results
      = "alpha" +:+ context_separator +:+ "beta" +:+ context_separator +:+ "gamma" /\
      returned o
      = PyStr ("Human: " +:+ prompt_head
               +:+ ("alpha" +:+ context_separator +:+ "beta" +:+ context_separator
                    +:+ "gamma")
               +:+ prompt_middle +:+ "What is a chunk?" +:+ prompt_tail).
Proof.
  assert (H : exists o, query_rag demo_model demo_embed 5 echo_invoke demo_search
                          demo_db_abc "What is a chunk?" = Ok o)
    by (eexists; vm_compute; reflexivity).
  destruct H as [o H]. exists o. split; [exact H|].
  destruct (context_keeps_retrieval_order (Score:=Z)
              demo_model demo_embed 5 echo_invoke demo_search)
    as (_ & Hthree & Hquery).
  destruct (Hquery demo_db_abc "What is a chunk?" o H)
    as (results & response & Hs & Hinv & Hr).
  exists results. split; [exact Hs|].
  injection Hs as <-. injection Hinv as <-.
  split; [reflexivity|].
  rewrite Hr, Hthree. split; reflexivity.
Defined.

Lemma query_rag_returns_text_and_prints_sources_witness :
  exists o : outcome Z,
    demo_query_rag demo_db_a "What is a chunk?" = Ok o /\
    returned o = PyStr "answer" /\
    stdout o !! 1%nat
    = Some (PrintList (newline +:+ esc +:+ "[93mSources: ") [PyStr "docA:1:0"]
                      (esc +:+ "[0m")).
Proof.
  assert (H : exists o, demo_query_rag demo_db_a "What is a chunk?" = Ok o)
    by (eexists; vm_compute; reflexivity).
  destruct H as [o H]. exists o. split; [exact H|].
  destruct (query_rag_returns_text_and_prints_sources
              demo_model demo_embed 5 demo_invoke demo_search
              demo_db_a "What is a chunk?" o H)
    as (results & response & Hs & Hinv & Hret & Hout & _).
  injection Hs as <-. injection Hinv as <-.
  split; [exact Hret|]. rewrite Hout. reflexivity.
Defined.

(** C7 as written does not hold: the value returned is the text of the
    answer alone. Two queries whose sources differ return the same value;
    the source ids are in the printed lines only. *)
Lemma query_rag_returns_text_only :
  exists oa ob : outcome Z,
    demo_query_rag demo_db_a "What is a chunk?" = Ok oa /\
    demo_query_rag demo_db_b "What is a chunk?" = Ok ob /\
    returned oa = PyStr "answer" /\
    returned ob = PyStr "answer" /\
    stdout oa !! 1%nat
    = Some (PrintList (newline +:+ esc +:+ "[93mSources: ") [PyStr "docA:1:0"]
                      (esc +:+ "[0m")) /\
    stdout ob !! 1%nat
    = Some (PrintList (newline +:+ esc +:+ "[93mSources: ") [PyStr "docB:1:0"]
                      (esc +:+ "[0m")).
Proof.
  eexists _, _. split; [vm_compute; reflexivity|]. split; [vm_compute; reflexivity|].
  repeat split; vm_compute; reflexivity.
Qed.

Lemma query_rag_empty_results_witness :
  get_embedding_func demo_model demo_embed = Ok {| model := "llama3.1:latest" |} /\
  demo_search [] "What is a chunk?" 5 = Ok [] /\
  demo_query_rag [] "What is a chunk?"
  = Ok {| store_after := [];
          stdout := [ PrintText (newline +:+ esc +:+ "[92mResponse: " +:+ "answer"
                                 +:+ esc +:+ "[0m");
                      PrintList (newline +:+ esc +:+ "[93mSources: ") []
                                (esc +:+ "[0m") ];
          returned := PyStr "answer" |}.
Proof.
  assert (Hemb : get_embedding_func demo_model demo_embed
                 = Ok {| model := "llama3.1:latest" |}) by (vm_compute; reflexivity).
  assert (Hs : demo_search [] "What is a chunk?" 5 = Ok []) by reflexivity.
  split; [exact Hemb|]. split; [exact Hs|].
  exact (proj2 (proj2 (query_rag_empty_results (Score:=Z)
                         demo_model demo_embed 5 demo_invoke demo_search
                         [] "What is a chunk?" _ "answer" Hemb Hs eq_refl))).
Defined.

(** * More of the id loop *)

Lemma bind_Raise_eq {A B} (e : py_error) (f : A -> result B) : Raise e ≫= f = Raise e.
Proof. reflexivity. Qed.

Lemma loop_body_eq (st : loop_state) (c : Document) :
  loop_body st c
  = pid ← page_id c;
    mret ({| last_page_id := Some pid; current_chunk_index := next_index st pid |},
          set_id c (format_chunk_id pid (next_index st pid))).
Proof. reflexivity. Qed.

(** The loop over a list in two parts. *)
Lemma assign_from_app_eq (st : loop_state) (l1 l2 : list Document) :
  assign_from st (l1 ++ l2)
  = out1 ← assign_from st l1;
    st1 ← state_after st l1;
    out2 ← assign_from st1 l2;
    mret (out1 ++ out2).
Proof.
  revert st. induction l1 as [|c l1 IH]; intros st.
  - simpl. by destruct (assign_from st l2).
  - simpl. destruct (loop_body st c) as [[st' c']|e]; [|reflexivity].
    rewrite !bind_Ok_eq. cbv beta iota. rewrite IH.
    destruct (assign_from st' l1) as [out1|e1]; [|reflexivity].
    rewrite !bind_Ok_eq.
    destruct (state_after st' l1) as [st1|e2]; [|reflexivity].
    rewrite !bind_Ok_eq.
    destruct (assign_from st1 l2) as [out2|e3]; reflexivity.
Qed.

Lemma state_after_succeeds (st : loop_state) (l out : list Document) :
  assign_from st l = Ok out -> exists st1, state_after st l = Ok st1.
Proof.
  revert st out. induction l as [|c l IH]; intros st out H.
  - by exists st.
  - apply assign_from_cons in H as (pid & rest' & Hp & Hr & _).
    simpl. rewrite loop_body_eq, Hp, !bind_Ok_eq. cbv beta iota. eauto.
Qed.

(** After a list that is not empty the loop remembers the page id of its
    last chunk. *)
Lemma state_after_last (st st1 : loop_state) (l : list Document) (b : Document) :
  state_after st l = Ok st1 -> last l = Some b ->
  exists pid, page_id b = Ok pid /\ last_page_id st1 = Some pid.
Proof.
  revert st. induction l as [|c l IH]; intros st H Hb; [discriminate|].
  simpl in H. rewrite loop_body_eq in H.
  destruct (page_id c) as [pid|e] eqn:Hp; [|discriminate].
  rewrite !bind_Ok_eq in H. cbv beta iota in H.
  destruct l as [|c2 l].
  - injection Hb as <-. injection H as <-. by exists pid.
  - apply (IH _ H). by rewrite last_cons_cons in Hb.
Qed.

(** A chunk of another page id than the one before starts as the first
    chunk of a run does. *)
Lemma assign_from_fresh (st : loop_state) (l : list Document) :
  (forall c pid, head l = Some c -> page_id c = Ok pid -> last_page_id st <> Some pid) ->
  assign_from st l = assign_from initial_state l.
Proof.
  destruct l as [|c l]; [reflexivity|]. intros Hfresh.
  simpl. rewrite !loop_body_eq.
  destruct (page_id c) as [pid|e] eqn:Hp; [|reflexivity].
  rewrite !bind_Ok_eq. cbv beta iota.
  assert (E : next_index st pid = next_index initial_state pid).
  { unfold next_index. rewrite !decide_False; [done|done|].
    intros E. by apply (Hfresh c pid eq_refl Hp). }
  by rewrite E.
Qed.

(** X3. Chunks that come later never change the ids of the chunks before
    them: the ids of a list followed by more chunks are the ids the list gets
    on its own, and a list that fails on its own fails in the same way with
    more chunks after it. *)
Theorem ids_of_prefix_are_stable (l1 l2 : list Document) :
  (forall out : list Document,
     calculate_chunk_ids (l1 ++ l2) = Ok out ->
     calculate_chunk_ids l1 = Ok (take (length l1) out)) /\
  (forall e : py_error,
     calculate_chunk_ids l1 = Raise e -> calculate_chunk_ids (l1 ++ l2) = Raise e).
Proof.
  unfold calculate_chunk_ids. rewrite assign_from_app_eq. split.
  - intros out H.
    destruct (assign_from initial_state l1) as [out1|e] eqn:H1; [|discriminate].
    rewrite bind_Ok_eq in H.
    destruct (state_after initial_state l1) as [st1|e]; [|discriminate].
    rewrite bind_Ok_eq in H.
    destruct (assign_from st1 l2) as [out2|e]; [|discriminate].
    injection H as <-.
    destruct (assign_from_indices _ _ _ H1) as (idxs & _ & HF).
    rewrite (Forall3_length_lr _ _ _ _ HF). by rewrite take_app_length.
  - intros e ->. reflexivity.
Qed.

Lemma ids_of_prefix_are_stable_witness :
  calculate_chunk_ids (take 2 sample_run ++ drop 2 sample_run) = Ok sample_out /\
  calculate_chunk_ids (take 2 sample_run) = Ok (take 2 sample_out) /\
  calculate_chunk_ids [short_path_chunk] = Raise IndexError /\
  calculate_chunk_ids ([short_path_chunk] ++ sample_run) = Raise IndexError.
Proof.
  assert (H : calculate_chunk_ids (take 2 sample_run ++ drop 2 sample_run)
              = Ok sample_out) by (vm_compute; reflexivity).
  assert (He : calculate_chunk_ids [short_path_chunk] = Raise IndexError)
    by (vm_compute; reflexivity).
  split; [exact H|]. split.
  - exact (proj1 (ids_of_prefix_are_stable (take 2 sample_run) (drop 2 sample_run))
             sample_out H).
  - split; [exact He|].
    exact (proj2 (ids_of_prefix_are_stable [short_path_chunk] sample_run) _ He).
Defined.

(** X4. The ids of a block of chunks do not depend on what comes before it,
    as long as the chunk before the block is of another page id: in a run
    over [l1 ++ l2] that ends normally, the chunks of [l2] get the ids they
    get in a run over [l2] alone. *)
Theorem ids_of_block_are_independent (l1 l2 out : list Document) :
  calculate_chunk_ids (l1 ++ l2) = Ok out ->
  (forall b c : Document, last l1 = Some b -> head l2 = Some c -> page_id b <> page_id c) ->
  calculate_chunk_ids l2 = Ok (drop (length l1) out).
Proof.
  unfold calculate_chunk_ids. rewrite assign_from_app_eq. intros H Hdiff.
  destruct (assign_from initial_state l1) as [out1|e] eqn:H1; [|discriminate].
  rewrite bind_Ok_eq in H.
  destruct (state_after initial_state l1) as [st1|e] eqn:Hst; [|discriminate].
  rewrite bind_Ok_eq in H.
  destruct (assign_from st1 l2) as [out2|e] eqn:H2; [|discriminate].
  injection H as <-.
  destruct (assign_from_indices _ _ _ H1) as (idxs & _ & HF).
  rewrite (Forall3_length_lr _ _ _ _ HF), drop_app_length.
  rewrite <- H2. symmetry. apply assign_from_fresh.
  intros c pid Hc Hp Hlast.
  destruct (last l1) as [b|] eqn:Hb.
  - destruct (state_after_last _ _ _ _ Hst Hb) as (pid' & Hp' & Hlast').
    apply (Hdiff b c eq_refl Hc). congruence.
  - apply last_None in Hb. subst l1. injection Hst as <-. discriminate Hlast.
Qed.

Lemma ids_of_block_are_independent_witness :
  calculate_chunk_ids (take 2 sample_run ++ drop 2 sample_run) = Ok sample_out /\
  calculate_chunk_ids (drop 2 sample_run) = Ok (drop 2 sample_out).
Proof.
  assert (H : calculate_chunk_ids (take 2 sample_run ++ drop 2 sample_run)
              = Ok sample_out) by (vm_compute; reflexivity).
  split; [exact H|].
  apply (ids_of_block_are_independent (take 2 sample_run) (drop 2 sample_run)
           sample_out H).
  intros b c Hb Hc. injection Hb as <-. injection Hc as <-.
  vm_compute. discriminate.
Defined.

(** X1. The loop writes the key [id] and nothing else: a run that ends
    normally keeps the number and the order of the chunks, the text of each
    chunk and every other metadata value, and leaves each chunk with a text
    under [id], whatever was there before. *)
Theorem calculate_chunk_ids_writes_only_id (chunks out : list Document) :
  calculate_chunk_ids chunks = Ok out ->
  length out = length chunks /\
  forall (i : nat) (c c' : Document),
    chunks !! i = Some c -> out !! i = Some c' ->
    page_content c' = page_content c /\
    (forall k : string, k <> "id" -> metadata c' !! k = metadata c !! k) /\
    exists s : string, metadata c' !! "id" = Some (PyStr s).
Proof.
  intros H. destruct (calculate_chunk_ids_lookup _ _ H) as (idxs & _ & Hlen & HF).
  split; [exact Hlen|]. intros i c c' Hc Hc'.
  destruct (Forall3_lookup_l _ _ _ _ _ _ HF Hc) as (n & c2 & _ & Hc2 & pid & _ & ->).
  rewrite Hc2 in Hc'. injection Hc' as <-.
  split; [reflexivity|]. split.
  - intros k Hk. unfold set_id. simpl. by rewrite lookup_insert_ne.
  - eexists. unfold set_id. simpl. apply lookup_insert_eq.
Qed.

Lemma calculate_chunk_ids_writes_only_id_witness :
  calculate_chunk_ids [titled_chunk] = Ok [set_id titled_chunk "docA:3:0"] /\
  page_content (set_id titled_chunk "docA:3:0") = "alpha" /\
  metadata (set_id titled_chunk "docA:3:0") !! "title" = Some (PyStr "Handbook") /\
  metadata (set_id titled_chunk "docA:3:0") !! "id" = Some (PyStr "docA:3:0").
Proof.
  assert (H : calculate_chunk_ids [titled_chunk] = Ok [set_id titled_chunk "docA:3:0"])
    by (vm_compute; reflexivity).
  split; [exact H|].
  destruct (proj2 (calculate_chunk_ids_writes_only_id _ _ H) 0%nat _ _ eq_refl eq_refl)
    as (Htext & Hother & _).
  split; [exact Htext|]. split.
  - rewrite (Hother "title"); [reflexivity | discriminate].
  - reflexivity.
Defined.

(** X2. The sequence index of a chunk is the number of chunks directly
    before it that have its page id: the index [n] of the chunk at position
    [i] is at most [i], the [n] chunks before it have the page id of the
    chunk, and the chunk before those, if there is one, has another. *)
Theorem sequence_index_counts_the_run (chunks : list Document) (idxs : list nat) :
  sequence_indices chunks = Ok idxs ->
  forall (i n : nat) (ci : Document),
    chunks !! i = Some ci -> idxs !! i = Some n ->
    (n <= i)%nat /\
    (forall (k : nat) (ck : Document),
       (i - n <= k <= i)%nat -> chunks !! k = Some ck -> page_id ck = page_id ci) /\
    (forall cb : Document,
       (n < i)%nat -> chunks !! (i - n - 1)%nat = Some cb -> page_id cb <> page_id ci).
Proof.
  intros H i. induction i as [|i IH]; intros n ci Hci Hn.
  - destruct (indices_from_head _ _ _ _ _ H Hci Hn) as (pid & _ & ->).
    change (next_index initial_state pid) with 0%nat.
    split; [lia|]. split; [|intros cb Hlt; lia].
    intros k ck Hk Hck. replace k with 0%nat in Hck by lia. congruence.
  - assert (is_Some (chunks !! i)) as [cp Hcp].
    { apply lookup_lt_is_Some. apply lookup_lt_Some in Hci. lia. }
    assert (is_Some (idxs !! i)) as [m Hm].
    { apply lookup_lt_is_Some. apply lookup_lt_Some in Hn. lia. }
    destruct (IH m cp Hcp Hm) as (Hle & Hrun & Hbefore).
    destruct (indices_from_step _ _ _ _ _ _ _ _ H Hcp Hci Hm Hn)
      as (pid & pid' & Hp & Hp' & ->).
    destruct (decide (pid' = pid)) as [->|Hne].
    + split; [lia|]. split.
      * intros k ck Hk Hck. destruct (decide (k = S i)) as [->|Hki]; [congruence|].
        rewrite Hp', <- Hp. apply (Hrun k ck); [lia | done].
      * intros cb Hlt Hcb. rewrite Hp', <- Hp.
        apply Hbefore; [lia|]. by replace (i - m - 1)%nat with (S i - S m - 1)%nat by lia.
    + split; [lia|]. split.
      * intros k ck Hk Hck. replace k with (S i) in Hck by lia. congruence.
      * intros cb _ Hcb. replace (S i - 0 - 1)%nat with i in Hcb by lia.
        rewrite Hcp in Hcb. injection Hcb as <-. congruence.
Qed.

Lemma sequence_index_counts_the_run_witness :
  sequence_indices adjacent_run = Ok [0; 1; 0; 0]%nat /\
  (1 <= 1)%nat /\
  page_id (sample_chunk "docA" 1 "alpha") = page_id (sample_chunk "docA" 1 "beta").
Proof.
  assert (H : sequence_indices adjacent_run = Ok [0; 1; 0; 0]%nat)
    by (vm_compute; reflexivity).
  split; [exact H|].
  destruct (sequence_index_counts_the_run adjacent_run _ H 1%nat 1%nat
              (sample_chunk "docA" 1 "beta") eq_refl eq_refl) as (Hle & Hrun & _).
  split; [exact Hle|].
  apply (Hrun 0%nat (sample_chunk "docA" 1 "alpha")); [simpl; lia | reflexivity].
Defined.

(** X5. The first chunk without a usable source decides how the run fails:
    when every chunk before it has a source with a label, the run raises the
    error of that chunk, an [AttributeError] when its source is not a text
    and an [IndexError] when the text has fewer than seven pieces, whatever
    comes after it. *)
Theorem first_bad_source_decides_the_error (good rest : list Document) (bad : Document)
    (e : py_error) :
  Forall source_has_label good ->
  id_source bad = Raise e ->
  calculate_chunk_ids (good ++ bad :: rest) = Raise e /\
  (e = IndexError <->
   exists src : string, dict_get (metadata bad) "source" = PyStr src) /\
  (e = AttributeError <->
   forall src : string, dict_get (metadata bad) "source" <> PyStr src).
Proof.
  intros Hgood Hbad. split.
  - unfold calculate_chunk_ids. rewrite assign_from_app_eq.
    assert (succeeds (assign_from initial_state good)) as [out1 H1].
    { apply assign_from_succeeds. eapply Forall_impl; [exact Hgood|].
      intros c. apply page_id_succeeds. }
    destruct (state_after_succeeds _ _ _ H1) as [st1 Hst].
    rewrite H1, bind_Ok_eq, Hst, bind_Ok_eq. simpl.
    rewrite loop_body_eq. unfold page_id. rewrite Hbad. reflexivity.
  - unfold id_source in Hbad.
    destruct (dict_get (metadata bad) "source") as [|z|src].
    + injection Hbad as <-. split; split; try done.
      * intros [src [=]].
    + injection Hbad as <-. split; split; try done.
      * intros [src [=]].
    + destruct (str_split backslash src !! 6%nat); [discriminate|].
      injection Hbad as <-. split; split; try done.
      * intros _. by exists src.
      * intros H. by destruct (H src).
Qed.

Lemma first_bad_source_decides_the_error_witness :
  Forall source_has_label [sample_chunk "docA" 1 "alpha"] /\
  id_source sourceless_chunk = Raise AttributeError /\
  calculate_chunk_ids ([sample_chunk "docA" 1 "alpha"]
                         ++ sourceless_chunk :: [short_path_chunk])
  = Raise AttributeError.
Proof.
  assert (Hgood : Forall source_has_label [sample_chunk "docA" 1 "alpha"]).
  { repeat constructor. eexists. split; [vm_compute; reflexivity | vm_compute; lia]. }
  assert (Hbad : id_source sourceless_chunk = Raise AttributeError)
    by (vm_compute; reflexivity).
  split; [exact Hgood|]. split; [exact Hbad|].
  exact (proj1 (first_bad_source_decides_the_error _ [short_path_chunk] _ _ Hgood Hbad)).
Defined.

(** ** The label of a path *)

Lemma str_split_free (sep : ascii) (s : string) :
  Forall (str_free sep) (str_split sep s).
Proof.
  induction s as [|a s IH]; simpl.
  - by repeat constructor.
  - case_decide as E; [by constructor|].
    destruct (str_split sep s) as [|piece pieces].
    + by repeat constructor.
    + apply Forall_cons in IH as [Hp Hps]. by repeat constructor.
Qed.

Lemma str_split_piece (sep : ascii) (p t : string) :
  str_free sep p -> str_split sep (p +:+ String sep t) = p :: str_split sep t.
Proof.
  induction p as [|a p IH]; intros Hp.
  - rewrite app_empty_l. simpl. by rewrite decide_True.
  - destruct Hp as [Ha Hp]. rewrite app_String_l. simpl.
    rewrite decide_False by done. by rewrite IH.
Qed.

Lemma str_split_one (sep : ascii) (p : string) :
  str_free sep p -> str_split sep p = [p].
Proof.
  induction p as [|a p IH]; intros Hp; [reflexivity|].
  destruct Hp as [Ha Hp]. simpl. rewrite decide_False by done. by rewrite IH.
Qed.

(** Splitting a path made of pieces gives the pieces back. *)
Lemma str_split_join (sep : ascii) (pieces : list string) :
  pieces <> [] -> Forall (str_free sep) pieces ->
  str_split sep (str_join (String sep EmptyString) pieces) = pieces.
Proof.
  intros Hne Hfree. induction Hfree as [|p rest Hp Hrest IH]; [done|].
  destruct rest as [|q rest].
  - simpl. by apply str_split_one.
  - rewrite str_join_cons by done.
    change (String sep EmptyString +:+ ?t) with (String sep t).
    rewrite str_split_piece by done. f_equal. by apply IH.
Qed.

(** X6. The label of an id never contains a backslash, and for a source that
    is a path of pieces joined with backslashes it is the piece at index 6,
    whatever follows it: the file name for a file six folders deep, the name
    of a folder on the way for a file that is deeper; a path of fewer than
    seven pieces has no label. *)
Theorem source_label_is_the_seventh_piece :
  (forall (c : Document) (label : string),
     id_source c = Ok label -> str_free backslash label) /\
  (forall (c : Document) (pieces : list string),
     pieces <> [] -> Forall (str_free backslash) pieces ->
     dict_get (metadata c) "source" = PyStr (win_path pieces) ->
     id_source c = match pieces !! 6%nat with
                   | Some piece => Ok piece
                   | None => Raise IndexError
                   end).
Proof.
  split.
  - intros c label. unfold id_source.
    destruct (dict_get (metadata c) "source") as [|z|src]; try discriminate.
    destruct (str_split backslash src !! 6%nat) as [piece|] eqn:E; [|discriminate].
    intros [= <-]. pose proof (str_split_free backslash src) as Hall.
    rewrite Forall_lookup in Hall. by apply (Hall 6%nat).
  - intros c pieces Hne Hfree Hsrc. unfold id_source. rewrite Hsrc.
    unfold win_path. cbv zeta. by rewrite str_split_join.
Qed.

Lemma source_label_is_the_seventh_piece_witness :
  id_source (chunk_at ["C:"; "Users"; "me"; "Documents"; "RAG"; "data"; "pdfs"; "a.pdf"]
                      1 "alpha") = Ok "pdfs" /\
  id_source (chunk_at ["C:"; "Users"; "me"; "Documents"; "RAG"; "data"; "pdfs"; "b.pdf"]
                      1 "beta") = Ok "pdfs" /\
  str_free backslash "pdfs".
Proof.
  assert (Hfree : forall name : string, str_free backslash name ->
            Forall (str_free backslash)
                   ["C:"; "Users"; "me"; "Documents"; "RAG"; "data"; "pdfs"; name]).
  { intros name Hname. repeat constructor; try discriminate. exact Hname. }
  assert (Ha : id_source (chunk_at ["C:"; "Users"; "me"; "Documents"; "RAG"; "data";
                                    "pdfs"; "a.pdf"] 1 "alpha") = Ok "pdfs").
  { apply (proj2 source_label_is_the_seventh_piece _
             ["C:"; "Users"; "me"; "Documents"; "RAG"; "data"; "pdfs"; "a.pdf"]);
      [discriminate | | reflexivity].
    apply Hfree. repeat constructor; discriminate. }
  split; [exact Ha|]. split.
  - apply (proj2 source_label_is_the_seventh_piece _
             ["C:"; "Users"; "me"; "Documents"; "RAG"; "data"; "pdfs"; "b.pdf"]);
      [discriminate | | reflexivity].
    apply Hfree. repeat constructor; discriminate.
  - exact (proj1 source_label_is_the_seventh_piece _ _ Ha).
Defined.

(** * The embedding self check *)

(** X7. [get_embedding_func] returns the embeddings of the configured model
    exactly when a model name is set, is not empty, and the test call for
    the text [test] gives a vector that is not empty; whatever else happens,
    the error that leaves it is a [RuntimeError]. *)
Theorem get_embedding_func_self_check {Float : Type}
    (LLM_EMBEDDING_MODEL : option string)
    (ollama_embed : string -> string -> result (list Float)) :
  (forall emb : Embeddings,
     get_embedding_func LLM_EMBEDDING_MODEL ollama_embed = Ok emb <->
     exists (name : string) (x : Float) (v : list Float),
       LLM_EMBEDDING_MODEL = Some name /\ name <> EmptyString /\
       ollama_embed name "test" = Ok (x :: v) /\ emb = {| model := name |}) /\
  (forall e : py_error,
     get_embedding_func LLM_EMBEDDING_MODEL ollama_embed = Raise e ->
     exists msg : string, e = RuntimeError msg).
Proof.
  unfold get_embedding_func, embedding_try, embed_query.
  destruct LLM_EMBEDDING_MODEL as [[|a name]|]; simpl.
  - split.
    + intros emb. split; [discriminate | intros (n & x & v & [= <-] & Hne & _); done].
    + intros e [= <-]. eauto.
  - destruct (ollama_embed (String a name) "test") as [[|x v]|e0] eqn:E; simpl.
    + split.
      * intros emb. split; [discriminate|].
        intros (n & x & v & [= <-] & _ & Hv & _). rewrite E in Hv. discriminate Hv.
      * intros e [= <-]. eauto.
    + split.
      * intros emb. split.
        -- intros [= <-]. exists (String a name), x, v. by repeat split.
        -- intros (n & x' & v' & [= <-] & _ & _ & ->). reflexivity.
      * discriminate.
    + split.
      * intros emb. split; [by destruct e0|].
        intros (n & x & v & [= <-] & _ & Hv & _). rewrite E in Hv. discriminate Hv.
      * intros e. destruct e0; intros [= <-]; eauto.
  - split.
    + intros emb. split; [discriminate | intros (n & x & v & [=] & _)].
    + intros e [= <-]. eauto.
Qed.

Lemma get_embedding_func_self_check_witness :
  get_embedding_func demo_model demo_embed = Ok {| model := "llama3.1:latest" |} /\
  (exists (name : string) (x : Z) (v : list Z),
     demo_model = Some name /\ name <> EmptyString /\
     demo_embed name "test" = Ok (x :: v) /\
     {| model := "llama3.1:latest" |} = {| model := name |}) /\
  get_embedding_func demo_model unreachable_embed
  = Raise (RuntimeError "Failed to connect to Ollama. Is the Ollama service running?") /\
  exists msg : string,
    RuntimeError "Failed to connect to Ollama. Is the Ollama service running?"
    = RuntimeError msg.
Proof.
  assert (H : get_embedding_func demo_model demo_embed
              = Ok {| model := "llama3.1:latest" |}) by (vm_compute; reflexivity).
  assert (He : get_embedding_func demo_model unreachable_embed
               = Raise (RuntimeError
                          "Failed to connect to Ollama. Is the Ollama service running?"))
    by (vm_compute; reflexivity).
  split; [exact H|]. split.
  - exact (proj1 (proj1 (get_embedding_func_self_check demo_model demo_embed) _) H).
  - split; [exact He|].
    exact (proj2 (get_embedding_func_self_check demo_model unreachable_embed) _ He).
Defined.

(** X8. What the caller is told when the self check fails. Without a model
    name, or with an empty one, the message is that the model is not set,
    and the embedding service is not called at all. A service that cannot be
    reached gives the message that asks whether Ollama is running. An empty
    test vector is reported as a failure to initialize. *)
Theorem get_embedding_func_messages {Float : Type}
    (LLM_EMBEDDING_MODEL : option string)
    (ollama_embed : string -> string -> result (list Float)) :
  (LLM_EMBEDDING_MODEL = None \/ LLM_EMBEDDING_MODEL = Some EmptyString ->
   get_embedding_func LLM_EMBEDDING_MODEL ollama_embed
   = Raise (RuntimeError ("Invalid model configuration: "
                          +:+ "LLM_EMBEDDING_MODEL not set in configuration.env"))) /\
  (forall name : string,
     LLM_EMBEDDING_MODEL = Some name -> name <> EmptyString ->
     (ollama_embed name "test" = Raise ConnectionError ->
      get_embedding_func LLM_EMBEDDING_MODEL ollama_embed
      = Raise (RuntimeError "Failed to connect to Ollama. Is the Ollama service running?")) /\
     (ollama_embed name "test" = Ok [] ->
      get_embedding_func LLM_EMBEDDING_MODEL ollama_embed
      = Raise (RuntimeError ("Failed to initialize embedding function: "
                             +:+ "Embedding function returned empty embedding"))) /\
     (forall msg : string,
        ollama_embed name "test" = Raise (ValueError msg) ->
        get_embedding_func LLM_EMBEDDING_MODEL ollama_embed
        = Raise (RuntimeError ("Invalid model configuration: " +:+ msg)))).
Proof.
  unfold get_embedding_func, embedding_try, embed_query. split.
  - intros [-> | ->]; reflexivity.
  - intros name -> Hne. destruct name as [|a name]; [done|]. simpl.
    split; [|split].
    + intros ->. reflexivity.
    + intros ->. reflexivity.
    + intros msg ->. reflexivity.
Qed.

Lemma get_embedding_func_messages_witness :
  get_embedding_func (Float:=Z) None demo_embed
  = Raise (RuntimeError ("Invalid model configuration: "
                         +:+ "LLM_EMBEDDING_MODEL not set in configuration.env")) /\
  get_embedding_func demo_model empty_embed
  = Raise (RuntimeError ("Failed to initialize embedding function: "
                         +:+ "Embedding function returned empty embedding")).
Proof.
  split.
  - apply (proj1 (get_embedding_func_messages None demo_embed)). by left.
  - apply (proj2 (get_embedding_func_messages demo_model empty_embed)
             "llama3.1:latest" eq_refl); [discriminate | reflexivity].
Defined.

(** * More of the indexing *)

Lemma get_embedding_func_ext {Float : Type} (LLM_EMBEDDING_MODEL : option string)
    (embed1 embed2 : string -> string -> result (list Float)) :
  (forall name, embed1 name "test" = embed2 name "test") ->
  get_embedding_func LLM_EMBEDDING_MODEL embed1
  = get_embedding_func LLM_EMBEDDING_MODEL embed2.
Proof.
  intros Htest. unfold get_embedding_func, embedding_try, embed_query.
  destruct LLM_EMBEDDING_MODEL as [[|a name]|]; simpl; try reflexivity.
  by rewrite Htest.
Qed.

Lemma embed_documents_ext {Float : Type}
    (embed1 embed2 : string -> string -> result (list Float))
    (emb : Embeddings) (texts : list string) :
  (forall t, t ∈ texts -> embed1 (model emb) t = embed2 (model emb) t) ->
  embed_documents embed1 emb texts = embed_documents embed2 emb texts.
Proof.
  induction texts as [|t rest IH]; intros Hsame; [reflexivity|].
  cbn [embed_documents]. unfold embed_query. rewrite (Hsame t) by left.
  rewrite IH; [reflexivity|]. intros t' Ht'. apply Hsame. by right.
Qed.

(** The body of [add_to_chroma] once the ids are there. *)
Lemma add_to_chroma_eq {Float : Type} (LLM_EMBEDDING_MODEL : option string)
    (ollama_embed : string -> string -> result (list Float))
    (chunks out : list Document) (db : VectorIndex Float) (emb : Embeddings) :
  get_embedding_func LLM_EMBEDDING_MODEL ollama_embed = Ok emb ->
  calculate_chunk_ids chunks = Ok out ->
  add_to_chroma LLM_EMBEDDING_MODEL ollama_embed chunks db
  = let new_chunks := filter (is_new (existing_id_set db)) out in
    if decide (new_chunks = []) then
      Ok {| store_after := db;
            stdout := [existing_line (size (existing_id_set db)); nothing_new_line];
            returned := PyNone |}
    else
      vectors ← embed_documents ollama_embed emb (map page_content new_chunks);
      entries ← batch_entries new_chunks (map chunk_id_of new_chunks) vectors;
      mret {| store_after := upsert_all db entries;
              stdout := [existing_line (size (existing_id_set db));
                         adding_line (length new_chunks)];
              returned := PyNone |}.
Proof.
  intros Hemb Hout. unfold add_to_chroma. rewrite Hemb, bind_Ok_eq, Hout, bind_Ok_eq.
  pose proof (calculate_has_ids _ _ Hout) as Hids.
  rewrite (select_new_filter _ _ Hids), bind_Ok_eq. cbv zeta.
  assert (Hnew : Forall has_text_id (filter (is_new (existing_id_set db)) out)).
  { apply Forall_forall. intros c Hc. apply list_elem_of_filter in Hc as [_ Hc].
    rewrite Forall_forall in Hids. by apply Hids. }
  destruct (filter (is_new (existing_id_set db)) out) as [|c rest] eqn:E.
  - reflexivity.
  - rewrite decide_True by done. rewrite decide_False by done.
    rewrite (chunk_ids_map _ Hnew), bind_Ok_eq. unfold add_documents.
    destruct (embed_documents _ _ _) as [vectors|e]; [|reflexivity].
    rewrite !bind_Ok_eq.
    destruct (batch_entries _ _ _) as [entries|e]; reflexivity.
Qed.

Lemma embed_documents_length {Float : Type}
    (ollama_embed : string -> string -> result (list Float))
    (emb : Embeddings) (texts : list string) (vectors : list (list Float)) :
  embed_documents ollama_embed emb texts = Ok vectors -> length vectors = length texts.
Proof.
  intros H. apply embed_documents_Ok in H. symmetry. by eapply Forall2_length.
Qed.

(** A batch of documents with text ids and one vector each is accepted. *)
Lemma batch_entries_succeeds {Float : Type} (docs : list Document)
    (vectors : list (list Float)) :
  Forall has_text_id docs -> length vectors = length docs ->
  succeeds (batch_entries docs (map chunk_id_of docs) vectors).
Proof.
  intros Hids. revert vectors. induction Hids as [|d docs Hd _ IH]; intros vectors Hlen.
  - destruct vectors; [by eexists | discriminate].
  - destruct vectors as [|v vectors]; [discriminate|].
    destruct (has_text_id_item d Hd) as (s & _ & Hid).
    destruct (IH vectors) as [rest Hrest]; [by injection Hlen|].
    simpl. rewrite Hid, Hrest. by eexists.
Qed.

(** The embedding service is asked for the test text of the self check and
    for the texts of the new chunks, and for nothing else. *)
Lemma add_to_chroma_asks_for_new_texts {Float : Type}
    (LLM_EMBEDDING_MODEL : option string)
    (embed1 embed2 : string -> string -> result (list Float))
    (chunks out : list Document) (db : VectorIndex Float) (emb : Embeddings) :
  get_embedding_func LLM_EMBEDDING_MODEL embed1 = Ok emb ->
  calculate_chunk_ids chunks = Ok out ->
  (forall name : string, embed1 name "test" = embed2 name "test") ->
  (forall (c : Document) (name : string),
     c ∈ filter (is_new (existing_id_set db)) out ->
     embed1 name (page_content c) = embed2 name (page_content c)) ->
  add_to_chroma LLM_EMBEDDING_MODEL embed2 chunks db
  = add_to_chroma LLM_EMBEDDING_MODEL embed1 chunks db.
Proof.
  intros Hemb Hout Htest Hnew.
  assert (Hemb2 : get_embedding_func LLM_EMBEDDING_MODEL embed2 = Ok emb).
  { rewrite <- Hemb. symmetry. by apply get_embedding_func_ext. }
  rewrite (add_to_chroma_eq _ _ _ _ _ _ Hemb Hout),
          (add_to_chroma_eq _ _ _ _ _ _ Hemb2 Hout). cbv zeta.
  case_decide; [reflexivity|].
  rewrite (embed_documents_ext embed1 embed2); [reflexivity|].
  intros t Ht. apply list_elem_of_fmap in Ht as (c & -> & Hc). by apply Hnew.
Qed.

(** C4, as the code has it. A call that ends normally has read the set of
    ids in the collection, split the chunks with ids into the new ones (id
    not in the set) and the rest, embedded and upserted the new ones only,
    so that every entry that was there is as before and every new id has the
    entry of a new chunk, printed the number of new chunks, and returned
    [None]. The skipped chunks are not embedded: an embedding service that
    answers the test call of the self check and the texts of the new chunks
    in the same way gives the same outcome, whatever it does with the texts
    of the skipped chunks. *)
Theorem add_to_chroma_adds_only_new {Float : Type}
    (LLM_EMBEDDING_MODEL : option string)
    (ollama_embed : string -> string -> result (list Float))
    (chunks : list Document) (db : VectorIndex Float) (o : outcome Float) :
  add_to_chroma LLM_EMBEDDING_MODEL ollama_embed chunks db = Ok o ->
  exists (emb : Embeddings) (out : list Document),
    get_embedding_func LLM_EMBEDDING_MODEL ollama_embed = Ok emb /\
    calculate_chunk_ids chunks = Ok out /\
    let existing_ids := existing_id_set db in
    let new_chunks := filter (is_new existing_ids) out in
    (forall c : Document, c ∈ out ->
       exists id : string, chunk_id_of c = PyStr id /\
         (c ∈ new_chunks <-> id ∉ existing_ids)) /\
    (forall id : string, id ∈ existing_ids ->
       find_entry id (store_after o) = find_entry id db) /\
    (forall c : Document, c ∈ new_chunks ->
       exists (c2 : Document) (e : Entry Float),
         c2 ∈ new_chunks /\ chunk_id_of c2 = chunk_id_of c /\
         entry_for (embed_query ollama_embed emb) c2 e /\
         find_entry (entry_id e) (store_after o) = Some e) /\
    (forall id : string,
       id ∈ existing_id_set (store_after o) <->
       id ∈ existing_ids \/ exists c : Document, c ∈ new_chunks /\ chunk_id_of c = PyStr id) /\
    (NoDup (map chunk_id_of new_chunks) ->
     length (store_after o) = (length db + length new_chunks)%nat) /\
    stdout o = [existing_line (size existing_ids);
                if decide (new_chunks = []) then nothing_new_line
                else adding_line (length new_chunks)] /\
    returned o = PyNone /\
    (forall embed2 : string -> string -> result (list Float),
       (forall name : string, ollama_embed name "test" = embed2 name "test") ->
       (forall (c : Document) (name : string), c ∈ new_chunks ->
          ollama_embed name (page_content c) = embed2 name (page_content c)) ->
       add_to_chroma LLM_EMBEDDING_MODEL embed2 chunks db = Ok o).
Proof.
  intros H.
  destruct (add_to_chroma_effects _ _ _ _ _ H)
    as (emb & out & Hemb & Hout & H1 & H2 & H3 & H4 & H5 & H6 & H7).
  exists emb, out. split; [exact Hemb|]. split; [exact Hout|]. cbv zeta.
  split; [exact H1|]. split; [exact H2|]. split; [exact H3|]. split; [exact H4|].
  split; [exact H5|]. split; [exact H6|]. split; [exact H7|].
  intros embed2 Htest Hnew. rewrite <- H.
  by apply (add_to_chroma_asks_for_new_texts _ _ _ _ out _ emb).
Qed.

Lemma add_to_chroma_adds_only_new_witness :
  picky_embed "llama3.1:latest" "changed"
  = Raise (OtherError "no embedding for this text") /\
  exists o : outcome Z,
    demo_add_to_chroma changed_run demo_db_a = Ok o /\
    returned o = PyNone /\
    stdout o = [existing_line 1; adding_line 1] /\
    entry_text <$> store_after o = ["alpha"; "gamma"] /\
    add_to_chroma demo_model picky_embed changed_run demo_db_a = Ok o.
Proof.
  split; [reflexivity|].
  assert (H : exists o, demo_add_to_chroma changed_run demo_db_a = Ok o)
    by (eexists; vm_compute; reflexivity).
  destruct H as [o H]. exists o. split; [exact H|].
  destruct (add_to_chroma_adds_only_new demo_model demo_embed changed_run demo_db_a o H)
    as (emb & out & _ & Hout & _ & _ & _ & _ & _ & _ & Hret & Hsame).
  split; [exact Hret|].
  split; [vm_compute in H; injection H as <-; reflexivity|].
  split; [vm_compute in H; injection H as <-; reflexivity|].
  apply Hsame.
  - intros name. reflexivity.
  - intros c name Hc.
    assert (Hout' : calculate_chunk_ids changed_run
                    = Ok [set_id (sample_chunk "docA" 1 "changed") "docA:1:0";
                          set_id (sample_chunk "docB" 1 "gamma") "docB:1:0"])
      by (vm_compute; reflexivity).
    rewrite Hout' in Hout. injection Hout as <-.
    apply list_elem_of_filter in Hc as [Hnew Hc].
    apply elem_of_cons in Hc as [->|Hc].
    + vm_compute in Hnew. discriminate Hnew.
    + apply list_elem_of_singleton in Hc as ->. reflexivity.
Defined.

(** X9. Chunks whose ids are in the collection are never embedded: the
    outcome of [add_to_chroma], the error included, depends on the embedding
    service only through the test call of the self check and the texts of
    the new chunks. *)
Theorem skipped_chunks_are_not_embedded {Float : Type}
    (LLM_EMBEDDING_MODEL : option string)
    (embed1 embed2 : string -> string -> result (list Float))
    (chunks : list Document) (db : VectorIndex Float) :
  (forall name : string, embed1 name "test" = embed2 name "test") ->
  (forall (out : list Document) (c : Document) (name : string),
     calculate_chunk_ids chunks = Ok out -> c ∈ out ->
     is_new (existing_id_set db) c ->
     embed1 name (page_content c) = embed2 name (page_content c)) ->
  add_to_chroma LLM_EMBEDDING_MODEL embed1 chunks db
  = add_to_chroma LLM_EMBEDDING_MODEL embed2 chunks db.
Proof.
  intros Htest Hnew.
  pose proof (get_embedding_func_ext LLM_EMBEDDING_MODEL _ _ Htest) as Hget.
  destruct (get_embedding_func LLM_EMBEDDING_MODEL embed2) as [emb|e] eqn:Hemb.
  - destruct (calculate_chunk_ids chunks) as [out|e] eqn:Hout.
    + rewrite (add_to_chroma_eq _ _ _ _ _ _ Hget Hout),
              (add_to_chroma_eq _ _ _ _ _ _ Hemb Hout). cbv zeta.
      case_decide; [reflexivity|].
      rewrite (embed_documents_ext embed1 embed2); [reflexivity|].
      intros t Ht. apply list_elem_of_fmap in Ht as (c & -> & Hc).
      apply list_elem_of_filter in Hc as [Hc_new Hc]. by apply (Hnew out).
    + unfold add_to_chroma. by rewrite Hget, Hemb, !bind_Ok_eq, Hout.
  - unfold add_to_chroma. by rewrite Hget, Hemb.
Qed.

Lemma skipped_chunks_are_not_embedded_witness :
  picky_embed "llama3.1:latest" "changed"
  = Raise (OtherError "no embedding for this text") /\
  add_to_chroma demo_model picky_embed changed_run demo_db_a
  = add_to_chroma demo_model demo_embed changed_run demo_db_a /\
  exists o : outcome Z,
    add_to_chroma demo_model picky_embed changed_run demo_db_a = Ok o /\
    store_ids (store_after o) = ["docA:1:0"; "docB:1:0"].
Proof.
  split; [reflexivity|].
  assert (H : add_to_chroma demo_model picky_embed changed_run demo_db_a
              = add_to_chroma demo_model demo_embed changed_run demo_db_a).
  { apply skipped_chunks_are_not_embedded.
    - intros name. reflexivity.
    - intros out c name Hout Hc Hnew.
      assert (Hout' : calculate_chunk_ids changed_run
                      = Ok [set_id (sample_chunk "docA" 1 "changed") "docA:1:0";
                            set_id (sample_chunk "docB" 1 "gamma") "docB:1:0"])
        by (vm_compute; reflexivity).
      rewrite Hout' in Hout. injection Hout as <-.
      apply elem_of_cons in Hc as [->|Hc].
      + vm_compute in Hnew. discriminate Hnew.
      + apply list_elem_of_singleton in Hc as ->. reflexivity. }
  split; [exact H|].
  eexists. split; [rewrite H; vm_compute; reflexivity|]. reflexivity.
Defined.

(** After a call that ended normally the collection knows the id of every
    chunk of the call. *)
Lemma known_after_indexing {Float : Type} (LLM_EMBEDDING_MODEL : option string)
    (ollama_embed : string -> string -> result (list Float))
    (chunks out : list Document) (db : VectorIndex Float) (o : outcome Float)
    (id : string) :
  add_to_chroma LLM_EMBEDDING_MODEL ollama_embed chunks db = Ok o ->
  calculate_chunk_ids chunks = Ok out ->
  PyStr id ∈ map chunk_id_of out ->
  id ∈ existing_id_set (store_after o).
Proof.
  intros H Hout Hid.
  destruct (add_to_chroma_store _ _ _ _ _ H)
    as (emb & out' & entries & _ & Hout' & Hstore & HF & _).
  rewrite Hout in Hout'. injection Hout' as <-.
  apply list_elem_of_fmap in Hid as (c & Hcid & Hc). symmetry in Hcid.
  rewrite Hstore, existing_id_set_upsert_all, elem_of_union, elem_of_list_to_set.
  destruct (decide (id ∈ existing_id_set db)) as [Hold|Hold]; [by left|right].
  apply (entry_ids_of_new _ _ _ _ HF). exists c. split; [|done].
  apply list_elem_of_filter. split; [|done]. by apply (is_new_text _ _ _ Hcid).
Qed.

(** X10. The check for new chunks looks at ids only. After a call that ended
    normally, a call with chunks of the same sources and pages in the same
    order adds nothing, whatever their texts are now: the collection is left
    as it is, with the entries of the first call. *)
Theorem changed_text_is_not_indexed_again {Float : Type}
    (LLM_EMBEDDING_MODEL : option string)
    (ollama_embed : string -> string -> result (list Float))
    (chunks chunks' : list Document) (db : VectorIndex Float) (o : outcome Float) :
  add_to_chroma LLM_EMBEDDING_MODEL ollama_embed chunks db = Ok o ->
  key_fields <$> chunks' = key_fields <$> chunks ->
  add_to_chroma LLM_EMBEDDING_MODEL ollama_embed chunks' (store_after o)
  = Ok {| store_after := store_after o;
          stdout := [existing_line (size (existing_id_set (store_after o)));
                     nothing_new_line];
          returned := PyNone |}.
Proof.
  intros H Hkeys.
  destruct (add_to_chroma_store _ _ _ _ _ H)
    as (emb & out & entries & Hemb & Hout & _).
  pose proof (assign_from_ids_congr initial_state _ _ Hkeys) as Hids.
  fold (calculate_chunk_ids chunks') in Hids. fold (calculate_chunk_ids chunks) in Hids.
  rewrite Hout, bind_Ok_eq in Hids.
  destruct (calculate_chunk_ids chunks') as [out'|e] eqn:Hout'; [|discriminate Hids].
  rewrite bind_Ok_eq in Hids. injection Hids as Hids.
  rewrite (add_to_chroma_eq _ _ _ _ _ _ Hemb Hout'). cbv zeta.
  rewrite decide_True; [reflexivity|].
  apply filter_none. apply Forall_forall. intros c' Hc' Hnew.
  pose proof (calculate_has_ids _ _ Hout') as Hhas. rewrite Forall_forall in Hhas.
  destruct (has_text_id_item c' (Hhas c' Hc')) as (id & _ & Hid).
  apply (is_new_text _ _ _ Hid) in Hnew. apply Hnew.
  apply (known_after_indexing _ _ _ _ _ _ _ H Hout).
  rewrite <- Hids, <- Hid. apply list_elem_of_fmap. by exists c'.
Qed.

Lemma changed_text_is_not_indexed_again_witness :
  exists o : outcome Z,
    demo_add_to_chroma [sample_chunk "docA" 1 "alpha"] [] = Ok o /\
    demo_add_to_chroma [sample_chunk "docA" 1 "changed"] (store_after o)
    = Ok {| store_after := store_after o;
            stdout := [existing_line (size (existing_id_set (store_after o)));
                       nothing_new_line];
            returned := PyNone |} /\
    entry_text <$> store_after o = ["alpha"].
Proof.
  assert (H : exists o, demo_add_to_chroma [sample_chunk "docA" 1 "alpha"] [] = Ok o)
    by (eexists; vm_compute; reflexivity).
  destruct H as [o H]. exists o. split; [exact H|]. split.
  - apply (changed_text_is_not_indexed_again demo_model demo_embed
             [sample_chunk "docA" 1 "alpha"] _ [] o H).
    vm_compute. reflexivity.
  - vm_compute in H. injection H as <-. reflexivity.
Defined.

(** X11. Failures of the steps of [add_to_chroma], in the order the call
    meets them; each reaches the caller as it is. The collection is one that
    opens and answers: failures of the store itself are not covered, and
    this is no list of all the ways the call can fail. A failure of the
    self check of the embeddings is the failure of the call, whatever the
    chunks are.
    With the self check passed, a failure of the id assignment is the
    failure of the call. With the ids assigned, a failure of the embedding
    of the texts of the new chunks is the failure of the call. *)
Theorem add_to_chroma_failures {Float : Type}
    (LLM_EMBEDDING_MODEL : option string)
    (ollama_embed : string -> string -> result (list Float))
    (chunks : list Document) (db : VectorIndex Float) (e : py_error) :
  (get_embedding_func LLM_EMBEDDING_MODEL ollama_embed = Raise e ->
   add_to_chroma LLM_EMBEDDING_MODEL ollama_embed chunks db = Raise e) /\
  (forall emb : Embeddings,
     get_embedding_func LLM_EMBEDDING_MODEL ollama_embed = Ok emb ->
     calculate_chunk_ids chunks = Raise e ->
     add_to_chroma LLM_EMBEDDING_MODEL ollama_embed chunks db = Raise e) /\
  (forall (emb : Embeddings) (out : list Document),
     get_embedding_func LLM_EMBEDDING_MODEL ollama_embed = Ok emb ->
     calculate_chunk_ids chunks = Ok out ->
     embed_documents ollama_embed emb
       (map page_content (filter (is_new (existing_id_set db)) out)) = Raise e ->
     add_to_chroma LLM_EMBEDDING_MODEL ollama_embed chunks db = Raise e).
Proof.
  split; [|split].
  - intros Hemb. unfold add_to_chroma. by rewrite Hemb, bind_Raise_eq.
  - intros emb Hemb Hout. unfold add_to_chroma.
    by rewrite Hemb, bind_Ok_eq, Hout, bind_Raise_eq.
  - intros emb out Hemb Hout Hv.
    rewrite (add_to_chroma_eq _ _ _ _ _ _ Hemb Hout). cbv zeta.
    destruct (filter (is_new (existing_id_set db)) out) as [|c rest] eqn:E.
    + discriminate Hv.
    + rewrite decide_False by done. by rewrite Hv, bind_Raise_eq.
Qed.

Lemma add_to_chroma_failures_witness :
  get_embedding_func demo_model picky_embed = Ok {| model := "llama3.1:latest" |} /\
  calculate_chunk_ids changed_run
  = Ok [set_id (sample_chunk "docA" 1 "changed") "docA:1:0";
        set_id (sample_chunk "docB" 1 "gamma") "docB:1:0"] /\
  add_to_chroma demo_model picky_embed changed_run []
  = Raise (OtherError "no embedding for this text") /\
  add_to_chroma demo_model unreachable_embed [short_path_chunk] demo_db_a
  = Raise (RuntimeError "Failed to connect to Ollama. Is the Ollama service running?") /\
  add_to_chroma demo_model demo_embed [short_path_chunk] demo_db_a = Raise IndexError.
Proof.
  assert (Hemb : get_embedding_func demo_model picky_embed
                 = Ok {| model := "llama3.1:latest" |}) by (vm_compute; reflexivity).
  assert (Hout : calculate_chunk_ids changed_run
                 = Ok [set_id (sample_chunk "docA" 1 "changed") "docA:1:0";
                       set_id (sample_chunk "docB" 1 "gamma") "docB:1:0"])
    by (vm_compute; reflexivity).
  split; [exact Hemb|]. split; [exact Hout|]. split; [|split].
  - apply (proj2 (proj2 (add_to_chroma_failures demo_model picky_embed changed_run [] _))
             _ _ Hemb Hout).
    vm_compute. reflexivity.
  - apply (proj1 (add_to_chroma_failures demo_model unreachable_embed
                    [short_path_chunk] demo_db_a _)).
    vm_compute. reflexivity.
  - apply (proj1 (proj2 (add_to_chroma_failures demo_model demo_embed
                           [short_path_chunk] demo_db_a _))
             {| model := "llama3.1:latest" |}).
    + vm_compute. reflexivity.
    + vm_compute. reflexivity.
Defined.

(** * More of the query *)

(** X12. Failures of the steps of [query_rag], in the order the call meets
    them; each reaches the caller as it is. The collection is one that
    opens: a failure to open it is not covered, and this is no list of all
    the ways the query can fail. A failure of the self check of
    the embeddings is the failure of the query, whatever the search and the
    generator would do. With the self check passed, a failure of the search
    is the failure of the query. With results found, the prompt is built
    without fail, for every list of results and every question, and a
    failure of the generator on this prompt is the failure of the query. *)
Theorem query_rag_failures {Float Score : Type}
    (LLM_EMBEDDING_MODEL : option string)
    (ollama_embed : string -> string -> result (list Float))
    (CHUNKS_TO_RETURN : Z)
    (ollama_invoke : string -> result string)
    (similarity_search_with_score :
       VectorIndex Float -> string -> Z -> result (list (Document * Score)))
    (db : VectorIndex Float) (query_text : string) (e : py_error) :
  (get_embedding_func LLM_EMBEDDING_MODEL ollama_embed = Raise e ->
   query_rag LLM_EMBEDDING_MODEL ollama_embed CHUNKS_TO_RETURN ollama_invoke
             similarity_search_with_score db query_text = Raise e) /\
  (forall emb : Embeddings,
     get_embedding_func LLM_EMBEDDING_MODEL ollama_embed = Ok emb ->
     similarity_search_with_score db query_text CHUNKS_TO_RETURN = Raise e ->
     query_rag LLM_EMBEDDING_MODEL ollama_embed CHUNKS_TO_RETURN ollama_invoke
               similarity_search_with_score db query_text = Raise e) /\
  (forall results : list (Document * Score),
     prompt_of (context_of results) query_text = Ok (prompt_text results query_text)) /\
  (forall (emb : Embeddings) (results : list (Document * Score)),
     get_embedding_func LLM_EMBEDDING_MODEL ollama_embed = Ok emb ->
     similarity_search_with_score db query_text CHUNKS_TO_RETURN = Ok results ->
     ollama_invoke (prompt_text results query_text) = Raise e ->
     query_rag LLM_EMBEDDING_MODEL ollama_embed CHUNKS_TO_RETURN ollama_invoke
               similarity_search_with_score db query_text = Raise e).
Proof.
  split; [|split; [|split]].
  - intros Hemb. unfold query_rag. by rewrite Hemb, bind_Raise_eq.
  - intros emb Hemb Hs. unfold query_rag.
    by rewrite Hemb, bind_Ok_eq, Hs, bind_Raise_eq.
  - intros results. apply prompt_of_Ok.
  - intros emb results Hemb Hs Hinv. unfold query_rag.
    rewrite Hemb, bind_Ok_eq, Hs, bind_Ok_eq, prompt_of_Ok, bind_Ok_eq.
    fold (prompt_text results query_text). by rewrite Hinv, bind_Raise_eq.
Qed.

Lemma query_rag_failures_witness :
  get_embedding_func (Float:=Z) None demo_embed
  = Raise (RuntimeError ("Invalid model configuration: "
                         +:+ "LLM_EMBEDDING_MODEL not set in configuration.env")) /\
  query_rag None demo_embed 5 demo_invoke demo_search demo_db_a "What is a chunk?"
  = Raise (RuntimeError ("Invalid model configuration: "
                         +:+ "LLM_EMBEDDING_MODEL not set in configuration.env")) /\
  query_rag demo_model demo_embed 5 (fun _ => Raise (OtherError "model not found"))
            demo_search demo_db_a "What is a chunk?"
  = Raise (OtherError "model not found").
Proof.
  assert (H : get_embedding_func (Float:=Z) None demo_embed
              = Raise (RuntimeError ("Invalid model configuration: "
                         +:+ "LLM_EMBEDDING_MODEL not set in configuration.env")))
    by reflexivity.
  split; [exact H|]. split.
  - apply (proj1 (query_rag_failures None demo_embed 5 demo_invoke demo_search
                    demo_db_a "What is a chunk?" _)).
    exact H.
  - apply (proj2 (proj2 (proj2 (query_rag_failures demo_model demo_embed 5
                    (fun _ => Raise (OtherError "model not found")) demo_search
                    demo_db_a "What is a chunk?" _)))
             {| model := "llama3.1:latest" |}
             [({| page_content := "alpha";
                  metadata := metadata (set_id (sample_chunk "docA" 1 "alpha")
                                               "docA:1:0") |}, 0)]).
    + vm_compute. reflexivity.
    + vm_compute. reflexivity.
    + reflexivity.
Defined.

(** X13. The prompt template of the query has the two fields [context] and
    [question] and nothing else to fill: with both given it renders for
    every context and every question, with the two texts put in as they
    are, and with one of them missing it fails with a [KeyError]. *)
Theorem prompt_template_takes_any_text (context_text query_text : string) :
  prompt_of context_text query_text
  = Ok ("Human: " +:+ prompt_head +:+ context_text +:+ prompt_middle
        +:+ query_text +:+ prompt_tail) /\
  chat_prompt_format PROMPT_TEMPLATE [("context", context_text)]
  = Raise (KeyError "question") /\
  chat_prompt_format PROMPT_TEMPLATE [("question", query_text)]
  = Raise (KeyError "context").
Proof.
  split; [apply prompt_of_Ok|].
  unfold chat_prompt_format. rewrite parse_PROMPT_TEMPLATE, bind_Ok_eq.
  rewrite !render_lits_app. cbn [render].
  change (kwarg [("context", context_text)] "context")
    with (Ok (A:=string) context_text).
  change (kwarg [("question", query_text)] "context")
    with (Raise (A:=string) (KeyError "context")).
  rewrite bind_Ok_eq, !render_lits_app. cbn [render].
  change (kwarg [("context", context_text)] "question")
    with (Raise (A:=string) (KeyError "question")).
  split; reflexivity.
Qed.

Example prompt_keeps_braces :
  prompt_of "{question}" "What is {context}?"
  = Ok ("Human: " +:+ prompt_head +:+ "{question}" +:+ prompt_middle
        +:+ "What is {context}?" +:+ prompt_tail).
Proof. vm_compute. reflexivity. Qed.

(** * The ingestion run *)

Lemma elem_of_upsert {Float : Type} (e' e : Entry Float) (db : VectorIndex Float) :
  e' ∈ upsert e db -> e' = e \/ e' ∈ db.
Proof.
  induction db as [|e0 rest IH]; simpl.
  - intros H. apply list_elem_of_singleton in H. by left.
  - case_decide; rewrite !elem_of_cons; [tauto|].
    intros [->|H']; [tauto|]. destruct (IH H'); tauto.
Qed.

Lemma elem_of_upsert_all {Float : Type} (e' : Entry Float)
    (entries : list (Entry Float)) (db : VectorIndex Float) :
  e' ∈ upsert_all db entries -> e' ∈ db \/ e' ∈ entries.
Proof.
  revert db. induction entries as [|e rest IH]; intros db H; [by left|].
  unfold upsert_all in H. simpl in H. apply IH in H as [H|H].
  - apply elem_of_upsert in H as [->|H]; [right; left | by left].
  - right. by right.
Qed.

Lemma filter_all {A : Type} (P : A -> Prop) `{!forall x, Decision (P x)} (l : list A) :
  Forall P l -> filter P l = l.
Proof.
  induction 1 as [|x l Hx _ IH]; [reflexivity|].
  rewrite filter_cons, decide_True by done. by rewrite IH.
Qed.

(** X16. A run of [main] with [--reset] that ends normally leaves a
    collection made from the documents of this run alone, whatever was
    persisted before: its ids are the ids of the chunks of the run, every
    entry holds the text, the metadata and the vector of one of these
    chunks, and no id has two entries. A run without [--reset] leaves every
    entry that was persisted as it was. *)
Theorem main_reset_rebuilds_the_collection {Float : Type}
    (LLM_EMBEDDING_MODEL : option string)
    (ollama_embed : string -> string -> result (list Float))
    (load_pdfs : result (list Document))
    (split_text : list Document -> result (list Document)) :
  (forall (disk : option (VectorIndex Float)) (o : outcome Float),
     main LLM_EMBEDDING_MODEL ollama_embed load_pdfs split_text true disk = Ok o ->
     exists (documents chunks out : list Document) (emb : Embeddings),
       load_pdfs = Ok documents /\ split_text documents = Ok chunks /\
       get_embedding_func LLM_EMBEDDING_MODEL ollama_embed = Ok emb /\
       calculate_chunk_ids chunks = Ok out /\
       (forall id : string,
          id ∈ existing_id_set (store_after o) <-> PyStr id ∈ map chunk_id_of out) /\
       (forall e : Entry Float, e ∈ store_after o ->
          exists c : Document,
            c ∈ out /\ entry_for (embed_query ollama_embed emb) c e) /\
       NoDup (store_ids (store_after o))) /\
  (forall (db : VectorIndex Float) (o : outcome Float) (id : string),
     main LLM_EMBEDDING_MODEL ollama_embed load_pdfs split_text false (Some db) = Ok o ->
     id ∈ existing_id_set db ->
     find_entry id (store_after o) = find_entry id db).
Proof.
  split.
  - intros disk o H. unfold main, load_documents, split_documents in H.
    assert (Hopen : open_collection (clear_database disk) = []) by (by destruct disk).
    rewrite Hopen in H.
    apply bind_Ok in H as (documents & Hload & H).
    apply bind_Ok in H as (chunks & Hsplit & H).
    apply bind_Ok in H as (o' & Hadd & [= <-]). simpl.
    destruct (add_to_chroma_store _ _ _ _ _ Hadd)
      as (emb & out & entries & Hemb & Hout & Hstore & HF & _).
    pose proof (calculate_has_ids _ _ Hout) as Hids.
    assert (Hall : filter (is_new (existing_id_set (Float:=Float) [])) out = out).
    { apply filter_all. eapply Forall_impl; [exact Hids|]. intros c Hc.
      destruct (has_text_id_item c Hc) as (id & _ & Hid).
      apply (is_new_text _ _ _ Hid). apply not_elem_of_empty. }
    rewrite Hall in HF.
    exists documents, chunks, out, emb. repeat split; try done.
    + rewrite Hstore, existing_id_set_upsert_all, elem_of_union, elem_of_list_to_set.
      intros [Hin|Hin]; [by apply elem_of_empty in Hin|].
      apply (entry_ids_of_new _ _ _ _ HF) in Hin as (c & Hc & Hid).
      rewrite <- Hid. apply list_elem_of_fmap. by exists c.
    + intros Hin. apply list_elem_of_fmap in Hin as (c & Hid & Hc).
      rewrite Hstore, existing_id_set_upsert_all, elem_of_union, elem_of_list_to_set.
      right. apply (entry_ids_of_new _ _ _ _ HF). by exists c.
    + intros e He. rewrite Hstore in He.
      apply elem_of_upsert_all in He as [He|He]; [by apply elem_of_nil in He|].
      apply list_elem_of_lookup in He as (i & He).
      destruct (Forall2_lookup_r _ _ _ _ _ HF He) as (c & Hc & Hfor).
      exists c. split; [by eapply list_elem_of_lookup_2 | done].
    + rewrite Hstore. apply upsert_all_NoDup. apply NoDup_nil_2.
  - intros db o id H Hid. unfold main, load_documents, split_documents in H.
    apply bind_Ok in H as (documents & Hload & H).
    apply bind_Ok in H as (chunks & Hsplit & H).
    apply bind_Ok in H as (o' & Hadd & [= <-]). simpl in *.
    destruct (add_to_chroma_store _ _ _ _ _ Hadd)
      as (emb & out & entries & _ & _ & Hstore & HF & _).
    rewrite Hstore. apply find_entry_upsert_all_other.
    rewrite (entry_ids_of_new _ _ _ _ HF). intros (c & Hc & Hcid).
    apply list_elem_of_filter in Hc as [Hnew _].
    by apply (is_new_text _ _ _ Hcid) in Hnew.
Qed.

Lemma main_reset_rebuilds_the_collection_witness :
  (exists o : outcome Z,
     main demo_model demo_embed (Ok []) (fun _ => Ok adjacent_run) true (Some demo_db_b)
     = Ok o /\
     store_ids (store_after o) = ["docA:1:0"; "docA:1:1"; "docB:1:0"; "docB:2:0"] /\
     entry_text <$> store_after o = ["alpha"; "beta"; "gamma"; "delta"] /\
     NoDup (store_ids (store_after o))) /\
  (exists o : outcome Z,
     main demo_model demo_embed (Ok []) (fun _ => Ok adjacent_run) false (Some demo_db_b)
     = Ok o /\
     find_entry "docB:1:0" (store_after o) = find_entry "docB:1:0" demo_db_b /\
     store_ids (store_after o) = ["docB:1:0"; "docA:1:0"; "docA:1:1"; "docB:2:0"] /\
     entry_text <$> store_after o = ["alpha"; "alpha"; "beta"; "delta"]).
Proof.
  split.
  - assert (H : exists o, main demo_model demo_embed (Ok []) (fun _ => Ok adjacent_run)
                               true (Some demo_db_b) = Ok o)
      by (eexists; vm_compute; reflexivity).
    destruct H as [o H]. exists o. split; [exact H|].
    destruct (proj1 (main_reset_rebuilds_the_collection demo_model demo_embed (Ok [])
                       (fun _ => Ok adjacent_run)) (Some demo_db_b) o H)
      as (documents & chunks & out & emb & _ & _ & _ & _ & _ & _ & Hnd).
    vm_compute in H. injection H as <-.
    split; [reflexivity|]. split; [reflexivity | exact Hnd].
  - assert (H : exists o, main demo_model demo_embed (Ok []) (fun _ => Ok adjacent_run)
                               false (Some demo_db_b) = Ok o)
      by (eexists; vm_compute; reflexivity).
    destruct H as [o H]. exists o. split; [exact H|]. split.
    + apply (proj2 (main_reset_rebuilds_the_collection demo_model demo_embed (Ok [])
                      (fun _ => Ok adjacent_run)) demo_db_b o "docB:1:0" H).
      unfold existing_id_set. apply elem_of_list_to_set. simpl. left.
    + vm_compute in H. injection H as <-. split; reflexivity.
Defined.

(** ** Old entries stay in front *)

Lemma upsert_app_fresh {Float : Type} (e : Entry Float) (db0 l : VectorIndex Float) :
  entry_id e ∉ store_ids db0 -> upsert e (db0 ++ l) = db0 ++ upsert e l.
Proof.
  induction db0 as [|e0 db0 IH]; intros Hfresh; [reflexivity|].
  simpl in Hfresh. apply not_elem_of_cons in Hfresh as [Hne Hfresh].
  simpl. rewrite decide_False by congruence. by rewrite IH.
Qed.

Lemma upsert_all_app_fresh {Float : Type} (entries : list (Entry Float))
    (db0 l : VectorIndex Float) :
  (forall id, id ∈ map entry_id entries -> id ∉ store_ids db0) ->
  upsert_all (db0 ++ l) entries = db0 ++ upsert_all l entries.
Proof.
  revert l. induction entries as [|e rest IH]; intros l Hfresh; [reflexivity|].
  unfold upsert_all in *. simpl.
  rewrite upsert_app_fresh by (apply Hfresh; left).
  apply IH. intros id Hid. apply Hfresh. by right.
Qed.

Lemma upsert_all_length_le {Float : Type} (entries : list (Entry Float))
    (l : VectorIndex Float) :
  (length (upsert_all l entries) <= length l + length entries)%nat.
Proof.
  revert l. induction entries as [|e rest IH]; intros l; [simpl; lia|].
  unfold upsert_all in *. simpl. specialize (IH (upsert e l)).
  rewrite upsert_length in IH. case_decide; lia.
Qed.

(** X17. [add_to_chroma] only adds at the end of the collection: after a
    call that ended normally the collection is the one before, entry for
    entry, followed by entries under ids that were not there, and these are
    at most as many as the number of new chunks that the call prints. *)
Theorem add_to_chroma_only_appends {Float : Type}
    (LLM_EMBEDDING_MODEL : option string)
    (ollama_embed : string -> string -> result (list Float))
    (chunks : list Document) (db : VectorIndex Float) (o : outcome Float) :
  add_to_chroma LLM_EMBEDDING_MODEL ollama_embed chunks db = Ok o ->
  exists (out : list Document) (added : list (Entry Float)),
    calculate_chunk_ids chunks = Ok out /\
    store_after o = db ++ added /\
    (length added <= length (filter (is_new (existing_id_set db)) out))%nat /\
    (forall e : Entry Float, e ∈ added -> entry_id e ∉ existing_id_set db).
Proof.
  intros H.
  destruct (add_to_chroma_store _ _ _ _ _ H)
    as (emb & out & entries & _ & Hout & Hstore & HF & _).
  assert (Hfresh : forall id, id ∈ map entry_id entries -> id ∉ existing_id_set db).
  { intros id Hid. apply (entry_ids_of_new _ _ _ _ HF) in Hid as (c & Hc & Hcid).
    apply list_elem_of_filter in Hc as [Hnew _]. by apply (is_new_text _ _ _ Hcid). }
  exists out, (upsert_all [] entries). split; [exact Hout|]. split; [|split].
  - rewrite Hstore. rewrite <- (app_nil_r db) at 1.
    apply upsert_all_app_fresh. intros id Hid Hin.
    apply (Hfresh id Hid). unfold existing_id_set. by rewrite elem_of_list_to_set.
  - rewrite (Forall2_length _ _ _ HF).
    pose proof (upsert_all_length_le entries []) as Hle. simpl in Hle. exact Hle.
  - intros e He. apply elem_of_upsert_all in He as [He|He];
      [by apply elem_of_nil in He|].
    apply Hfresh. apply list_elem_of_fmap. by exists e.
Qed.

Lemma add_to_chroma_only_appends_witness :
  exists o : outcome Z,
    demo_add_to_chroma changed_run demo_db_a = Ok o /\
    exists added : list (Entry Z),
      store_after o = demo_db_a ++ added /\ (length added <= 1)%nat.
Proof.
  assert (H : exists o, demo_add_to_chroma changed_run demo_db_a = Ok o)
    by (eexists; vm_compute; reflexivity).
  destruct H as [o H]. exists o. split; [exact H|].
  destruct (add_to_chroma_only_appends demo_model demo_embed changed_run demo_db_a o H)
    as (out & added & Hout & Hstore & Hlen & _).
  exists added. split; [exact Hstore|].
  assert (Hout' : calculate_chunk_ids changed_run
                  = Ok [set_id (sample_chunk "docA" 1 "changed") "docA:1:0";
                        set_id (sample_chunk "docB" 1 "gamma") "docB:1:0"])
    by (vm_compute; reflexivity).
  rewrite Hout' in Hout. injection Hout as <-. exact Hlen.
Defined.

(** * The chat *)

Lemma answers_follow_questions_snoc (messages : list message) (m : message) :
  answers_follow_questions messages ->
  (role m = "assistant" ->
   exists q : message, last messages = Some q /\ role q = "user") ->
  answers_follow_questions (messages ++ [m]).
Proof.
  intros Hinv Hm i m' Hi Hrole.
  destruct (decide (i < length messages)%nat) as [Hlt|Hge].
  - rewrite lookup_app_l in Hi by done.
    destruct (Hinv i m' Hi Hrole) as (j & q & -> & Hq & Hrq).
    exists j, q. split; [done|]. split; [|done]. by apply lookup_app_l_Some.
  - assert (i = length messages) as ->.
    { apply lookup_lt_Some in Hi. rewrite length_app in Hi. simpl in Hi. lia. }
    rewrite list_lookup_middle in Hi by done. injection Hi as <-.
    destruct (Hm Hrole) as (q & Hlast & Hrq).
    rewrite last_lookup in Hlast.
    destruct (length messages) as [|n] eqn:Hlen.
    + destruct messages; [discriminate Hlast | discriminate Hlen].
    + exists n, q. split; [done|]. split; [|done].
      apply lookup_app_l_Some. exact Hlast.
Qed.

(** X14. A turn of the chat only adds to the end of the history, and keeps
    every answer directly after a question. Without an input the history
    stays as it is. A question whose query ended normally is added with the
    returned text as its answer, and the page is run again. A question whose
    query failed is added alone and stays without an answer: the error is
    shown in a box, it is no message of the history, and the page is not run
    again. So in every history that a row of turns builds from the empty one
    every answer stands directly after a question. *)
Theorem chat_keeps_answers_after_questions {Float Score : Type}
    (LLM_EMBEDDING_MODEL : option string)
    (ollama_embed : string -> string -> result (list Float))
    (CHUNKS_TO_RETURN : Z)
    (ollama_invoke : string -> result string)
    (similarity_search_with_score :
       VectorIndex Float -> string -> Z -> result (list (Document * Score)))
    (db : VectorIndex Float) :
  (forall (messages : list message) (prompt : option string),
     let t := chat_turn LLM_EMBEDDING_MODEL ollama_embed CHUNKS_TO_RETURN
                        ollama_invoke similarity_search_with_score db
                        messages prompt in
     (answers_follow_questions messages -> answers_follow_questions (history t)) /\
     (exists added : list message,
        history t = messages ++ added /\ (length added <= 2)%nat) /\
     (prompt = None \/ prompt = Some EmptyString ->
      history t = messages /\ boxes t = [] /\ rerun t = false) /\
     (forall (text : string) (o : outcome Float),
        prompt = Some text -> text <> EmptyString ->
        query_rag LLM_EMBEDDING_MODEL ollama_embed CHUNKS_TO_RETURN ollama_invoke
                  similarity_search_with_score db text = Ok o ->
        history t = messages ++ [user_message text; assistant_message (returned o)] /\
        boxes t = [] /\ rerun t = true) /\
     (forall (text : string) (e : py_error),
        prompt = Some text -> text <> EmptyString ->
        query_rag LLM_EMBEDDING_MODEL ollama_embed CHUNKS_TO_RETURN ollama_invoke
                  similarity_search_with_score db text = Raise e ->
        history t = messages ++ [user_message text] /\
        last (history t) = Some (user_message text) /\
        boxes t !! 0%nat = Some (ErrorBox ("An error occurred: " +:+ error_text e)) /\
        rerun t = false)) /\
  (forall prompts : list (option string),
     answers_follow_questions
       (chat_session LLM_EMBEDDING_MODEL ollama_embed CHUNKS_TO_RETURN
                     ollama_invoke similarity_search_with_score db prompts)).
Proof.
  assert (Hturn : forall messages prompt,
            answers_follow_questions messages ->
            answers_follow_questions
              (history (chat_turn LLM_EMBEDDING_MODEL ollama_embed CHUNKS_TO_RETURN
                                  ollama_invoke similarity_search_with_score db
                                  messages prompt))).
  { intros messages prompt Hinv. unfold chat_turn.
    destruct prompt as [[|a text]|]; [done| |done].
    assert (Huser : answers_follow_questions
                      (messages ++ [user_message (String a text)])).
    { apply answers_follow_questions_snoc; [done|]. intros Hr. discriminate Hr. }
    destruct (query_rag _ _ _ _ _ _ _) as [o|e]; simpl; [|done].
    apply answers_follow_questions_snoc; [done|]. intros _.
    exists (user_message (String a text)). split; [|done]. apply last_snoc. }
  split.
  - intros messages prompt. cbv zeta.
    split; [apply Hturn|]. split; [|split; [|split]].
    + unfold chat_turn. destruct prompt as [[|a text]|].
      * exists []. split; [by rewrite app_nil_r | simpl; lia].
      * destruct (query_rag _ _ _ _ _ _ _) as [o|e]; simpl.
        -- exists [user_message (String a text); assistant_message (returned o)].
           split; [by rewrite <- app_assoc | simpl; lia].
        -- exists [user_message (String a text)]. split; [done | simpl; lia].
      * exists []. split; [by rewrite app_nil_r | simpl; lia].
    + intros [->| ->]; done.
    + intros text o -> Hne Hq. destruct text as [|a text]; [done|].
      unfold chat_turn. rewrite Hq. simpl. by rewrite <- app_assoc.
    + intros text e -> Hne Hq. destruct text as [|a text]; [done|].
      unfold chat_turn. rewrite Hq. simpl. split; [done|]. split; [|done].
      apply last_snoc.
  - intros prompts. unfold chat_session.
    assert (Hempty : answers_follow_questions []) by (intros i m Hi; discriminate Hi).
    revert Hempty. generalize (@nil message).
    induction prompts as [|p rest IH]; intros messages Hinv; [done|].
    simpl. apply IH. by apply Hturn.
Qed.

Lemma chat_keeps_answers_after_questions_witness :
  answers_follow_questions [user_message "Hello?"] /\
  answers_follow_questions
    (history (chat_turn demo_model demo_embed 5 demo_invoke demo_search demo_db_a
                        [user_message "Hello?"] (Some "What is a chunk?"))) /\
  history (chat_turn demo_model demo_embed 5 demo_invoke demo_search demo_db_a
                     [user_message "Hello?"] (Some "What is a chunk?"))
  = [user_message "Hello?"; user_message "What is a chunk?";
     assistant_message (PyStr "answer")] /\
  history (chat_turn demo_model unreachable_embed 5 demo_invoke demo_search demo_db_a
                     [user_message "Hello?"] (Some "What is a chunk?"))
  = [user_message "Hello?"; user_message "What is a chunk?"] /\
  boxes (chat_turn demo_model unreachable_embed 5 demo_invoke demo_search demo_db_a
                   [user_message "Hello?"] (Some "What is a chunk?")) !! 0%nat
  = Some (ErrorBox ("An error occurred: "
                    +:+ "Failed to connect to Ollama. Is the Ollama service running?")).
Proof.
  assert (H : answers_follow_questions [user_message "Hello?"]).
  { intros i m Hi Hr. destruct i as [|i]; [|discriminate Hi].
    injection Hi as <-. discriminate Hr. }
  split; [exact H|].
  destruct (proj1 (chat_keeps_answers_after_questions demo_model demo_embed 5
                     demo_invoke demo_search demo_db_a)
              [user_message "Hello?"] (Some "What is a chunk?"))
    as (Hinv & _ & _ & Hok & _).
  destruct (proj1 (chat_keeps_answers_after_questions demo_model unreachable_embed 5
                     demo_invoke demo_search demo_db_a)
              [user_message "Hello?"] (Some "What is a chunk?"))
    as (_ & _ & _ & _ & Hfail).
  split; [exact (Hinv H)|]. split.
  - assert (Hq : exists o, query_rag demo_model demo_embed 5 demo_invoke demo_search
                             demo_db_a "What is a chunk?" = Ok o)
      by (eexists; vm_compute; reflexivity).
    destruct Hq as [o Hq].
    destruct (Hok "What is a chunk?" o eq_refl ltac:(discriminate) Hq) as [Hh _].
    rewrite Hh. vm_compute in Hq. injection Hq as <-. reflexivity.
  - destruct (Hfail "What is a chunk?"
                (RuntimeError "Failed to connect to Ollama. Is the Ollama service running?")
                eq_refl ltac:(discriminate) ltac:(vm_compute; reflexivity))
      as (Hh & _ & Hbox & _).
    split; [exact Hh | exact Hbox].
Defined.

Lemma query_rag_self_check_failure {Float Score : Type}
    (LLM_EMBEDDING_MODEL : option string)
    (ollama_embed : string -> string -> result (list Float))
    (CHUNKS_TO_RETURN : Z)
    (ollama_invoke : string -> result string)
    (similarity_search_with_score :
       VectorIndex Float -> string -> Z -> result (list (Document * Score)))
    (db : VectorIndex Float) (query_text : string) (e : py_error) :
  get_embedding_func LLM_EMBEDDING_MODEL ollama_embed = Raise e ->
  query_rag LLM_EMBEDDING_MODEL ollama_embed CHUNKS_TO_RETURN ollama_invoke
            similarity_search_with_score db query_text = Raise e.
Proof. intros H. unfold query_rag. by rewrite H. Qed.

(** X15. What the chat shows when the self check of the embeddings fails.
    The question stays in the history without an answer and the error text
    is shown. With no model name set, the text speaks of the model and the
    tip about the Ollama service is shown under it. When the service cannot
    be reached, the text does not contain the word the tip looks for, and
    the tip is not shown. *)
Theorem chat_tip_needs_the_word_model {Float Score : Type}
    (LLM_EMBEDDING_MODEL : option string)
    (ollama_embed : string -> string -> result (list Float))
    (CHUNKS_TO_RETURN : Z)
    (ollama_invoke : string -> result string)
    (similarity_search_with_score :
       VectorIndex Float -> string -> Z -> result (list (Document * Score)))
    (db : VectorIndex Float) (messages : list message) (text : string) :
  text <> EmptyString ->
  (LLM_EMBEDDING_MODEL = None \/ LLM_EMBEDDING_MODEL = Some EmptyString ->
   chat_turn LLM_EMBEDDING_MODEL ollama_embed CHUNKS_TO_RETURN ollama_invoke
             similarity_search_with_score db messages (Some text)
   = {| history := messages ++ [user_message text];
        boxes := [ErrorBox ("An error occurred: Invalid model configuration: "
                            +:+ "LLM_EMBEDDING_MODEL not set in configuration.env");
                  InfoBox ollama_tip];
        rerun := false |}) /\
  (forall name : string,
     LLM_EMBEDDING_MODEL = Some name -> name <> EmptyString ->
     ollama_embed name "test" = Raise ConnectionError ->
     chat_turn LLM_EMBEDDING_MODEL ollama_embed CHUNKS_TO_RETURN ollama_invoke
               similarity_search_with_score db messages (Some text)
     = {| history := messages ++ [user_message text];
          boxes := [ErrorBox ("An error occurred: "
                      +:+ "Failed to connect to Ollama. Is the Ollama service running?")];
          rerun := false |}).
Proof.
  intros Htext. destruct text as [|a text]; [done|]. split.
  - intros Hunset. unfold chat_turn.
    rewrite (query_rag_self_check_failure _ _ _ _ _ _ _
               (RuntimeError ("Invalid model configuration: "
                  +:+ "LLM_EMBEDDING_MODEL not set in configuration.env"))).
    + reflexivity.
    + by destruct Hunset as [-> | ->].
  - intros name Hname Hne Hdown. unfold chat_turn.
    rewrite (query_rag_self_check_failure _ _ _ _ _ _ _
               (RuntimeError
                  "Failed to connect to Ollama. Is the Ollama service running?")).
    + reflexivity.
    + subst LLM_EMBEDDING_MODEL. destruct name as [|b name]; [done|].
      unfold get_embedding_func, embedding_try, embed_query. simpl.
      by rewrite Hdown.
Qed.

Lemma chat_tip_needs_the_word_model_witness :
  chat_turn demo_model unreachable_embed 5 demo_invoke demo_search demo_db_a
            [] (Some "What is a chunk?")
  = {| history := [user_message "What is a chunk?"];
       boxes := [ErrorBox ("An error occurred: "
                   +:+ "Failed to connect to Ollama. Is the Ollama service running?")];
       rerun := false |}.
Proof.
  apply (proj2 (chat_tip_needs_the_word_model (Score:=Z) demo_model unreachable_embed 5
                  demo_invoke demo_search demo_db_a [] "What is a chunk?"
                  ltac:(discriminate)) "llama3.1:latest" eq_refl);
    [discriminate | reflexivity].
Defined.
